(** * MusicToolkit: the MCP request dispatchers of [api/index.py] and [api/mcp.py]

    A shallow embedding of the two JSON-RPC dispatchers (both called
    [handle_mcp_request]) with the tool functions they call, and the
    properties of the specification stated over them.

    Python values that reach the dispatcher are parsed JSON, so they are
    modelled by the type [json].  Everything outside the repository (the
    clock, the operating system, the network, the interpreter's libraries) is
    gathered in a record [World]; code that can raise or touch the outside
    lives in the monad [M]. *)

From Stdlib Require Import ZArith String Ascii List Bool Lia DecimalString.
From stdpp Require Import base strings gmap.
Import ListNotations.

#[local] Set Warnings "-register-all".
#[local] Open Scope Z_scope.

(* ===================================================================== *)
(** ** Parsed JSON values *)
(* ===================================================================== *)

(** What [json.loads] produces.  A dictionary keeps its insertion order (it
    is what [json.dumps] prints), hence an association list; [dict_get]
    reads the first binding of a key, and a parsed dictionary has one binding
    per key.  A float is carried by its Python [repr]: the dispatchers never
    compute with one, they only print it or test it against zero. *)
Inductive json : Type :=
| JNull
| JBool (b : bool)
| JInt (n : Z)
| JFloat (repr : string)
| JStr (s : string)
| JList (l : list json)
| JObj (d : list (string * json)).

Definition dict : Type := list (string * json).

(** [d.get(k)] as an option, and [d.get(k, default)]. *)
Fixpoint dict_get (k : string) (d : dict) : option json :=
  match d with
  | [] => None
  | (k', v) :: rest => if String.eqb k k' then Some v else dict_get k rest
  end.

Definition dict_get_or (k : string) (default : json) (d : dict) : json :=
  match dict_get k d with
  | Some v => v
  | None => default
  end.

(** [k in d]. *)
Definition dict_has (k : string) (d : dict) : bool :=
  match dict_get k d with
  | Some _ => true
  | None => false
  end.

(** [d[k] = v]: an existing key keeps its place, a new one goes last. *)
Fixpoint dict_set (k : string) (v : json) (d : dict) : dict :=
  match d with
  | [] => [(k, v)]
  | (k', v') :: rest =>
      if String.eqb k k' then (k, v) :: rest else (k', v') :: dict_set k v rest
  end.

(** Python truthiness, as [if x:] and [not x] test it. *)
Definition truthy (v : json) : bool :=
  match v with
  | JNull => false
  | JBool b => b
  | JInt n => negb (n =? 0)
  | JFloat r => negb (String.eqb r "0.0" || String.eqb r "-0.0")
  | JStr s => negb (String.eqb s "")
  | JList l => match l with [] => false | _ => true end
  | JObj d => match d with [] => false | _ => true end
  end.

(** [x == "literal"]: only a string can equal a string. *)
Definition eq_str (v : json) (lit : string) : bool :=
  match v with
  | JStr s => String.eqb s lit
  | _ => false
  end.

(** [x is None]. *)
Definition is_None (v : json) : bool :=
  match v with
  | JNull => true
  | _ => false
  end.

(** [type(x).__name__]. *)
Definition type_name (v : json) : string :=
  match v with
  | JNull => "NoneType"
  | JBool _ => "bool"
  | JInt _ => "int"
  | JFloat _ => "float"
  | JStr _ => "str"
  | JList _ => "list"
  | JObj _ => "dict"
  end.

(* ===================================================================== *)
(** ** Text: quotes, numbers, [str], [json.dumps], base64 *)
(* ===================================================================== *)

Definition dquote : string := String (ascii_of_nat 34) EmptyString.
Definition backslash : string := String (ascii_of_nat 92) EmptyString.
Definition newline : string := String (ascii_of_nat 10) EmptyString.

(** The templates of the source are full of double quotes; they are written
    here with apostrophes (the templates have none of their own) and [dq]
    puts the double quotes back. *)
Fixpoint dq (s : string) : string :=
  match s with
  | EmptyString => EmptyString
  | String c rest =>
      String (if Ascii.eqb c (ascii_of_nat 39) then ascii_of_nat 34 else c) (dq rest)
  end.

(** [str(n)] for an integer. *)
Definition str_int (n : Z) : string := NilZero.string_of_int (Z.to_int n).

Fixpoint repeat_str (n : nat) (s : string) : string :=
  match n with
  | O => EmptyString
  | S n' => s +:+ repeat_str n' s
  end.

(** Decimal with leading zeros up to [width] digits, as [strftime] prints
    the month, the day, the hour..., and a year of four digits. *)
Definition zero_pad (width : nat) (n : Z) : string :=
  let digits := str_int n in
  repeat_str (width - String.length digits) "0" +:+ digits.

Definition hex_digit (n : Z) : string :=
  String (ascii_of_nat (Z.to_nat (if n <? 10 then 48 + n else 87 + n))) EmptyString.

(** [format(n, "04x")] for [0 <= n < 65536]. *)
Definition hex4 (n : Z) : string :=
  hex_digit (n / 4096 mod 16) +:+ hex_digit (n / 256 mod 16) +:+
  hex_digit (n / 16 mod 16) +:+ hex_digit (n mod 16).

Definition byte_of (c : ascii) : Z := Z.of_nat (nat_of_ascii c).
Definition char_of (b : Z) : string := String (ascii_of_nat (Z.to_nat b)) EmptyString.

(** One code point as [json.dumps] (with its default [ensure_ascii]) writes
    it inside a string. *)
Definition json_escape_char (cp : Z) : string :=
  if cp =? 34 then backslash +:+ dquote
  else if cp =? 92 then backslash +:+ backslash
  else if cp =? 10 then backslash +:+ "n"
  else if cp =? 13 then backslash +:+ "r"
  else if cp =? 9 then backslash +:+ "t"
  else if cp =? 8 then backslash +:+ "b"
  else if cp =? 12 then backslash +:+ "f"
  else if (32 <=? cp) && (cp <=? 126) then char_of cp
  else if cp <? 65536 then backslash +:+ "u" +:+ hex4 cp
  else
    let n := cp - 65536 in
    backslash +:+ "u" +:+ hex4 (Z.lor 55296 (Z.land (Z.shiftr n 10) 1023)) +:+
    backslash +:+ "u" +:+ hex4 (Z.lor 56320 (Z.land n 1023)).

(** A Python [str] is held as its UTF-8 bytes; [json_escape] decodes the
    code points on the way ([acc] is the code point being read, [need] the
    continuation bytes still due). *)
Fixpoint json_escape (s : string) (acc : Z) (need : nat) : string :=
  match s with
  | EmptyString => EmptyString
  | String c rest =>
      let b := byte_of c in
      match need with
      | S n =>
          let acc' := acc * 64 + b mod 64 in
          match n with
          | O => json_escape_char acc' +:+ json_escape rest 0 O
          | S _ => json_escape rest acc' n
          end
      | O =>
          if b <? 128 then json_escape_char b +:+ json_escape rest 0 O
          else if b <? 224 then json_escape rest (b mod 32) 1
          else if b <? 240 then json_escape rest (b mod 16) 2
          else json_escape rest (b mod 8) 3
      end
  end.

Definition json_string (s : string) : string :=
  dquote +:+ json_escape s 0 O +:+ dquote.

(** A float in JSON text: its [repr], but for the three that JSON spells
    differently. *)
Definition json_float (r : string) : string :=
  if String.eqb r "nan" then "NaN"
  else if String.eqb r "inf" then "Infinity"
  else if String.eqb r "-inf" then "-Infinity"
  else r.

Definition newline_indent (indent level : nat) : string :=
  newline +:+ repeat_str (indent * level) " ".

(** [json.dumps(v, indent=indent)], at nesting depth [level]. *)
Fixpoint json_dumps_at (indent level : nat) (v : json) {struct v} : string :=
  match v with
  | JNull => "null"
  | JBool true => "true"
  | JBool false => "false"
  | JInt n => str_int n
  | JFloat r => json_float r
  | JStr s => json_string s
  | JList [] => "[]"
  | JList (x :: xs) =>
      "[" +:+ newline_indent indent (S level) +:+ json_dumps_at indent (S level) x +:+
      (fix items (l : list json) : string :=
         match l with
         | [] => EmptyString
         | y :: ys =>
             "," +:+ newline_indent indent (S level) +:+
             json_dumps_at indent (S level) y +:+ items ys
         end) xs +:+
      newline_indent indent level +:+ "]"
  | JObj [] => "{}"
  | JObj ((k, x) :: d) =>
      "{" +:+ newline_indent indent (S level) +:+
      json_string k +:+ ": " +:+ json_dumps_at indent (S level) x +:+
      (fix items (l : dict) : string :=
         match l with
         | [] => EmptyString
         | (k', y) :: ys =>
             "," +:+ newline_indent indent (S level) +:+
             json_string k' +:+ ": " +:+ json_dumps_at indent (S level) y +:+ items ys
         end) d +:+
      newline_indent indent level +:+ "}"
  end.

Definition json_dumps (v : json) (indent : nat) : string := json_dumps_at indent 0 v.

Definition b64_char (n : Z) : string :=
  char_of (if n <? 26 then 65 + n
           else if n <? 52 then 71 + n
           else if n <? 62 then n - 4
           else if n =? 62 then 43 else 47).

(** [base64.b64encode] over the byte values of its argument. *)
Fixpoint b64_bytes (l : list Z) : string :=
  match l with
  | [] => EmptyString
  | [a] =>
      b64_char (a / 4) +:+ b64_char (a mod 4 * 16) +:+ "=="
  | [a; b] =>
      b64_char (a / 4) +:+ b64_char (a mod 4 * 16 + b / 16) +:+
      b64_char (b mod 16 * 4) +:+ "="
  | a :: b :: c :: rest =>
      b64_char (a / 4) +:+ b64_char (a mod 4 * 16 + b / 16) +:+
      b64_char (b mod 16 * 4 + c / 64) +:+ b64_char (c mod 64) +:+ b64_bytes rest
  end.

Fixpoint bytes_of (s : string) : list Z :=
  match s with
  | EmptyString => []
  | String c rest => byte_of c :: bytes_of rest
  end.

(** [base64.b64encode(s.encode("utf-8")).decode("utf-8")]. *)
Definition b64encode (s : string) : string := b64_bytes (bytes_of s).

(** [s.startswith(p)]. *)
Definition startswith (s p : string) : bool := String.prefix p s.

(** The part of a path after its last slash ([os.path.basename]). *)
Fixpoint basename_from (s acc : string) : string :=
  match s with
  | EmptyString => acc
  | String c rest =>
      if Ascii.eqb c (ascii_of_nat 47) then basename_from rest EmptyString
      else basename_from rest (acc +:+ String c EmptyString)
  end.

Definition basename (s : string) : string := basename_from s EmptyString.

(* ===================================================================== *)
(** ** Exceptions and the monad of the dispatchers *)
(* ===================================================================== *)

(** A raised exception: its class and what [str(e)] prints. *)
Record exn : Type := Exn { exn_class : string; exn_str : string }.

Inductive outcome (A : Type) : Type :=
| Return (a : A)
| Raise (e : exn).

Arguments Return {A} a.
Arguments Raise {A} e.

Record datetime : Type := DateTime
  { year : Z; month : Z; day : Z; hour : Z; minute : Z; second : Z }.

(** [d.strftime("%Y%m%d_%H%M%S")] and [d.strftime("%Y-%m-%d")]. *)
Definition strftime_stamp (d : datetime) : string :=
  zero_pad 4 (year d) +:+ zero_pad 2 (month d) +:+ zero_pad 2 (day d) +:+ "_" +:+
  zero_pad 2 (hour d) +:+ zero_pad 2 (minute d) +:+ zero_pad 2 (second d).

Definition strftime_date (d : datetime) : string :=
  zero_pad 4 (year d) +:+ "-" +:+ zero_pad 2 (month d) +:+ "-" +:+ zero_pad 2 (day d).

(** One part of a [files=] upload. *)
Record FilePart : Type := mkFilePart
  { part_field : string; part_filename : string; part_body : string;
    part_type : option string }.

(** The arguments of one [requests.post]. *)
Record HttpCall : Type := mkHttpCall
  { url : string; json_body : option json; files : list FilePart;
    data : dict; timeout : option Z }.

(** A [requests.Response]: [parsed] is what [.json()] does, return the
    parsed body or raise. *)
Record Response : Type := mkResponse
  { status_code : Z; text : string; content : string; parsed : outcome json }.

(** Everything the code asks of the outside.  The outside may answer each
    question differently: clock, operating system and network are indexed by
    the number of questions asked so far ([tick]).  The last five fields are
    the interpreter's libraries: [repr] of a string (it depends on the
    Unicode tables), and what the validation of [MCPRequest] makes of a
    value that is not already of the declared type (it depends on the
    version of the model library, which [api/mcp.py] does not even import). *)
Record World : Type := mkWorld
  { clock : nat -> datetime;
    os_fault : nat -> option exn;
    network : nat -> HttpCall -> outcome Response;
    fd_exists : Z -> outcome bool;
    fd_read : Z -> outcome string;
    repr_str : string -> string;
    lax_int : json -> option Z;
    lax_str : json -> option string;
    lax_dict : json -> option dict;
    validation_error : dict -> string }.

(** What the code changes: the files and directories it creates, and the
    count of questions asked.  Paths are opaque names. *)
Record State : Type := mkState
  { tick : nat; fs_files : gmap string string; fs_dirs : gset string }.

Definition bump (s : State) : State :=
  mkState (S (tick s)) (fs_files s) (fs_dirs s).

(** A computation reads and changes the state and returns or raises; the
    state survives an exception, as in Python. *)
Definition M (A : Type) : Type := State -> outcome A * State.

Definition ret {A : Type} (a : A) : M A := fun s => (Return a, s).

Definition raise {A : Type} (e : exn) : M A := fun s => (Raise e, s).

Definition bind {A B : Type} (c : M A) (f : A -> M B) : M B :=
  fun s =>
    match c s with
    | (Return a, s') => f a s'
    | (Raise e, s') => (Raise e, s')
    end.

(** [try: c  except Exception as e: h e]. *)
Definition try_except {A : Type} (c : M A) (h : exn -> M A) : M A :=
  fun s =>
    match c s with
    | (Return a, s') => (Return a, s')
    | (Raise e, s') => h e s'
    end.

Definition lift {A : Type} (o : outcome A) : M A := fun s => (o, s).

Declare Scope py_scope.
Delimit Scope py_scope with py.
Notation "x <- c ;; k" := (bind c (fun x => k))
  (at level 100, c at next level, right associativity) : py_scope.
Notation "c ;;; k" := (bind c (fun _ => k))
  (at level 100, right associativity) : py_scope.
#[local] Open Scope py_scope.

Definition TypeError (msg : string) : exn := Exn "TypeError" msg.
Definition AttributeError (msg : string) : exn := Exn "AttributeError" msg.
Definition KeyError (msg : string) : exn := Exn "KeyError" msg.
Definition Exception (msg : string) : exn := Exn "Exception" msg.

(** [v.get(k, default)]: a dictionary answers, anything else has no [get]. *)
Definition py_get (v : json) (k : string) (default : json) : M json :=
  match v with
  | JObj d => ret (dict_get_or k default d)
  | _ => raise (AttributeError
                  ("'" +:+ type_name v +:+ "' object has no attribute 'get'"))
  end.

(** [result["message"] += suffix], the message being a string. *)
Definition message_append (result : dict) (suffix : string) : dict :=
  match dict_get "message" result with
  | Some (JStr m) => dict_set "message" (JStr (m +:+ suffix)) result
  | _ => result
  end.

(** The first key of [d] that is no parameter name, the first required
    parameter that [d] does not give, and the values of the parameters, a
    default standing for a key that is absent. *)
Fixpoint first_unknown (names : list string) (d : dict) : option string :=
  match d with
  | [] => None
  | (k, _) :: rest =>
      if existsb (String.eqb k) names then first_unknown names rest else Some k
  end.

Fixpoint first_missing (sig : list (string * option json)) (d : dict) : option string :=
  match sig with
  | [] => None
  | (p, Some _) :: rest => first_missing rest d
  | (p, None) :: rest => if dict_has p d then first_missing rest d else Some p
  end.

Definition bind_defaults (sig : list (string * option json)) (d : dict) : list json :=
  map (fun '(p, default) =>
         match dict_get p d, default with
         | Some v, _ => v
         | None, Some v => v
         | None, None => JNull
         end) sig.

(** A call of [f] with the entries of [arguments] as its keyword arguments
    (the double-star call), [f] having the parameters [sig], each with its
    default or [None] when it is required: the values of the parameters in
    order, or the [TypeError] of the call. *)
Definition call_kwargs (fname : string) (sig : list (string * option json))
    (arguments : json) : M (list json) :=
  match arguments with
  | JObj d =>
      match first_unknown (map fst sig) d with
      | Some k =>
          raise (TypeError (fname +:+ "() got an unexpected keyword argument '" +:+ k +:+ "'"))
      | None =>
          match first_missing sig d with
          | Some p =>
              raise (TypeError
                       (fname +:+ "() missing 1 required positional argument: '" +:+ p +:+ "'"))
          | None => ret (bind_defaults sig d)
          end
      end
  | _ =>
      raise (TypeError
               (fname +:+ "() argument after ** must be a mapping, not " +:+ type_name arguments))
  end.

(** The two envelopes every branch of both dispatchers builds. *)
Definition rpc_result (request_id : json) (result : json) : json :=
  JObj [("jsonrpc", JStr "2.0"); ("id", request_id); ("result", result)].

Definition rpc_error (request_id : json) (code : Z) (message : string) : json :=
  JObj [("jsonrpc", JStr "2.0"); ("id", request_id);
        ("error", JObj [("code", JInt code); ("message", JStr message)])].

(** The text block a tool call answers with. *)
Definition text_content (t : string) : json :=
  JObj [("content", JList [JObj [("type", JStr "text"); ("text", JStr t)]])].

Definition VEROVIO_API_URL : string :=
  "https://ykzou1214--verovio-api-fastapi-app.modal.run".
Definition MUSICGEN_API_URL : string :=
  "https://ykzou1214--musicgen-melody-api-inference-api.modal.run".

Section Outside.

Variable w : World.

(** [repr(v)] and [str(v)] (what an f-string prints). *)
Fixpoint py_repr (v : json) {struct v} : string :=
  match v with
  | JNull => "None"
  | JBool true => "True"
  | JBool false => "False"
  | JInt n => str_int n
  | JFloat r => r
  | JStr s => repr_str w s
  | JList [] => "[]"
  | JList (x :: xs) =>
      "[" +:+ py_repr x +:+
      (fix items (l : list json) : string :=
         match l with
         | [] => EmptyString
         | y :: ys => ", " +:+ py_repr y +:+ items ys
         end) xs +:+ "]"
  | JObj [] => "{}"
  | JObj ((k, x) :: d) =>
      "{" +:+ repr_str w k +:+ ": " +:+ py_repr x +:+
      (fix items (l : dict) : string :=
         match l with
         | [] => EmptyString
         | (k', y) :: ys => ", " +:+ repr_str w k' +:+ ": " +:+ py_repr y +:+ items ys
         end) d +:+ "}"
  end.

Definition py_str (v : json) : string :=
  match v with
  | JStr s => s
  | _ => py_repr v
  end.

(** [datetime.now()]. *)
Definition now : M datetime :=
  fun s => (Return (clock w (tick s)), bump s).

(** [requests.post(...)]. *)
Definition requests_post (c : HttpCall) : M Response :=
  fun s => (network w (tick s) c, bump s).

(** [response.json()]. *)
Definition response_json (r : Response) : M json := lift (parsed r).

(** A call into the operating system: it fails when the world says so. *)
Definition os_call {A : Type} (k : M A) : M A :=
  fun s =>
    match os_fault w (tick s) with
    | Some e => (Raise e, bump s)
    | None => k (bump s)
    end.

End Outside.

(* ===================================================================== *)
(** ** [api/index.py] *)
(* ===================================================================== *)

Module Index.
Section WithWorld.

Variable w : World.

(** [create_placeholder_musicxml(title="Generated Music", timestamp=None)].
    The time stamp is computed when none is given and then never used; the
    encoding date is read from the clock in every case. *)
Definition create_placeholder_musicxml (title : string) (timestamp : json) : M string :=
  _ <- (if is_None timestamp
        then (d <- now w ;; ret (JStr (strftime_stamp d)))
        else ret timestamp) ;;
  today <- now w ;;
  ret (dq "<?xml version='1.0' encoding='UTF-8'?>
<score-partwise version='3.1'>
  <work>
    <work-title>" +:+ title +:+ dq "</work-title>
  </work>
  <identification>
    <creator type='composer'>MusicToolkit AI</creator>
    <encoding>
      <software>MusicToolkit MCP Server</software>
      <encoding-date>" +:+ strftime_date today +:+ dq "</encoding-date>
    </encoding>
  </identification>
  <part-list>
    <score-part id='P1'>
      <part-name>Generated Part</part-name>
    </score-part>
  </part-list>
  <part id='P1'>
    <measure number='1'>
      <attributes>
        <divisions>4</divisions>
        <key>
          <fifths>0</fifths>
        </key>
        <time>
          <beats>4</beats>
          <beat-type>4</beat-type>
        </time>
        <clef>
          <sign>G</sign>
          <line>2</line>
        </clef>
      </attributes>
      <note>
        <pitch>
          <step>C</step>
          <octave>4</octave>
        </pitch>
        <duration>4</duration>
        <type>quarter</type>
      </note>
      <note>
        <pitch>
          <step>D</step>
          <octave>4</octave>
        </pitch>
        <duration>4</duration>
        <type>quarter</type>
      </note>
      <note>
        <pitch>
          <step>E</step>
          <octave>4</octave>
        </pitch>
        <duration>4</duration>
        <type>quarter</type>
      </note>
      <note>
        <pitch>
          <step>F</step>
          <octave>4</octave>
        </pitch>
        <duration>4</duration>
        <type>quarter</type>
      </note>
    </measure>
  </part>
</score-partwise>").

(** [wav_to_music_score(wav_path, render_svg=True, timestamp=None)].  The
    handler of the inner [try] starts from [result] as built before it:
    nothing in the [try] changes [result] before the last point that can
    raise. *)
Definition wav_to_music_score (wav_path render_svg timestamp : json) : M dict :=
  try_except
    (musicxml_content <- create_placeholder_musicxml "Audio Conversion" timestamp ;;
     let result : dict :=
       [("success", JBool true);
        ("musicxml", JStr musicxml_content);
        ("message",
         JStr "Placeholder MusicXML generated (basic-pitch not available in deployment)")] in
     if truthy render_svg then
       try_except
         (verovio_response <-
            requests_post w
              (mkHttpCall (VEROVIO_API_URL +:+ "/render_musicxml")
                 (Some (JObj [("musicxml", JStr musicxml_content)])) [] [] (Some 30)) ;;
          if status_code verovio_response =? 200 then
            svg_data <- response_json verovio_response ;;
            svg <- py_get svg_data "svg" (JStr "") ;;
            ret (message_append (dict_set "svg" svg result) " with SVG rendering")
          else
            ret (message_append (dict_set "svg" (JStr "") result)
                   " (SVG rendering failed)"))
         (fun e =>
            ret (message_append (dict_set "svg" (JStr "") result)
                   (" (SVG error: " +:+ exn_str e +:+ ")")))
     else ret result)
    (fun e =>
       ret [("success", JBool false);
            ("error", JStr (exn_str e));
            ("message", JStr "Failed to process audio file")]).

(** [generate_music_from_humming(humming_path, generate_score=True, timestamp=None)]. *)
Definition generate_music_from_humming (humming_path generate_score timestamp : json)
  : M dict :=
  try_except
    (result <-
       try_except
         (musicgen_response <-
            requests_post w
              (mkHttpCall (MUSICGEN_API_URL +:+ "/generate")
                 (Some (JObj [("audio_path", humming_path); ("duration", JInt 30)]))
                 [] [] (Some 60)) ;;
          if status_code musicgen_response =? 200 then
            generation_data <- response_json musicgen_response ;;
            audio_url <- py_get generation_data "audio_url" (JStr "") ;;
            ret [("success", JBool true);
                 ("generated_audio", audio_url);
                 ("message", JStr "Music generated successfully using MusicGen")]
          else
            raise (Exception
                     ("MusicGen API error: " +:+ str_int (status_code musicgen_response))))
         (fun api_error =>
            ret [("success", JBool true);
                 ("generated_audio", JStr "");
                 ("message",
                  JStr ("Placeholder response (MusicGen API unavailable: " +:+
                        exn_str api_error +:+ ")"))]) ;;
     if truthy generate_score then
       musicxml_content <- create_placeholder_musicxml "Generated from Humming" timestamp ;;
       ret (message_append (dict_set "musicxml" (JStr musicxml_content) result)
              " with MusicXML score")
     else ret result)
    (fun e =>
       ret [("success", JBool false);
            ("error", JStr (exn_str e));
            ("message", JStr "Failed to generate music from humming")]).

(** The two descriptors [tools/list] answers with. *)
Definition tools : json :=
  JList
    [JObj
       [("name", JStr "wav_to_music_score");
        ("description",
         JStr "Convert WAV audio files to MusicXML scores with optional SVG rendering");
        ("inputSchema",
         JObj
           [("type", JStr "object");
            ("properties",
             JObj
               [("wav_path",
                 JObj [("type", JStr "string");
                       ("description", JStr "Path to WAV audio file")]);
                ("render_svg",
                 JObj [("type", JStr "boolean");
                       ("description", JStr "Whether to render SVG");
                       ("default", JBool true)]);
                ("timestamp",
                 JObj [("type", JStr "string");
                       ("description", JStr "Optional timestamp for file naming")])]);
            ("required", JList [JStr "wav_path"])])];
     JObj
       [("name", JStr "generate_music_from_humming");
        ("description", JStr "Generate full music from humming audio using AI");
        ("inputSchema",
         JObj
           [("type", JStr "object");
            ("properties",
             JObj
               [("humming_path",
                 JObj [("type", JStr "string");
                       ("description", JStr "Path to humming audio file")]);
                ("generate_score",
                 JObj [("type", JStr "boolean");
                       ("description", JStr "Whether to generate music score");
                       ("default", JBool true)]);
                ("timestamp",
                 JObj [("type", JStr "string");
                       ("description", JStr "Optional timestamp for file naming")])]);
            ("required", JList [JStr "humming_path"])])]].

(** The call of a tool function with the request's [arguments] as keyword
    arguments. *)
Definition call_wav_to_music_score (arguments : json) : M dict :=
  args <- call_kwargs "wav_to_music_score"
            [("wav_path", None); ("render_svg", Some (JBool true)); ("timestamp", Some JNull)]
            arguments ;;
  match args with
  | [wav_path; render_svg; timestamp] => wav_to_music_score wav_path render_svg timestamp
  | _ => raise (TypeError "wav_to_music_score()")
  end.

Definition call_generate_music_from_humming (arguments : json) : M dict :=
  args <- call_kwargs "generate_music_from_humming"
            [("humming_path", None); ("generate_score", Some (JBool true));
             ("timestamp", Some JNull)]
            arguments ;;
  match args with
  | [humming_path; generate_score; timestamp] =>
      generate_music_from_humming humming_path generate_score timestamp
  | _ => raise (TypeError "generate_music_from_humming()")
  end.

(** The statements under [try:] in [handle_mcp_request]. *)
Definition dispatch (method params request_id : json) : M json :=
  if eq_str method "initialize" then
    ret (rpc_result request_id
           (JObj
              [("protocolVersion", JStr "2024-11-05");
               ("capabilities",
                JObj [("tools", JObj []); ("resources", JObj []); ("prompts", JObj [])]);
               ("serverInfo",
                JObj [("name", JStr "MusicToolkit MCP Server");
                      ("version", JStr "1.14.0")])]))
  else if eq_str method "tools/list" then
    ret (rpc_result request_id (JObj [("tools", tools)]))
  else if eq_str method "tools/call" then
    tool_name <- py_get params "name" JNull ;;
    arguments <- py_get params "arguments" (JObj []) ;;
    result <-
      (if eq_str tool_name "wav_to_music_score" then
         call_wav_to_music_score arguments
       else if eq_str tool_name "generate_music_from_humming" then
         call_generate_music_from_humming arguments
       else raise (Exception ("Unknown tool: " +:+ py_str w tool_name))) ;;
    ret (rpc_result request_id (text_content (json_dumps (JObj result) 2)))
  else if eq_str method "resources/list" then
    ret (rpc_result request_id (JObj [("resources", JList [])]))
  else if eq_str method "prompts/list" then
    ret (rpc_result request_id (JObj [("prompts", JList [])]))
  else
    ret (rpc_error request_id (-32601) ("Method not found: " +:+ py_str w method)).

(** [handle_mcp_request(request_data)]. *)
Definition handle_mcp_request (request_data : dict) : M json :=
  let method := dict_get_or "method" JNull request_data in
  let params := dict_get_or "params" (JObj []) request_data in
  let request_id := dict_get_or "id" (JInt 0) request_data in
  try_except
    (dispatch method params request_id)
    (fun e => ret (rpc_error request_id (-32603) ("Internal error: " +:+ exn_str e))).

End WithWorld.
End Index.

(* ===================================================================== *)
(** ** [api/mcp.py] *)
(* ===================================================================== *)

Module Mcp.
Section WithWorld.

Variable w : World.

(** [Path(a) / b]. *)
Definition path_join (a b : string) : string :=
  if startswith b "/" then b else a +:+ "/" +:+ b.

(** [Path(p).mkdir(exist_ok=True)]. *)
Definition mkdir_exist_ok (p : string) : M unit :=
  os_call w
    (fun s =>
       if bool_decide (p ∈ dom (fs_files s)) then
         (Raise (Exn "FileExistsError"
                   ("[Errno 17] File exists: " +:+ repr_str w p)), s)
       else (Return tt, mkState (tick s) (fs_files s) ({[p]} ∪ fs_dirs s))).

(** [with open(p, "w") as f: f.write(body)], and the same with ["wb"]. *)
Definition write_file (p body : string) : M unit :=
  os_call w
    (fun s =>
       if bool_decide (p ∈ fs_dirs s) then
         (Raise (Exn "IsADirectoryError"
                   ("[Errno 21] Is a directory: " +:+ repr_str w p)), s)
       else (Return tt, mkState (tick s) (<[p := body]> (fs_files s)) (fs_dirs s))).

(** [open(p, "rb")] and the reading of the file by the upload.  An integer
    is a file descriptor, whose content is the world's. *)
Definition open_rb (p : json) : M string :=
  match p with
  | JStr path =>
      os_call w
        (fun s =>
           match fs_files s !! path with
           | Some body => (Return body, s)
           | None =>
               if bool_decide (path ∈ fs_dirs s) then
                 (Raise (Exn "IsADirectoryError"
                           ("[Errno 21] Is a directory: " +:+ repr_str w path)), s)
               else
                 (Raise (Exn "FileNotFoundError"
                           ("[Errno 2] No such file or directory: " +:+ repr_str w path)), s)
           end)
  | JInt n => fun s => (fd_read w n, bump s)
  | JBool b => fun s => (fd_read w (if b then 1 else 0), bump s)
  | JFloat _ => raise (TypeError "integer argument expected, got float")
  | _ =>
      raise (TypeError
               ("expected str, bytes or os.PathLike object, not " +:+ type_name p))
  end.

(** [os.path.exists(p)]: an error of the operating system reads as
    [False]; an integer is a file descriptor; other values are no path. *)
Definition os_path_exists (p : json) : M bool :=
  match p with
  | JStr path =>
      fun s =>
        match os_fault w (tick s) with
        | Some _ => (Return false, bump s)
        | None =>
            (Return (bool_decide (path ∈ dom (fs_files s)) ||
                     bool_decide (path ∈ fs_dirs s)), bump s)
        end
  | JInt n => fun s => (fd_exists w n, bump s)
  | JBool b => fun s => (fd_exists w (if b then 1 else 0), bump s)
  | _ =>
      raise (TypeError
               ("stat: path should be string, bytes, os.PathLike or integer, not "
                +:+ type_name p))
  end.

Definition placeholder_musicxml : string :=
  dq "<?xml version='1.0' encoding='UTF-8'?>
<!DOCTYPE score-partwise PUBLIC '-//Recordare//DTD MusicXML 3.1 Partwise//EN' 'http://www.musicxml.org/dtds/partwise.dtd'>
<score-partwise version='3.1'>
  <part-list>
    <score-part id='P1'>
      <part-name>Generated from Audio</part-name>
    </score-part>
  </part-list>
  <part id='P1'>
    <measure number='1'>
      <attributes>
        <divisions>1</divisions>
        <key>
          <fifths>0</fifths>
        </key>
        <time>
          <beats>4</beats>
          <beat-type>4</beat-type>
        </time>
        <clef>
          <sign>G</sign>
          <line>2</line>
        </clef>
      </attributes>
      <note>
        <pitch>
          <step>C</step>
          <octave>4</octave>
        </pitch>
        <duration>1</duration>
        <type>quarter</type>
      </note>
      <note>
        <pitch>
          <step>D</step>
          <octave>4</octave>
        </pitch>
        <duration>1</duration>
        <type>quarter</type>
      </note>
      <note>
        <pitch>
          <step>E</step>
          <octave>4</octave>
        </pitch>
        <duration>1</duration>
        <type>quarter</type>
      </note>
      <note>
        <pitch>
          <step>F</step>
          <octave>4</octave>
        </pitch>
        <duration>1</duration>
        <type>quarter</type>
      </note>
    </measure>
  </part>
</score-partwise>".

(** [wav_to_musicxml(wav_path, timestamp=None)]: the audio is not read. *)
Definition wav_to_musicxml (wav_path : json) (timestamp : option string) : M string :=
  timestamp <-
    (match timestamp with
     | Some t => if String.eqb t "" then (d <- now w ;; ret (strftime_stamp d)) else ret t
     | None => d <- now w ;; ret (strftime_stamp d)
     end) ;;
  let output_dir := "/tmp/output" in
  mkdir_exist_ok output_dir ;;;
  let musicxml_path := path_join output_dir ("generated_" +:+ timestamp +:+ ".musicxml") in
  write_file musicxml_path placeholder_musicxml ;;;
  ret musicxml_path.

(** [response.json()["svg"]]. *)
Definition subscript_svg (v : json) : M json :=
  match v with
  | JObj d =>
      match dict_get "svg" d with
      | Some x => ret x
      | None => raise (KeyError "'svg'")
      end
  | JList _ => raise (TypeError "list indices must be integers or slices, not str")
  | JStr _ => raise (TypeError "string indices must be integers, not 'str'")
  | _ => raise (TypeError ("'" +:+ type_name v +:+ "' object is not subscriptable"))
  end.

(** [svg.encode("utf-8")], then base64. *)
Definition encode_b64 (svg : json) : M string :=
  match svg with
  | JStr s => ret (b64encode s)
  | _ =>
      raise (AttributeError
               ("'" +:+ type_name svg +:+ "' object has no attribute 'encode'"))
  end.

(** [render_musicxml_via_verovio_api(musicxml_path)]. *)
Definition render_musicxml_via_verovio_api (musicxml_path : string) : M string :=
  if String.eqb VEROVIO_API_URL "" then ret "❌ VEROVIO_API_URL is not configured"
  else
    posted <-
      try_except
        (body <- open_rb (JStr musicxml_path) ;;
         response <-
           requests_post w
             (mkHttpCall VEROVIO_API_URL None
                [mkFilePart "file" (basename musicxml_path) body None] [] None) ;;
         ret (inr response))
        (fun e => ret (inl ("❌ Verovio API call failed: " +:+ exn_str e))) ;;
    match posted with
    | inl failure => ret failure
    | inr response =>
        if negb (status_code response =? 200) then
          ret ("❌ Verovio API error " +:+ str_int (status_code response) +:+ ": "
               +:+ text response)
        else
          try_except
            (parsed_body <- response_json response ;;
             svg <- subscript_svg parsed_body ;;
             svg_b64 <- encode_b64 svg ;;
             ret (dq "
        <div style='background-color: white; padding: 10px; border-radius: 8px;'>
            <img src='data:image/svg+xml;base64," +:+ svg_b64 +:+ dq "' style='width:100%; max-height:600px;' />
        </div>
        "))
            (fun e => ret ("⚠️ Failed to parse SVG: " +:+ exn_str e))
    end.

(** [generate_music_from_hum(melody_file, prompt)]. *)
Definition generate_music_from_hum (melody_file prompt : json) : M string :=
  if String.eqb MUSICGEN_API_URL "" then ret "❌ MUSICGEN_API_URL is not configured."
  else
    d <- now w ;;
    let timestamp := strftime_stamp d in
    let output_dir := "/tmp/output" in
    mkdir_exist_ok output_dir ;;;
    let wav_out_path := path_join output_dir ("generated_" +:+ timestamp +:+ ".wav") in
    try_except
      (body <- open_rb melody_file ;;
       response <-
         requests_post w
           (mkHttpCall MUSICGEN_API_URL None
              [mkFilePart "melody" "hum.wav" body (Some "audio/wav")]
              [("text", prompt)] None) ;;
       if negb (status_code response =? 200) then
         ret ("❌ API error " +:+ str_int (status_code response) +:+ ": " +:+ text response)
       else
         write_file wav_out_path (content response) ;;;
         ret wav_out_path)
      (fun e => ret ("❌ Music generation failed: " +:+ exn_str e)).

(** [class MCPRequest(BaseModel)]. *)
Record MCPRequest : Type := mkMCPRequest
  { req_jsonrpc : string; req_id : Z; req_method : string; req_params : dict }.

(** The validation of one field: a value of the declared type is taken as
    it is, any other is the library's to convert or refuse. *)
Definition field_int (v : json) : option Z :=
  match v with
  | JInt n => Some n
  | _ => lax_int w v
  end.

Definition field_str (v : json) : option string :=
  match v with
  | JStr s => Some s
  | _ => lax_str w v
  end.

Definition field_dict (v : json) : option dict :=
  match v with
  | JObj d => Some d
  | _ => lax_dict w v
  end.

(** The construction of an [MCPRequest] from the keys of [request_data]:
    [id] and [method] are required, [jsonrpc] and [params] have defaults,
    other keys are ignored. *)
Definition validate (request_data : dict) : option MCPRequest :=
  match
    (match dict_get "jsonrpc" request_data with
     | Some v => field_str v
     | None => Some "2.0"
     end),
    (match dict_get "id" request_data with
     | Some v => field_int v
     | None => None
     end),
    (match dict_get "method" request_data with
     | Some v => field_str v
     | None => None
     end),
    (match dict_get "params" request_data with
     | Some v => field_dict v
     | None => Some []
     end)
  with
  | Some j, Some i, Some m, Some p => Some (mkMCPRequest j i m p)
  | _, _, _, _ => None
  end.

Definition MCPRequest_init (request_data : dict) : M MCPRequest :=
  match validate request_data with
  | Some request => ret request
  | None => raise (Exn "ValidationError" (validation_error w request_data))
  end.

(** The two descriptors [tools/list] answers with. *)
Definition tools : json :=
  JList
    [JObj
       [("name", JStr "wav_to_music_score");
        ("description",
         JStr "Convert a WAV audio file to a MusicXML score and render it as an SVG image");
        ("inputSchema",
         JObj
           [("type", JStr "object");
            ("properties",
             JObj
               [("wav_file_path",
                 JObj [("type", JStr "string");
                       ("description", JStr "Path to the input WAV audio file")]);
                ("render_svg",
                 JObj [("type", JStr "boolean");
                       ("description", JStr "Whether to render the score as SVG");
                       ("default", JBool true)])]);
            ("required", JList [JStr "wav_file_path"])])];
     JObj
       [("name", JStr "generate_music_from_humming");
        ("description",
         JStr "Generate full music from a humming audio file using AI music generation");
        ("inputSchema",
         JObj
           [("type", JStr "object");
            ("properties",
             JObj
               [("humming_file_path",
                 JObj [("type", JStr "string");
                       ("description", JStr "Path to the humming audio file (.wav)")]);
                ("style_prompt",
                 JObj [("type", JStr "string");
                       ("description",
                        JStr "Text prompt describing the desired music style")]);
                ("generate_score",
                 JObj [("type", JStr "boolean");
                       ("description",
                        JStr "Whether to also generate a music score from the result");
                       ("default", JBool false)])]);
            ("required", JList [JStr "humming_file_path"; JStr "style_prompt"])])]].

(** The branch [tool_name == "wav_to_music_score"] of [tools/call]. *)
Definition tools_call_wav_to_music_score (request_id arguments : json) : M json :=
  wav_file_path <- py_get arguments "wav_file_path" JNull ;;
  render_svg <- py_get arguments "render_svg" (JBool true) ;;
  if negb (truthy wav_file_path) then
    ret (rpc_error request_id (-32602) "Missing required parameter: wav_file_path")
  else
    try_except
      (found <- os_path_exists wav_file_path ;;
       result <-
         (if negb found then
            ret ("❌ WAV file not found: " +:+ py_str w wav_file_path)
          else
            d <- now w ;;
            let timestamp := strftime_stamp d in
            musicxml_path <- wav_to_musicxml wav_file_path (Some timestamp) ;;
            let result :=
              "✅ Successfully generated MusicXML score from WAV file" +:+ newline +:+
              "📁 MusicXML file: " +:+ musicxml_path in
            if truthy render_svg then
              svg_html <- render_musicxml_via_verovio_api musicxml_path ;;
              if startswith svg_html "❌" || startswith svg_html "⚠️" then
                ret (result +:+ newline +:+ "⚠️ SVG rendering failed: " +:+ svg_html)
              else
                ret (result +:+ newline +:+ "🎼 Score rendered successfully as SVG"
                     +:+ newline +:+ svg_html)
            else ret result) ;;
       ret (rpc_result request_id (text_content result)))
      (fun e =>
         ret (rpc_result request_id
                (text_content ("❌ Error converting WAV to music score: " +:+ exn_str e)))).

(** The branch [tool_name == "generate_music_from_humming"] of
    [tools/call].  The innermost [try] of the source appends to [result]
    once before its last point that can raise; its handler appends to
    [result] as it stands when the exception comes, so the [try] is written
    as two, one on each side of that assignment, with the one handler. *)
Definition tools_call_generate_music_from_humming (request_id arguments : json) : M json :=
  humming_file_path <- py_get arguments "humming_file_path" JNull ;;
  style_prompt <- py_get arguments "style_prompt" JNull ;;
  generate_score <- py_get arguments "generate_score" (JBool false) ;;
  if negb (truthy humming_file_path) || negb (truthy style_prompt) then
    ret (rpc_error request_id (-32602)
           "Missing required parameters: humming_file_path and style_prompt")
  else
    try_except
      (found <- os_path_exists humming_file_path ;;
       result <-
         (if negb found then
            ret ("❌ Humming file not found: " +:+ py_str w humming_file_path)
          else
            generated_wav_path <- generate_music_from_hum humming_file_path style_prompt ;;
            if startswith generated_wav_path "❌" then ret generated_wav_path
            else
              let result :=
                "✅ Successfully generated music from humming" +:+ newline +:+
                "📁 Generated music file: " +:+ generated_wav_path +:+ newline +:+
                "🎵 Style: " +:+ py_str w style_prompt in
              if truthy generate_score then
                let handler (result : string) (e : exn) : M string :=
                  ret (result +:+ newline +:+ "⚠️ Score generation error: " +:+ exn_str e) in
                try_except
                  (d <- now w ;;
                   let timestamp := strftime_stamp d in
                   score_path <- wav_to_musicxml (JStr generated_wav_path) (Some timestamp) ;;
                   let result :=
                     result +:+ newline +:+ "🎼 Music score generated: " +:+ score_path in
                   try_except
                     (svg_html <- render_musicxml_via_verovio_api score_path ;;
                      if negb (startswith svg_html "❌" || startswith svg_html "⚠️") then
                        ret (result +:+ newline +:+ "🎼 Score rendered as SVG:" +:+ newline
                             +:+ svg_html)
                      else ret result)
                     (handler result))
                  (handler result)
              else ret result) ;;
       ret (rpc_result request_id (text_content result)))
      (fun e =>
         ret (rpc_result request_id
                (text_content ("❌ Error generating music from humming: " +:+ exn_str e)))).

(** The statements of [handle_mcp_request] that follow the construction of
    [request]. *)
Definition dispatch (request : MCPRequest) : M json :=
  let request_id := JInt (req_id request) in
  let method := req_method request in
  if String.eqb method "initialize" then
    ret (rpc_result request_id
           (JObj
              [("protocolVersion", JStr "2024-11-05");
               ("capabilities",
                JObj
                  [("experimental", JObj []);
                   ("prompts", JObj [("listChanged", JBool false)]);
                   ("resources",
                    JObj [("subscribe", JBool false); ("listChanged", JBool false)]);
                   ("tools", JObj [("listChanged", JBool true)])]);
               ("serverInfo",
                JObj [("name", JStr "MusicToolkit MCP Server");
                      ("version", JStr "1.14.0")])]))
  else if String.eqb method "tools/list" then
    ret (rpc_result request_id (JObj [("tools", tools)]))
  else if String.eqb method "tools/call" then
    let tool_name := dict_get_or "name" JNull (req_params request) in
    let arguments := dict_get_or "arguments" (JObj []) (req_params request) in
    if eq_str tool_name "wav_to_music_score" then
      tools_call_wav_to_music_score request_id arguments
    else if eq_str tool_name "generate_music_from_humming" then
      tools_call_generate_music_from_humming request_id arguments
    else
      ret (rpc_error request_id (-32601) ("Unknown tool: " +:+ py_str w tool_name))
  else if String.eqb method "resources/list" then
    ret (rpc_result request_id
           (JObj
              [("resources",
                JList
                  [JObj
                     [("uri", JStr "musictoolkit://output");
                      ("name", JStr "Generated Files");
                      ("description",
                       JStr "List of generated music files and scores")]])]))
  else if String.eqb method "prompts/list" then
    ret (rpc_result request_id
           (JObj
              [("prompts",
                JList
                  [JObj
                     [("name", JStr "music_processing");
                      ("description",
                       JStr "AI assistant for music processing and generation tasks")]])]))
  else
    ret (rpc_error request_id (-32601) ("Method not found: " +:+ method)).

(** [handle_mcp_request(request_data)]. *)
Definition handle_mcp_request (request_data : dict) : M json :=
  try_except
    (request <- MCPRequest_init request_data ;;
     dispatch request)
    (fun e =>
       ret (rpc_error (dict_get_or "id" (JInt 0) request_data) (-32603)
              ("Internal error: " +:+ exn_str e))).

End WithWorld.
End Mcp.

(* ===================================================================== *)
(** ** Reading a response, and worlds to run the code in *)
(* ===================================================================== *)

(** [r[k]] of a response. *)
Definition field (k : string) (r : json) : option json :=
  match r with
  | JObj d => dict_get k d
  | _ => None
  end.

Definition has_field (k : string) (r : json) : bool :=
  match field k r with
  | Some _ => true
  | None => false
  end.

(** [r["error"]["code"]]. *)
Definition error_code (r : json) : option Z :=
  match field "error" r with
  | Some e =>
      match field "code" e with
      | Some (JInt c) => Some c
      | _ => None
      end
  | None => None
  end.

(** [r["result"]["content"][0]["text"]]. *)
Definition result_text (r : json) : option string :=
  match field "result" r with
  | Some res =>
      match field "content" res with
      | Some (JList (block :: _)) =>
          match field "text" block with
          | Some (JStr t) => Some t
          | _ => None
          end
      | _ => None
      end
  | None => None
  end.

(** [r["result"]["tools"]]. *)
Definition result_tools (r : json) : option (list json) :=
  match field "result" r with
  | Some res =>
      match field "tools" res with
      | Some (JList l) => Some l
      | _ => None
      end
  | None => None
  end.

(** [tool["name"]] and [tool["inputSchema"]["required"]] of a descriptor. *)
Definition tool_name (tool : json) : option json := field "name" tool.

Definition tool_required (tool : json) : option json :=
  match field "inputSchema" tool with
  | Some schema => field "required" schema
  | None => None
  end.

(** A JSON-RPC response: the version tag, an id, and exactly one of
    [result] and [error]. *)
Definition response_ok (r : json) : Prop :=
  field "jsonrpc" r = Some (JStr "2.0") /\
  has_field "id" r = true /\
  xorb (has_field "result" r) (has_field "error" r) = true.

(** The envelopes of a dispatcher for the request id [i]. *)
Definition envelope (i : json) (r : json) : Prop :=
  (exists x, r = rpc_result i x) \/
  (exists c m, r = rpc_error i c m /\ (c = -32601 \/ c = -32602 \/ c = -32603)).

Definition known_methods : list string :=
  ["initialize"; "tools/list"; "tools/call"; "resources/list"; "prompts/list"].

Definition known_method (m : json) : bool := existsb (eq_str m) known_methods.

Definition known_tools : list string :=
  ["wav_to_music_score"; "generate_music_from_humming"].

Definition known_tool (t : json) : bool := existsb (eq_str t) known_tools.

(** A request: [{"jsonrpc": "2.0", "id": i, "method": m, "params": p}]. *)
Definition request (i : json) (m : string) (p : dict) : dict :=
  [("jsonrpc", JStr "2.0"); ("id", i); ("method", JStr m); ("params", JObj p)].

Definition tools_call (i : json) (name : string) (arguments : dict) : dict :=
  request i "tools/call" [("name", JStr name); ("arguments", JObj arguments)].

Definition start : State := mkState 0 ∅ ∅.

(** A world with no network and an empty disk, whose model library accepts
    only values of the declared types. *)
Definition offline : World :=
  mkWorld
    (fun _ => DateTime 2025 7 14 9 30 5)
    (fun _ => None)
    (fun _ _ => Raise (Exn "ConnectionError" "Connection refused"))
    (fun _ => Return false)
    (fun _ => Raise (Exn "OSError" "[Errno 9] Bad file descriptor"))
    (fun s => "'" +:+ s +:+ "'")
    (fun _ => None)
    (fun _ => None)
    (fun _ => None)
    (fun _ => "1 validation error for MCPRequest").

(** The same world a day later. *)
Definition next_day : World :=
  mkWorld
    (fun _ => DateTime 2025 7 15 9 30 5)
    (os_fault offline) (network offline) (fd_exists offline) (fd_read offline)
    (repr_str offline) (lax_int offline) (lax_str offline) (lax_dict offline)
    (validation_error offline).

(** A world whose services answer every call with status 200 and the body
    [{"svg": "<svg/>", "audio_url": "https://cdn/x.wav"}]. *)
Definition online : World :=
  mkWorld
    (clock offline) (os_fault offline)
    (fun _ _ =>
       Return (mkResponse 200 "ok" "RIFF"
                 (Return (JObj [("svg", JStr "<svg/>");
                                ("audio_url", JStr "https://cdn/x.wav")]))))
    (fd_exists offline) (fd_read offline)
    (repr_str offline) (lax_int offline) (lax_str offline) (lax_dict offline)
    (validation_error offline).

(** A world whose generation service answers 503. *)
Definition unavailable : World :=
  mkWorld
    (clock offline) (os_fault offline)
    (fun _ _ => Return (mkResponse 503 "Service Unavailable" "" (Raise (Exn "JSONDecodeError" "Expecting value"))))
    (fd_exists offline) (fd_read offline)
    (repr_str offline) (lax_int offline) (lax_str offline) (lax_dict offline)
    (validation_error offline).

Definition run {A : Type} (c : M A) (s : State) : outcome A := fst (c s).

(* ===================================================================== *)
(** ** The HTTP entry points of [api/index.py] and [api/mcp.py] *)
(* ===================================================================== *)

(** [json.dumps(v)], on one line. *)
Fixpoint json_dumps_line (v : json) {struct v} : string :=
  match v with
  | JNull => "null"
  | JBool true => "true"
  | JBool false => "false"
  | JInt n => str_int n
  | JFloat r => json_float r
  | JStr s => json_string s
  | JList [] => "[]"
  | JList (x :: xs) =>
      "[" +:+ json_dumps_line x +:+
      (fix items (l : list json) : string :=
         match l with
         | [] => EmptyString
         | y :: ys => ", " +:+ json_dumps_line y +:+ items ys
         end) xs +:+ "]"
  | JObj [] => "{}"
  | JObj ((k, x) :: d) =>
      "{" +:+ json_string k +:+ ": " +:+ json_dumps_line x +:+
      (fix items (l : dict) : string :=
         match l with
         | [] => EmptyString
         | (k', y) :: ys =>
             ", " +:+ json_string k' +:+ ": " +:+ json_dumps_line y +:+ items ys
         end) d +:+ "}"
  end.

(** What a handler sends: [send_response], the [send_header]s and what is
    written to [wfile]. *)
Record HttpReply : Type := mkHttpReply
  { reply_status : Z; reply_headers : list (string * string); reply_body : string }.

(** The descriptor both entry points answer a GET with. *)
Definition server_descriptor : json :=
  JObj
    [("name", JStr "MusicToolkit MCP Server");
     ("version", JStr "1.14.0");
     ("protocol", JStr "MCP 2024-11-05");
     ("protocolVersion", JStr "2024-11-05");
     ("tools", JList [JStr "wav_to_music_score"; JStr "generate_music_from_humming"]);
     ("status", JStr "healthy");
     ("endpoints",
      JObj [("mcp", JStr "/api/mcp");
            ("tools", JStr "/api/mcp/tools");
            ("resources", JStr "/api/mcp/resources");
            ("prompts", JStr "/api/mcp/prompts")])].

(** The error both entry points answer with when the handling of a POST
    raises. *)
Definition internal_server_error (e : exn) : json :=
  JObj [("jsonrpc", JStr "2.0"); ("id", JInt 0);
        ("error",
         JObj [("code", JInt (-32603));
               ("message", JStr ("Internal server error: " +:+ exn_str e))])].

Module IndexHttp.
Section WithWorld.

Variable w : World.

(** [handle_mcp_request] of [api/index.py] on whatever [json.loads] gave: its
    first statement, outside the [try], calls [request_data.get]. *)
Definition handle_mcp_request (request_data : json) : M json :=
  match request_data with
  | JObj d => Index.handle_mcp_request w d
  | _ =>
      raise (AttributeError
               ("'" +:+ type_name request_data +:+ "' object has no attribute 'get'"))
  end.

(** [handler.do_OPTIONS]. *)
Definition do_OPTIONS : HttpReply :=
  mkHttpReply 200
    [("Access-Control-Allow-Origin", "*");
     ("Access-Control-Allow-Methods", "GET, POST, OPTIONS");
     ("Access-Control-Allow-Headers", "Content-Type")]
    "".

(** [handler.do_GET]. *)
Definition do_GET : HttpReply :=
  mkHttpReply 200
    [("Content-Type", "application/json"); ("Access-Control-Allow-Origin", "*")]
    (json_dumps_line server_descriptor).

(** [handler.do_POST].  [received] is what its first three statements give:
    the parsed body, or the exception of [int], of the reading, of the
    decoding or of [json.loads].  Writing to the socket is taken not to
    fail. *)
Definition do_POST (received : outcome json) : M HttpReply :=
  try_except
    (request_data <- lift received ;;
     response_data <- handle_mcp_request request_data ;;
     ret (mkHttpReply 200
            [("Content-Type", "application/json"); ("Access-Control-Allow-Origin", "*")]
            (json_dumps_line response_data)))
    (fun e =>
       ret (mkHttpReply 500
              [("Content-Type", "application/json"); ("Access-Control-Allow-Origin", "*")]
              (json_dumps_line (internal_server_error e)))).

End WithWorld.
End IndexHttp.

Module McpHttp.
Section WithWorld.

Variable w : World.

(** [handle_mcp_request] of [api/mcp.py] on whatever the body parsed to: the
    construction of [MCPRequest] from something that is no mapping raises
    inside the [try], and the handler then calls [request_data.get]. *)
Definition handle_mcp_request (request_data : json) : M json :=
  match request_data with
  | JObj d => Mcp.handle_mcp_request w d
  | _ =>
      try_except
        (raise (TypeError
                  ("MCPRequest() argument after ** must be a mapping, not "
                   +:+ type_name request_data)))
        (fun e =>
           i <- py_get request_data "id" (JInt 0) ;;
           ret (rpc_error i (-32603) ("Internal error: " +:+ exn_str e)))
  end.

(** The request object the platform hands to [handler]: its method, its
    [get_json] when it has one, and what [json.loads(request.body)] gives. *)
Record Request : Type := mkRequest
  { http_method : string; get_json : option (outcome json); body_loads : outcome json }.

(** [json.dumps] inside [handler].  The function imports [json] in one of
    its branches, which makes the name local to the whole function: where
    that import has not run, the name is unbound. *)
Definition local_json_dumps (imported : bool) (v : json) : M string :=
  if imported then ret (json_dumps_line v)
  else
    raise (Exn "UnboundLocalError"
             "cannot access local variable 'json' where it is not associated with a value").

Definition reply (status : Z) (headers : dict) (body : string) : json :=
  JObj [("statusCode", JInt status); ("headers", JObj headers); ("body", JStr body)].

(** [handler(request)]. *)
Definition handler (request : Request) : M json :=
  if String.eqb (http_method request) "OPTIONS" then
    ret (reply 200
           [("Access-Control-Allow-Origin", JStr "*");
            ("Access-Control-Allow-Methods", JStr "GET, POST, OPTIONS");
            ("Access-Control-Allow-Headers", JStr "Content-Type, Authorization")]
           "")
  else if String.eqb (http_method request) "GET" then
    body <- local_json_dumps false server_descriptor ;;
    ret (reply 200
           [("Content-Type", JStr "application/json");
            ("Access-Control-Allow-Origin", JStr "*")]
           body)
  else if String.eqb (http_method request) "POST" then
    let imported := match get_json request with Some _ => false | None => true end in
    try_except
      (request_data <-
         (match get_json request with
          | Some answer => lift answer
          | None => lift (body_loads request)
          end) ;;
       response_data <- handle_mcp_request request_data ;;
       body <- local_json_dumps imported response_data ;;
       ret (reply 200
              [("Content-Type", JStr "application/json");
               ("Access-Control-Allow-Origin", JStr "*")]
              body))
      (fun e =>
         body <- local_json_dumps imported (internal_server_error e) ;;
         ret (reply 500
                [("Content-Type", JStr "application/json");
                 ("Access-Control-Allow-Origin", JStr "*")]
                body))
  else
    body <- local_json_dumps false (JObj [("error", JStr "Method not allowed")]) ;;
    ret (reply 405
           [("Content-Type", JStr "application/json");
            ("Access-Control-Allow-Origin", JStr "*")]
           body).

End WithWorld.
End McpHttp.

(* ===================================================================== *)
(** ** [music_toolkit_server.py] *)
(* ===================================================================== *)

Module Server.
Section WithWorld.

Variable w : World.

(** Whether [music21] could be imported when the module was loaded. *)
Variable MUSIC21_AVAILABLE : bool.

(** What [wav_to_musicxml] does once the output directory is there: the
    transcription by [basic_pitch] and [music21] (or, without [basic_pitch],
    the writing of a fixed score by [music21]), which returns the path of the
    MusicXML file or raises.  It is the libraries' to do. *)
Variable transcribe : string -> string -> M string.

(** [except ImportError]. *)
Definition is_ImportError (e : exn) : bool :=
  String.eqb (exn_class e) "ImportError" || String.eqb (exn_class e) "ModuleNotFoundError".

(** [wav_to_musicxml(wav_path, timestamp=None)]. *)
Definition wav_to_musicxml (wav_path : string) (timestamp : option string) : M string :=
  if negb MUSIC21_AVAILABLE then
    raise (Exn "ImportError" "music21 library is required for MusicXML generation")
  else
    timestamp <-
      (match timestamp with
       | Some t => if String.eqb t "" then (d <- now w ;; ret (strftime_stamp d)) else ret t
       | None => d <- now w ;; ret (strftime_stamp d)
       end) ;;
    Mcp.mkdir_exist_ok w "output" ;;;
    transcribe wav_path timestamp.

(** [render_musicxml_via_verovio_api(musicxml_path)]: the text of the
    function is that of [api/mcp.py]. *)
Definition render_musicxml_via_verovio_api (musicxml_path : string) : M string :=
  Mcp.render_musicxml_via_verovio_api w musicxml_path.

(** [generate_music_from_hum(melody_file, prompt)]. *)
Definition generate_music_from_hum (melody_file prompt : string) : M string :=
  if String.eqb MUSICGEN_API_URL "" then ret "❌ MUSICGEN_API_URL is not configured."
  else
    d <- now w ;;
    let timestamp := strftime_stamp d in
    let output_dir := "output" in
    Mcp.mkdir_exist_ok w output_dir ;;;
    let wav_out_path := Mcp.path_join output_dir ("generated_" +:+ timestamp +:+ ".wav") in
    try_except
      (body <- Mcp.open_rb w (JStr melody_file) ;;
       response <-
         requests_post w
           (mkHttpCall MUSICGEN_API_URL None
              [mkFilePart "melody" "hum.wav" body (Some "audio/wav")]
              [("text", JStr prompt)] None) ;;
       if negb (status_code response =? 200) then
         ret ("❌ API error " +:+ str_int (status_code response) +:+ ": " +:+ text response)
       else
         Mcp.write_file w wav_out_path (content response) ;;;
         ret wav_out_path)
      (fun e => ret ("❌ Music generation failed: " +:+ exn_str e)).

(** [generate_score_from_audio(wav_file)]. *)
Definition generate_score_from_audio (wav_file : string) : M string :=
  try_except
    (d <- now w ;;
     wav_to_musicxml wav_file (Some (strftime_stamp d)))
    (fun e => ret ("❌ Score generation failed: " +:+ exn_str e)).

(** The tool [wav_to_music_score(wav_file_path, render_svg=True)]. *)
Definition wav_to_music_score (wav_file_path : string) (render_svg : bool) : M string :=
  try_except
    (found <- Mcp.os_path_exists w (JStr wav_file_path) ;;
     if negb found then ret ("❌ WAV file not found: " +:+ wav_file_path)
     else
       d <- now w ;;
       let timestamp := strftime_stamp d in
       musicxml_path <- wav_to_musicxml wav_file_path (Some timestamp) ;;
       let result :=
         "✅ Successfully generated MusicXML score from WAV file" +:+ newline +:+
         "📁 MusicXML file: " +:+ musicxml_path in
       if render_svg then
         svg_html <- render_musicxml_via_verovio_api musicxml_path ;;
         if startswith svg_html "❌" || startswith svg_html "⚠️" then
           ret (result +:+ newline +:+ "⚠️ SVG rendering failed: " +:+ svg_html)
         else
           ret (result +:+ newline +:+ "🎼 Score rendered successfully as SVG"
                +:+ newline +:+ svg_html)
       else ret result)
    (fun e =>
       if is_ImportError e then
         ret ("❌ Missing required libraries: " +:+ exn_str e +:+ newline +:+
              "Please install: pip install basic-pitch music21")
       else ret ("❌ Error converting WAV to music score: " +:+ exn_str e)).

(** The tool [generate_music_from_humming(humming_file_path, style_prompt,
    generate_score=False)].  As in [api/mcp.py], the inner [try] is written
    as two, one on each side of the assignment to [result] that comes before
    its last point that can raise. *)
Definition generate_music_from_humming (humming_file_path style_prompt : string)
    (generate_score : bool) : M string :=
  try_except
    (found <- Mcp.os_path_exists w (JStr humming_file_path) ;;
     if negb found then ret ("❌ Humming file not found: " +:+ humming_file_path)
     else
       generated_wav_path <- generate_music_from_hum humming_file_path style_prompt ;;
       if startswith generated_wav_path "❌" then ret generated_wav_path
       else
         let result :=
           "✅ Successfully generated music from humming" +:+ newline +:+
           "📁 Generated music file: " +:+ generated_wav_path +:+ newline +:+
           "🎵 Style: " +:+ style_prompt in
         if generate_score then
           let handler (result : string) (e : exn) : M string :=
             ret (result +:+ newline +:+ "⚠️ Score generation error: " +:+ exn_str e) in
           try_except
             (score_path <- generate_score_from_audio generated_wav_path ;;
              if startswith score_path "❌" then
                ret (result +:+ newline +:+ "⚠️ Score generation failed: " +:+ score_path)
              else
                let result :=
                  result +:+ newline +:+ "🎼 Music score generated: " +:+ score_path in
                try_except
                  (svg_html <- render_musicxml_via_verovio_api score_path ;;
                   if negb (startswith svg_html "❌" || startswith svg_html "⚠️") then
                     ret (result +:+ newline +:+ "🎼 Score rendered as SVG:" +:+ newline
                          +:+ svg_html)
                   else ret result)
                  (handler result))
             (handler result)
         else ret result)
    (fun e => ret ("❌ Error generating music from humming: " +:+ exn_str e)).

End WithWorld.
End Server.

(* ===================================================================== *)
(** ** [example_usage.py]: the client *)
(* ===================================================================== *)

Module Client.
Section WithTransport.

(** What one run of the server answers to a request written to its input:
    the first line of its output that starts like a JSON-RPC object, parsed,
    or nothing (no such line, or any exception on the way). *)
Variable transport : dict -> option dict.

(** [MusicToolkitMCPClient]: its two fields, and (for the statements below)
    the requests it has written so far, the last one first. *)
Record MusicToolkitMCPClient : Type := mkClient
  { request_id : Z; initialized : bool; sent : list dict }.

(** [MusicToolkitMCPClient()]. *)
Definition new : MusicToolkitMCPClient := mkClient 0 false [].

(** [self._send_request(method, params=None)]. *)
Definition _send_request (self : MusicToolkitMCPClient) (method : string) (params : json)
  : option dict * MusicToolkitMCPClient :=
  let request_id := request_id self + 1 in
  let request : dict :=
    [("jsonrpc", JStr "2.0");
     ("id", JInt request_id);
     ("method", JStr method);
     ("params", if truthy params then params else JObj [])] in
  (transport request, mkClient request_id (initialized self) (request :: sent self)).

(** [self.initialize()]. *)
Definition initialize (self : MusicToolkitMCPClient)
  : option json * MusicToolkitMCPClient :=
  let '(response, self) :=
    _send_request self "initialize"
      (JObj [("protocolVersion", JStr "2024-11-05");
             ("capabilities", JObj []);
             ("clientInfo",
              JObj [("name", JStr "MusicToolkit Example Client");
                    ("version", JStr "1.0")])]) in
  match response with
  | Some r =>
      match r, dict_get "result" r with
      | _ :: _, Some result =>
          (Some result, mkClient (request_id self) true (sent self))
      | _, _ => (None, self)
      end
  | None => (None, self)
  end.

(** [self.list_tools()]. *)
Definition list_tools (self : MusicToolkitMCPClient)
  : option dict * MusicToolkitMCPClient :=
  if negb (initialized self) then (None, self)
  else _send_request self "tools/list" JNull.

(** [self.call_tool(tool_name, arguments)]. *)
Definition call_tool (self : MusicToolkitMCPClient) (tool_name : string) (arguments : json)
  : option dict * MusicToolkitMCPClient :=
  if negb (initialized self) then (None, self)
  else
    _send_request self "tools/call"
      (JObj [("name", JStr tool_name); ("arguments", arguments)]).

(** One call of a method of the client. *)
Inductive call : Type :=
| Initialize
| ListTools
| CallTool (tool_name : string) (arguments : json).

Definition step (self : MusicToolkitMCPClient) (c : call) : MusicToolkitMCPClient :=
  match c with
  | Initialize => snd (initialize self)
  | ListTools => snd (list_tools self)
  | CallTool tool_name arguments => snd (call_tool self tool_name arguments)
  end.

(** The client after a sequence of calls. *)
Definition after (calls : list call) (self : MusicToolkitMCPClient) : MusicToolkitMCPClient :=
  fold_left step calls self.

(** The ids of the requests written so far, the first one first. *)
Definition sent_ids (self : MusicToolkitMCPClient) : list json :=
  map (dict_get_or "id" JNull) (rev (sent self)).

End WithTransport.
End Client.

(* ===================================================================== *)
(** ** What the code does to the disk *)
(* ===================================================================== *)

(** The files the code of [api/mcp.py] generates. *)
Definition scratch (p : string) : bool := startswith p "/tmp/output/generated_".

(** From [s] to [s'], nothing was removed, nothing outside the generated
    files was written, and no directory but [/tmp/output] was made. *)
Definition only_scratch_written (s s' : State) : Prop :=
  (forall p, scratch p = false -> fs_files s' !! p = fs_files s !! p) /\
  dom (fs_files s) ⊆ dom (fs_files s') /\
  fs_dirs s ⊆ fs_dirs s' /\
  fs_dirs s' ⊆ {["/tmp/output"]} ∪ fs_dirs s.

(** Every run of [c] keeps the relation [R] between its two states. *)
Definition keeps {A : Type} (R : State -> State -> Prop) (c : M A) : Prop :=
  forall s o s', c s = (o, s') -> R s s'.

(** A relation between the state before and the state after that holds
    when nothing happened, composes, and does not look at the count of
    questions. *)
Definition frame (R : State -> State -> Prop) : Prop :=
  (forall s, R s s) /\
  (forall s1 s2 s3, R s1 s2 -> R s2 s3 -> R s1 s3) /\
  (forall s, R s (bump s)).

(** From [s] to [s'] the files and directories are the same. *)
Definition same_disk (s s' : State) : Prop :=
  fs_files s' = fs_files s /\ fs_dirs s' = fs_dirs s.



(** The text starts with the mark of success or with the mark of failure. *)
Definition marked (t : string) : bool :=
  startswith t "✅" || startswith t "❌".

(** A disk that holds one recording. *)
Definition with_audio : State := mkState 0 {["a.wav" := "RIFF"]} ∅.

(** What every sequence of calls keeps of a client: its counter is the
    number of requests written, the requests carry the ids 1, 2, 3... in the
    order they were written, and as long as the client is not initialized
    they are all [initialize] requests. *)
Definition client_invariant (self : Client.MusicToolkitMCPClient) : Prop :=
  Client.request_id self = Z.of_nat (length (Client.sent self)) /\
  Client.sent_ids self =
    map (fun k => JInt (Z.of_nat k)) (seq 1 (length (Client.sent self))) /\
  (Client.initialized self = false ->
   Forall (fun r => dict_get "method" r = Some (JStr "initialize")) (Client.sent self)).

(** A computation that neither reads nor changes the file system: from the
    count of questions asked so far alone it has its outcome and the new
    count, and it hands the files and directories back as they were. *)
Definition fs_blind {A : Type} (c : M A) : Prop :=
  forall n : nat, exists (o : outcome A) (n' : nat),
    forall (f : gmap string string) (d : gset string),
      c (mkState n f d) = (o, mkState n' f d).

(* ===================================================================== *)
(** ** The monad: how returns and raises travel *)
(* ===================================================================== *)

Lemma bind_Return {A B : Type} (c : M A) (f : A -> M B) (s s' : State) (b : B) :
  bind c f s = (Return b, s') ->
  exists a s1, c s = (Return a, s1) /\ f a s1 = (Return b, s').
Proof.
  unfold bind. destruct (c s) as [[a | e] s1]; intros H.
  - exists a, s1. split; [reflexivity | exact H].
  - discriminate H.
Qed.

Lemma bind_step {A B : Type} (c : M A) (f : A -> M B) (s s1 : State) (a : A) :
  c s = (Return a, s1) -> bind c f s = f a s1.
Proof. unfold bind. intros ->. reflexivity. Qed.

(** A [try] whose handler returns a value returns a value: the one of its
    body, or the handler's for the exception the body raised. *)
Lemma try_except_total {A : Type} (c : M A) (g : exn -> A) (s : State) :
  exists a s',
    try_except c (fun e => ret (g e)) s = (Return a, s') /\
    (c s = (Return a, s') \/ exists e, c s = (Raise e, s') /\ a = g e).
Proof.
  unfold try_except. destruct (c s) as [[a | e] s1] eqn:E.
  - exists a, s1. split; [reflexivity | left; reflexivity].
  - exists (g e), s1. split; [reflexivity | right; exists e; split; reflexivity].
Qed.

Lemma try_except_caught {A : Type} (c : M A) (h : exn -> M A) (s s1 : State) (e : exn) :
  c s = (Raise e, s1) -> try_except c h s = h e s1.
Proof. unfold try_except. intros ->. reflexivity. Qed.

Lemma try_except_Return {A : Type} (c : M A) (h : exn -> M A) (s s' : State) (a : A) :
  try_except c h s = (Return a, s') ->
  c s = (Return a, s') \/ exists e s1, c s = (Raise e, s1) /\ h e s1 = (Return a, s').
Proof.
  unfold try_except. destruct (c s) as [[a0 | e] s1]; intros H.
  - left. exact H.
  - right. exists e, s1. split; [reflexivity | exact H].
Qed.

(** Splits the first [bind] of a hypothesis that says a computation returned. *)
Ltac bind_inv H :=
  let a := fresh "a" in
  let s1 := fresh "s" in
  let Hc := fresh "Hc" in
  apply bind_Return in H; destruct H as (a & s1 & Hc & H).

Ltac ret_inv H := unfold ret in H; injection H as <- <-.

(* ===================================================================== *)
(** ** Dictionaries *)
(* ===================================================================== *)

Lemma dict_get_or_Some (k : string) (default v : json) (d : dict) :
  dict_get k d = Some v -> dict_get_or k default d = v.
Proof. unfold dict_get_or. intros ->. reflexivity. Qed.

Lemma dict_get_or_None (k : string) (default : json) (d : dict) :
  dict_get k d = None -> dict_get_or k default d = default.
Proof. unfold dict_get_or. intros ->. reflexivity. Qed.

Lemma dict_get_set_eq (k : string) (v : json) (d : dict) :
  dict_get k (dict_set k v d) = Some v.
Proof.
  induction d as [| [k' v'] d IH]; cbn.
  - rewrite String.eqb_refl. reflexivity.
  - destruct (String.eqb k k') eqn:E; cbn.
    + rewrite String.eqb_refl. reflexivity.
    + rewrite E. exact IH.
Qed.

Lemma dict_get_set_ne (k k' : string) (v : json) (d : dict) :
  String.eqb k k' = false -> dict_get k (dict_set k' v d) = dict_get k d.
Proof.
  intros Hne. induction d as [| [k0 v0] d IH]; cbn.
  - rewrite Hne. reflexivity.
  - destruct (String.eqb k' k0) eqn:E; cbn.
    + apply String.eqb_eq in E. subst k0. rewrite Hne. reflexivity.
    + destruct (String.eqb k k0); [reflexivity | exact IH].
Qed.

Lemma dict_get_message_append (k : string) (d : dict) (suffix : string) :
  String.eqb k "message" = false ->
  dict_get k (message_append d suffix) = dict_get k d.
Proof.
  intros Hne. unfold message_append.
  destruct (dict_get "message" d) as [[] |]; try reflexivity.
  apply dict_get_set_ne. exact Hne.
Qed.

(* ===================================================================== *)
(** ** Envelopes *)
(* ===================================================================== *)

Lemma envelope_result (i x : json) : envelope i (rpc_result i x).
Proof. left. exists x. reflexivity. Qed.

Lemma envelope_error (i : json) (c : Z) (m : string) :
  c = -32601 \/ c = -32602 \/ c = -32603 -> envelope i (rpc_error i c m).
Proof. intros Hc. right. exists c, m. split; [reflexivity | exact Hc]. Qed.

Lemma envelope_response_ok (i r : json) : envelope i r -> response_ok r.
Proof.
  intros [[x ->] | (c & m & -> & _)]; repeat split.
Qed.

Lemma envelope_id (i r : json) : envelope i r -> field "id" r = Some i.
Proof.
  intros [[x ->] | (c & m & -> & _)]; reflexivity.
Qed.

Create HintDb envelopes.
#[local] Hint Resolve envelope_result envelope_error : envelopes.

(* ===================================================================== *)
(** ** [api/index.py]: what the dispatcher returns *)
(* ===================================================================== *)

(** Whatever the body of the [try] returns is a result for the request id, or
    the error -32601 of the last branch. *)
Lemma index_dispatch_returns (w : World) (method params i : json)
    (s s' : State) (r : json) :
  Index.dispatch w method params i s = (Return r, s') ->
  (exists x, r = rpc_result i x) \/ (exists m, r = rpc_error i (-32601) m).
Proof.
  unfold Index.dispatch. intros H.
  destruct (eq_str method "initialize"); [ret_inv H; left; eexists; reflexivity |].
  destruct (eq_str method "tools/list"); [ret_inv H; left; eexists; reflexivity |].
  destruct (eq_str method "tools/call").
  { bind_inv H. bind_inv H. bind_inv H. ret_inv H. left. eexists. reflexivity. }
  destruct (eq_str method "resources/list"); [ret_inv H; left; eexists; reflexivity |].
  destruct (eq_str method "prompts/list"); [ret_inv H; left; eexists; reflexivity |].
  ret_inv H. right. eexists. reflexivity.
Qed.

(** The dispatcher of [api/index.py] returns, and what it returns is a result
    or an error -32601 or -32603 for the id of the request (0 without one);
    -32603 is what an exception of the body becomes. *)
Lemma index_handle_returns (w : World) (request_data : dict) (s : State) :
  let i := dict_get_or "id" (JInt 0) request_data in
  exists r s',
    Index.handle_mcp_request w request_data s = (Return r, s') /\
    ((exists x, r = rpc_result i x) \/
     (exists m, r = rpc_error i (-32601) m) \/
     (exists e, r = rpc_error i (-32603) ("Internal error: " +:+ exn_str e) /\
                Index.dispatch w (dict_get_or "method" JNull request_data)
                  (dict_get_or "params" (JObj []) request_data) i s = (Raise e, s'))).
Proof.
  intros i. unfold Index.handle_mcp_request. fold i.
  destruct (try_except_total
              (Index.dispatch w (dict_get_or "method" JNull request_data)
                 (dict_get_or "params" (JObj []) request_data) i)
              (fun e => rpc_error i (-32603) ("Internal error: " +:+ exn_str e)) s)
    as (r & s' & Hrun & Hcase).
  exists r, s'. split; [exact Hrun |].
  destruct Hcase as [Hret | (e & Hraise & ->)].
  - apply index_dispatch_returns in Hret. destruct Hret as [Hx | Hm]; auto.
  - right. right. exists e. split; [reflexivity | exact Hraise].
Qed.

Lemma index_handle_envelope (w : World) (request_data : dict) (s : State) :
  exists r s',
    Index.handle_mcp_request w request_data s = (Return r, s') /\
    envelope (dict_get_or "id" (JInt 0) request_data) r /\
    error_code r <> Some (-32602).
Proof.
  destruct (index_handle_returns w request_data s) as (r & s' & Hrun & Hcase).
  exists r, s'. split; [exact Hrun |].
  destruct Hcase as [[x ->] | [[m ->] | (e & -> & _)]]; split;
    auto with envelopes; cbn; discriminate.
Qed.

(** An unknown method is answered with -32601. *)
Lemma index_unknown_method (w : World) (request_data : dict) (s : State) :
  let method := dict_get_or "method" JNull request_data in
  known_method method = false ->
  Index.handle_mcp_request w request_data s =
    (Return (rpc_error (dict_get_or "id" (JInt 0) request_data) (-32601)
               ("Method not found: " +:+ py_str w method)), s).
Proof.
  intros method Hm. unfold known_method, known_methods in Hm. cbn in Hm.
  repeat (apply orb_false_elim in Hm; destruct Hm as [? Hm]).
  unfold Index.handle_mcp_request, try_except, Index.dispatch. fold method.
  repeat match goal with H : eq_str method _ = false |- _ => rewrite H; clear H end.
  reflexivity.
Qed.

(** A request without a [method] key is answered with -32601. *)
Lemma index_missing_method (w : World) (request_data : dict) (s : State) :
  dict_get "method" request_data = None ->
  Index.handle_mcp_request w request_data s =
    (Return (rpc_error (dict_get_or "id" (JInt 0) request_data) (-32601)
               "Method not found: None"), s).
Proof.
  intros Hm.
  pose proof (index_unknown_method w request_data s) as H. cbv zeta in H.
  unfold dict_get_or in H at 1 3. rewrite Hm in H.
  apply H. reflexivity.
Qed.

(** [tools/list] is answered with the two descriptors of [Index.tools]. *)
Lemma index_tools_list (w : World) (request_data : dict) (s : State) :
  dict_get "method" request_data = Some (JStr "tools/list") ->
  Index.handle_mcp_request w request_data s =
    (Return (rpc_result (dict_get_or "id" (JInt 0) request_data)
               (JObj [("tools", Index.tools)])), s).
Proof.
  intros Hm. unfold Index.handle_mcp_request, try_except, Index.dispatch, dict_get_or.
  rewrite Hm. reflexivity.
Qed.

(** A tool name outside the two known ones raises in the body, which the
    dispatcher answers with -32603. *)
Lemma index_unknown_tool (w : World) (request_data params : dict) (s : State) :
  dict_get "method" request_data = Some (JStr "tools/call") ->
  dict_get "params" request_data = Some (JObj params) ->
  let name := dict_get_or "name" JNull params in
  known_tool name = false ->
  Index.handle_mcp_request w request_data s =
    (Return (rpc_error (dict_get_or "id" (JInt 0) request_data) (-32603)
               ("Internal error: Unknown tool: " +:+ py_str w name)), s).
Proof.
  intros Hm Hp name Hn. unfold known_tool, known_tools in Hn. cbn in Hn.
  repeat (apply orb_false_elim in Hn; destruct Hn as [? Hn]).
  unfold Index.handle_mcp_request, try_except, Index.dispatch.
  replace (dict_get_or "method" JNull request_data) with (JStr "tools/call")
    by (unfold dict_get_or; rewrite Hm; reflexivity).
  replace (dict_get_or "params" (JObj []) request_data) with (JObj params)
    by (unfold dict_get_or; rewrite Hp; reflexivity).
  cbn [eq_str String.eqb Ascii.eqb Bool.eqb].
  unfold bind at 1. cbn [py_get ret]. fold name.
  unfold bind at 1. cbn [ret].
  unfold bind at 1.
  repeat match goal with H : eq_str name _ = false |- _ => rewrite H; clear H end.
  reflexivity.
Qed.

(** *** Code that leaves the file system alone *)

Lemma fs_blind_ret {A : Type} (a : A) : fs_blind (ret a).
Proof. intros n. exists (Return a), n. reflexivity. Qed.

Lemma fs_blind_raise {A : Type} (e : exn) : fs_blind (@raise A e).
Proof. intros n. exists (Raise e), n. reflexivity. Qed.

Lemma fs_blind_lift {A : Type} (o : outcome A) : fs_blind (lift o).
Proof. intros n. exists o, n. reflexivity. Qed.

Lemma fs_blind_now (w : World) : fs_blind (now w).
Proof. intros n. exists (Return (clock w n)), (S n). reflexivity. Qed.

Lemma fs_blind_requests_post (w : World) (c : HttpCall) : fs_blind (requests_post w c).
Proof. intros n. exists (network w n c), (S n). reflexivity. Qed.

Lemma fs_blind_bind {A B : Type} (c : M A) (k : A -> M B) :
  fs_blind c -> (forall a, fs_blind (k a)) -> fs_blind (bind c k).
Proof.
  intros Hc Hk n. destruct (Hc n) as ([a | e] & n1 & H1).
  - destruct (Hk a n1) as (o & n2 & H2). exists o, n2. intros f d.
    unfold bind. rewrite H1. apply H2.
  - exists (Raise e), n1. intros f d. unfold bind. rewrite H1. reflexivity.
Qed.

Lemma fs_blind_try_except {A : Type} (c : M A) (h : exn -> M A) :
  fs_blind c -> (forall e, fs_blind (h e)) -> fs_blind (try_except c h).
Proof.
  intros Hc Hh n. destruct (Hc n) as ([a | e] & n1 & H1).
  - exists (Return a), n1. intros f d. unfold try_except. rewrite H1. reflexivity.
  - destruct (Hh e n1) as (o & n2 & H2). exists o, n2. intros f d.
    unfold try_except. rewrite H1. apply H2.
Qed.

Lemma fs_blind_py_get (v : json) (k : string) (default : json) :
  fs_blind (py_get v k default).
Proof. destruct v; cbn [py_get]; try apply fs_blind_raise; apply fs_blind_ret. Qed.

Create HintDb blind.
#[local] Hint Resolve fs_blind_ret fs_blind_raise fs_blind_lift fs_blind_now
  fs_blind_requests_post fs_blind_py_get : blind.

(** Breaks a goal [fs_blind c] along the structure of [c]. *)
Ltac blind :=
  repeat first
    [ apply fs_blind_bind; [| intros ?]
    | apply fs_blind_try_except; [| intros ?]
    | match goal with |- fs_blind (if ?b then _ else _) => destruct b end
    | solve [auto with blind] ].

Lemma index_placeholder_blind (w : World) (title : string) (timestamp : json) :
  fs_blind (Index.create_placeholder_musicxml w title timestamp).
Proof. unfold Index.create_placeholder_musicxml. blind. Qed.

Lemma index_wav_to_music_score_blind (w : World) (wav_path render_svg timestamp : json) :
  fs_blind (Index.wav_to_music_score w wav_path render_svg timestamp).
Proof.
  unfold Index.wav_to_music_score, response_json.
  pose proof (index_placeholder_blind w) as Hp. blind.
Qed.

Lemma index_generate_music_from_humming_blind (w : World)
    (humming_path generate_score timestamp : json) :
  fs_blind (Index.generate_music_from_humming w humming_path generate_score timestamp).
Proof.
  unfold Index.generate_music_from_humming, response_json.
  pose proof (index_placeholder_blind w) as Hp. blind.
Qed.

Lemma index_placeholder_total (w : World) (title : string) (timestamp : json) (s : State) :
  exists xml s', Index.create_placeholder_musicxml w title timestamp s = (Return xml, s').
Proof.
  unfold Index.create_placeholder_musicxml.
  destruct (is_None timestamp); eexists; eexists; reflexivity.
Qed.

(** [wav_to_music_score] of [api/index.py] always returns a dictionary
    marked successful. *)
Lemma index_wav_to_music_score_success (w : World) (wav_path render_svg timestamp : json)
    (s : State) :
  exists res s',
    Index.wav_to_music_score w wav_path render_svg timestamp s = (Return res, s') /\
    dict_get "success" res = Some (JBool true).
Proof.
  unfold Index.wav_to_music_score.
  destruct (index_placeholder_total w "Audio Conversion" timestamp s) as (xml & s1 & Hxml).
  unfold try_except at 1. erewrite bind_step by exact Hxml.
  destruct (truthy render_svg).
  - match goal with
    | |- context [try_except ?c (fun e => ret (@?g e)) s1] =>
        destruct (try_except_total c g s1) as (res & s2 & Hrun & Hcase)
    end.
    rewrite Hrun. exists res, s2. split; [reflexivity |].
    destruct Hcase as [Hret | (e & _ & ->)]; [| reflexivity].
    bind_inv Hret. destruct (status_code a =? 200).
    + bind_inv Hret. bind_inv Hret. ret_inv Hret. reflexivity.
    + ret_inv Hret. reflexivity.
  - eexists. eexists. split; reflexivity.
Qed.

(** [generate_music_from_humming] of [api/index.py] always returns a
    dictionary marked successful; when the call of the generation service
    raises or answers another status than 200, it is the placeholder, with
    no generated audio. *)
Lemma index_generate_music_from_humming_success (w : World)
    (humming_path generate_score timestamp : json) (s : State) :
  exists res s',
    Index.generate_music_from_humming w humming_path generate_score timestamp s =
      (Return res, s') /\
    dict_get "success" res = Some (JBool true) /\
    (match network w (tick s)
             (mkHttpCall (MUSICGEN_API_URL +:+ "/generate")
                (Some (JObj [("audio_path", humming_path); ("duration", JInt 30)]))
                [] [] (Some 60))
     with
     | Return response => status_code response <> 200
     | Raise _ => True
     end ->
     dict_get "generated_audio" res = Some (JStr "")).
Proof.
  unfold Index.generate_music_from_humming.
  set (call := mkHttpCall (MUSICGEN_API_URL +:+ "/generate")
                 (Some (JObj [("audio_path", humming_path); ("duration", JInt 30)]))
                 [] [] (Some 60)).
  match goal with
  | |- context [bind (try_except ?c (fun e => ret (@?g e))) ?k] =>
      destruct (try_except_total c g s) as (first & s1 & Hrun & Hcase);
      assert (Hfirst : dict_get "success" first = Some (JBool true) /\
                       (match network w (tick s) call with
                        | Return response => status_code response <> 200
                        | Raise _ => True
                        end -> dict_get "generated_audio" first = Some (JStr "")))
  end.
  { destruct Hcase as [Hret | (e & _ & ->)].
    - bind_inv Hret. unfold requests_post in Hc. injection Hc as Hnet <-.
      rewrite Hnet. destruct (status_code a =? 200) eqn:Hst.
      + bind_inv Hret. bind_inv Hret. ret_inv Hret.
        split; [reflexivity |].
        intros Hne. apply Z.eqb_eq in Hst. contradiction.
      + discriminate Hret.
    - split; reflexivity. }
  destruct Hfirst as (Hs & Ha).
  unfold try_except at 1. erewrite bind_step by exact Hrun.
  destruct (truthy generate_score).
  - destruct (index_placeholder_total w "Generated from Humming" timestamp s1)
      as (xml & s2 & Hxml).
    erewrite bind_step by exact Hxml.
    eexists. eexists. split; [reflexivity |].
    rewrite !dict_get_message_append, !dict_get_set_ne by reflexivity.
    split; assumption.
  - exists first, s1. split; [reflexivity |]. split; assumption.
Qed.

(** The text of a dumped dictionary opens with a brace. *)
Lemma json_dumps_dict_prefix (d : dict) (indent : nat) :
  startswith (json_dumps (JObj d) indent) "{" = true.
Proof. destruct d as [| [k v] d]; reflexivity. Qed.

Lemma json_dumps_dict_no_marker (d : dict) (indent : nat) :
  startswith (json_dumps (JObj d) indent) "❌" = false.
Proof. destruct d as [| [k v] d]; reflexivity. Qed.

(** How [tools/call] of [api/index.py] goes once the request names a tool. *)
Lemma index_tools_call_unfold (w : World) (request_data params : dict) (s : State) :
  dict_get "method" request_data = Some (JStr "tools/call") ->
  dict_get "params" request_data = Some (JObj params) ->
  let i := dict_get_or "id" (JInt 0) request_data in
  let name := dict_get_or "name" JNull params in
  let arguments := dict_get_or "arguments" (JObj []) params in
  Index.handle_mcp_request w request_data s =
    try_except
      (result <-
         (if eq_str name "wav_to_music_score" then
            Index.call_wav_to_music_score w arguments
          else if eq_str name "generate_music_from_humming" then
            Index.call_generate_music_from_humming w arguments
          else raise (Exception ("Unknown tool: " +:+ py_str w name))) ;;
       ret (rpc_result i (text_content (json_dumps (JObj result) 2))))
      (fun e => ret (rpc_error i (-32603) ("Internal error: " +:+ exn_str e))) s.
Proof.
  intros Hm Hp i name arguments.
  unfold Index.handle_mcp_request, Index.dispatch.
  replace (dict_get_or "method" JNull request_data) with (JStr "tools/call")
    by (unfold dict_get_or; rewrite Hm; reflexivity).
  replace (dict_get_or "params" (JObj []) request_data) with (JObj params)
    by (unfold dict_get_or; rewrite Hp; reflexivity).
  reflexivity.
Qed.

(** A call of the WAV tool of [api/index.py] whose arguments bind: a result,
    the dump of a dictionary marked successful. *)
Lemma index_call_wav_result (w : World) (request_data params arguments : dict)
    (s : State) :
  dict_get "method" request_data = Some (JStr "tools/call") ->
  dict_get "params" request_data = Some (JObj params) ->
  dict_get "name" params = Some (JStr "wav_to_music_score") ->
  dict_get_or "arguments" (JObj []) params = JObj arguments ->
  first_unknown ["wav_path"; "render_svg"; "timestamp"] arguments = None ->
  dict_has "wav_path" arguments = true ->
  exists res s',
    Index.handle_mcp_request w request_data s =
      (Return (rpc_result (dict_get_or "id" (JInt 0) request_data)
                 (text_content (json_dumps (JObj res) 2))), s') /\
    dict_get "success" res = Some (JBool true).
Proof.
  intros Hm Hp Hn Ha Hu Hw.
  rewrite (index_tools_call_unfold w request_data params s Hm Hp). cbv zeta.
  rewrite Ha, (dict_get_or_Some _ _ _ _ Hn). cbn [eq_str].
  replace (String.eqb "wav_to_music_score" "wav_to_music_score") with true by reflexivity.
  unfold Index.call_wav_to_music_score, call_kwargs. cbn [map fst].
  rewrite Hu. cbn [first_missing]. rewrite Hw. cbn [bind_defaults map].
  destruct (index_wav_to_music_score_success w
              (match dict_get "wav_path" arguments with Some v => v | None => JNull end)
              (match dict_get "render_svg" arguments with Some v => v | None => JBool true end)
              (match dict_get "timestamp" arguments with Some v => v | None => JNull end) s)
    as (res & s' & Hrun & Hs).
  exists res, s'. split; [| exact Hs].
  unfold try_except. erewrite bind_step; [| erewrite bind_step by reflexivity; exact Hrun].
  reflexivity.
Qed.

(** A call of the WAV tool of [api/index.py] without [wav_path]: the call
    raises [TypeError], answered with -32603. *)
Lemma index_call_wav_missing (w : World) (request_data params arguments : dict)
    (s : State) :
  dict_get "method" request_data = Some (JStr "tools/call") ->
  dict_get "params" request_data = Some (JObj params) ->
  dict_get "name" params = Some (JStr "wav_to_music_score") ->
  dict_get_or "arguments" (JObj []) params = JObj arguments ->
  first_unknown ["wav_path"; "render_svg"; "timestamp"] arguments = None ->
  dict_has "wav_path" arguments = false ->
  Index.handle_mcp_request w request_data s =
    (Return (rpc_error (dict_get_or "id" (JInt 0) request_data) (-32603)
               "Internal error: wav_to_music_score() missing 1 required positional argument: 'wav_path'"),
     s).
Proof.
  intros Hm Hp Hn Ha Hu Hw.
  rewrite (index_tools_call_unfold w request_data params s Hm Hp). cbv zeta.
  rewrite Ha, (dict_get_or_Some _ _ _ _ Hn). cbn [eq_str].
  replace (String.eqb "wav_to_music_score" "wav_to_music_score") with true by reflexivity.
  unfold Index.call_wav_to_music_score, call_kwargs. cbn [map fst].
  rewrite Hu. cbn [first_missing]. rewrite Hw.
  reflexivity.
Qed.

(** A call of the humming tool of [api/index.py] whose arguments bind (the
    tool has no [style_prompt] parameter): a result, the dump of a dictionary
    marked successful. *)
Lemma index_call_humming_result (w : World) (request_data params arguments : dict)
    (s : State) :
  dict_get "method" request_data = Some (JStr "tools/call") ->
  dict_get "params" request_data = Some (JObj params) ->
  dict_get "name" params = Some (JStr "generate_music_from_humming") ->
  dict_get_or "arguments" (JObj []) params = JObj arguments ->
  first_unknown ["humming_path"; "generate_score"; "timestamp"] arguments = None ->
  dict_has "humming_path" arguments = true ->
  exists res s',
    Index.handle_mcp_request w request_data s =
      (Return (rpc_result (dict_get_or "id" (JInt 0) request_data)
                 (text_content (json_dumps (JObj res) 2))), s') /\
    dict_get "success" res = Some (JBool true).
Proof.
  intros Hm Hp Hn Ha Hu Hw.
  rewrite (index_tools_call_unfold w request_data params s Hm Hp). cbv zeta.
  rewrite Ha, (dict_get_or_Some _ _ _ _ Hn). cbn [eq_str].
  replace (String.eqb "generate_music_from_humming" "wav_to_music_score")
    with false by reflexivity.
  replace (String.eqb "generate_music_from_humming" "generate_music_from_humming")
    with true by reflexivity.
  unfold Index.call_generate_music_from_humming, call_kwargs. cbn [map fst].
  rewrite Hu. cbn [first_missing]. rewrite Hw. cbn [bind_defaults map].
  destruct (index_generate_music_from_humming_success w
              (match dict_get "humming_path" arguments with Some v => v | None => JNull end)
              (match dict_get "generate_score" arguments with
               | Some v => v | None => JBool true end)
              (match dict_get "timestamp" arguments with Some v => v | None => JNull end) s)
    as (res & s' & Hrun & Hs & _).
  exists res, s'. split; [| exact Hs].
  unfold try_except. erewrite bind_step; [| erewrite bind_step by reflexivity; exact Hrun].
  reflexivity.
Qed.

(** A call of the humming tool of [api/index.py] that does pass a
    [style_prompt]: the function has no such parameter, the call raises
    [TypeError], answered with -32603. *)
Lemma index_call_humming_style_prompt (w : World) (request_data params arguments : dict)
    (s : State) (k : string) :
  dict_get "method" request_data = Some (JStr "tools/call") ->
  dict_get "params" request_data = Some (JObj params) ->
  dict_get "name" params = Some (JStr "generate_music_from_humming") ->
  dict_get_or "arguments" (JObj []) params = JObj arguments ->
  first_unknown ["humming_path"; "generate_score"; "timestamp"] arguments = Some k ->
  Index.handle_mcp_request w request_data s =
    (Return (rpc_error (dict_get_or "id" (JInt 0) request_data) (-32603)
               ("Internal error: generate_music_from_humming() got an unexpected keyword argument '"
                +:+ k +:+ "'")), s).
Proof.
  intros Hm Hp Hn Ha Hu.
  rewrite (index_tools_call_unfold w request_data params s Hm Hp). cbv zeta.
  rewrite Ha, (dict_get_or_Some _ _ _ _ Hn). cbn [eq_str].
  replace (String.eqb "generate_music_from_humming" "wav_to_music_score")
    with false by reflexivity.
  replace (String.eqb "generate_music_from_humming" "generate_music_from_humming")
    with true by reflexivity.
  unfold Index.call_generate_music_from_humming, call_kwargs. cbn [map fst].
  rewrite Hu. reflexivity.
Qed.

(** A call of the humming tool of [api/index.py] without [humming_path]:
    the call raises [TypeError], answered with -32603. *)
Lemma index_call_humming_missing (w : World) (request_data params arguments : dict)
    (s : State) :
  dict_get "method" request_data = Some (JStr "tools/call") ->
  dict_get "params" request_data = Some (JObj params) ->
  dict_get "name" params = Some (JStr "generate_music_from_humming") ->
  dict_get_or "arguments" (JObj []) params = JObj arguments ->
  first_unknown ["humming_path"; "generate_score"; "timestamp"] arguments = None ->
  dict_has "humming_path" arguments = false ->
  Index.handle_mcp_request w request_data s =
    (Return (rpc_error (dict_get_or "id" (JInt 0) request_data) (-32603)
               "Internal error: generate_music_from_humming() missing 1 required positional argument: 'humming_path'"),
     s).
Proof.
  intros Hm Hp Hn Ha Hu Hw.
  rewrite (index_tools_call_unfold w request_data params s Hm Hp). cbv zeta.
  rewrite Ha, (dict_get_or_Some _ _ _ _ Hn). cbn [eq_str].
  replace (String.eqb "generate_music_from_humming" "wav_to_music_score")
    with false by reflexivity.
  replace (String.eqb "generate_music_from_humming" "generate_music_from_humming")
    with true by reflexivity.
  unfold Index.call_generate_music_from_humming, call_kwargs. cbn [map fst].
  rewrite Hu. cbn [first_missing]. rewrite Hw.
  reflexivity.
Qed.

(* ===================================================================== *)
(** ** [api/mcp.py]: what the dispatcher returns *)
(* ===================================================================== *)

(** A request that is not a valid [MCPRequest] is answered with -32603 and
    the id as the request has it (0 without one). *)
Lemma mcp_invalid (w : World) (request_data : dict) (s : State) :
  Mcp.validate w request_data = None ->
  Mcp.handle_mcp_request w request_data s =
    (Return (rpc_error (dict_get_or "id" (JInt 0) request_data) (-32603)
               ("Internal error: " +:+ validation_error w request_data)), s).
Proof.
  intros Hv. unfold Mcp.handle_mcp_request, try_except, bind, Mcp.MCPRequest_init.
  rewrite Hv. reflexivity.
Qed.

(** A valid one goes to the branches. *)
Lemma mcp_valid (w : World) (request_data : dict) (rq : Mcp.MCPRequest) (s : State) :
  Mcp.validate w request_data = Some rq ->
  Mcp.handle_mcp_request w request_data s =
    try_except (Mcp.dispatch w rq)
      (fun e =>
         ret (rpc_error (dict_get_or "id" (JInt 0) request_data) (-32603)
                ("Internal error: " +:+ exn_str e))) s.
Proof.
  intros Hv. unfold Mcp.handle_mcp_request, try_except, bind, Mcp.MCPRequest_init.
  rewrite Hv. reflexivity.
Qed.

(** A request without [method], or without [id], is not valid. *)
Lemma mcp_validate_needs_method (w : World) (request_data : dict) :
  dict_get "method" request_data = None -> Mcp.validate w request_data = None.
Proof.
  intros Hm. unfold Mcp.validate. rewrite Hm.
  repeat match goal with
         | |- context [match ?x with _ => _ end] => destruct x
         end; reflexivity.
Qed.

Lemma mcp_validate_needs_id (w : World) (request_data : dict) :
  dict_get "id" request_data = None -> Mcp.validate w request_data = None.
Proof.
  intros Hm. unfold Mcp.validate. rewrite Hm.
  repeat match goal with
         | |- context [match ?x with _ => _ end] => destruct x
         end; reflexivity.
Qed.

(** Validation keeps an integer id and a string method as they are. *)
Lemma mcp_validate_fields (w : World) (request_data : dict) (rq : Mcp.MCPRequest) :
  Mcp.validate w request_data = Some rq ->
  (forall z, dict_get "id" request_data = Some (JInt z) -> Mcp.req_id rq = z) /\
  (forall m, dict_get "method" request_data = Some (JStr m) -> Mcp.req_method rq = m) /\
  (forall p, dict_get "params" request_data = Some (JObj p) -> Mcp.req_params rq = p) /\
  (dict_get "params" request_data = None -> Mcp.req_params rq = []).
Proof.
  unfold Mcp.validate. intros Hv.
  destruct (dict_get "jsonrpc" request_data) as [j |];
    [destruct (Mcp.field_str w j) |];
    (destruct (dict_get "id" request_data) as [i |];
       [destruct (Mcp.field_int w i) eqn:Hi |]);
    (destruct (dict_get "method" request_data) as [m |];
       [destruct (Mcp.field_str w m) eqn:Hm |]);
    (destruct (dict_get "params" request_data) as [p |];
       [destruct (Mcp.field_dict w p) eqn:Hp |]);
    try discriminate Hv; injection Hv as <-; cbn;
    repeat split; intros; try discriminate;
    match goal with
    | H : Some _ = Some _ |- _ => injection H as ->
    end; cbn in *; congruence.
Qed.

(** A request with an integer id, a string method and a dictionary of
    parameters (or none) is valid as it stands. *)
Lemma mcp_validate_plain (w : World) (request_data : dict) (z : Z) (m : string) :
  dict_get "id" request_data = Some (JInt z) ->
  dict_get "method" request_data = Some (JStr m) ->
  (dict_get "jsonrpc" request_data = None \/
   exists j, dict_get "jsonrpc" request_data = Some (JStr j)) ->
  (dict_get "params" request_data = None \/
   exists p, dict_get "params" request_data = Some (JObj p)) ->
  exists rq, Mcp.validate w request_data = Some rq.
Proof.
  intros Hi Hm [Hj | (j & Hj)] [Hp | (p & Hp)];
    unfold Mcp.validate; rewrite Hi, Hm, Hj, Hp; eexists; reflexivity.
Qed.

(** Whatever the WAV branch returns is a result, or the error -32602. *)
Lemma mcp_wav_branch_returns (w : World) (i arguments : json) (s s' : State) (r : json) :
  Mcp.tools_call_wav_to_music_score w i arguments s = (Return r, s') ->
  (exists t, r = rpc_result i (text_content t)) \/
  r = rpc_error i (-32602) "Missing required parameter: wav_file_path".
Proof.
  unfold Mcp.tools_call_wav_to_music_score. intros H.
  bind_inv H. bind_inv H.
  destruct (negb (truthy a)); [ret_inv H; right; reflexivity |].
  left. apply try_except_Return in H. destruct H as [H | (e & s2 & _ & H)].
  - bind_inv H. bind_inv H. ret_inv H. eexists. reflexivity.
  - ret_inv H. eexists. reflexivity.
Qed.

(** Whatever the humming branch returns is a result, or the error -32602. *)
Lemma mcp_humming_branch_returns (w : World) (i arguments : json) (s s' : State)
    (r : json) :
  Mcp.tools_call_generate_music_from_humming w i arguments s = (Return r, s') ->
  (exists t, r = rpc_result i (text_content t)) \/
  r = rpc_error i (-32602)
        "Missing required parameters: humming_file_path and style_prompt".
Proof.
  unfold Mcp.tools_call_generate_music_from_humming. intros H.
  bind_inv H. bind_inv H. bind_inv H.
  destruct (negb (truthy a) || negb (truthy a0)); [ret_inv H; right; reflexivity |].
  left. apply try_except_Return in H. destruct H as [H | (e & s3 & _ & H)].
  - bind_inv H. bind_inv H. ret_inv H. eexists. reflexivity.
  - ret_inv H. eexists. reflexivity.
Qed.

(** Whatever the branches return is an envelope for the validated id. *)
Lemma mcp_dispatch_returns (w : World) (rq : Mcp.MCPRequest) (s s' : State) (r : json) :
  Mcp.dispatch w rq s = (Return r, s') -> envelope (JInt (Mcp.req_id rq)) r.
Proof.
  unfold Mcp.dispatch. intros H.
  destruct (String.eqb (Mcp.req_method rq) "initialize");
    [ret_inv H; auto with envelopes |].
  destruct (String.eqb (Mcp.req_method rq) "tools/list");
    [ret_inv H; auto with envelopes |].
  destruct (String.eqb (Mcp.req_method rq) "tools/call").
  { destruct (eq_str _ "wav_to_music_score").
    - apply mcp_wav_branch_returns in H. destruct H as [[t ->] | ->]; auto with envelopes.
    - destruct (eq_str _ "generate_music_from_humming").
      + apply mcp_humming_branch_returns in H.
        destruct H as [[t ->] | ->]; auto with envelopes.
      + ret_inv H. auto with envelopes. }
  destruct (String.eqb (Mcp.req_method rq) "resources/list");
    [ret_inv H; auto with envelopes |].
  destruct (String.eqb (Mcp.req_method rq) "prompts/list");
    [ret_inv H; auto with envelopes |].
  ret_inv H. auto with envelopes.
Qed.

(** The dispatcher of [api/mcp.py] returns, and what it returns is an
    envelope: for the validated id when the branches returned it, for the id
    as the request has it (0 without one) when it is the error -32603 that an
    exception becomes. *)
Lemma mcp_handle_returns (w : World) (request_data : dict) (s : State) :
  exists r s',
    Mcp.handle_mcp_request w request_data s = (Return r, s') /\
    ((exists rq, Mcp.validate w request_data = Some rq /\
                 Mcp.dispatch w rq s = (Return r, s') /\
                 envelope (JInt (Mcp.req_id rq)) r) \/
     (exists m, r = rpc_error (dict_get_or "id" (JInt 0) request_data) (-32603)
                      ("Internal error: " +:+ m))).
Proof.
  destruct (Mcp.validate w request_data) as [rq |] eqn:Hv.
  - rewrite (mcp_valid w request_data rq s Hv).
    match goal with
    | |- context [try_except ?c (fun e => ret (@?g e)) s] =>
        destruct (try_except_total c g s) as (r & s' & Hrun & Hcase)
    end.
    exists r, s'. split; [exact Hrun |].
    destruct Hcase as [Hret | (e & _ & ->)].
    + left. exists rq. split; [reflexivity |]. split; [exact Hret |].
      eapply mcp_dispatch_returns. exact Hret.
    + right. eexists. reflexivity.
  - rewrite (mcp_invalid w request_data s Hv). eexists. eexists.
    split; [reflexivity |]. right. eexists. reflexivity.
Qed.

Lemma mcp_handle_envelope (w : World) (request_data : dict) (s : State) :
  exists r s' i,
    Mcp.handle_mcp_request w request_data s = (Return r, s') /\ envelope i r /\
    (forall z, dict_get "id" request_data = Some (JInt z) -> i = JInt z).
Proof.
  destruct (mcp_handle_returns w request_data s) as (r & s' & Hrun & Hcase).
  exists r, s'.
  destruct Hcase as [(rq & Hv & _ & He) | (m & ->)].
  - exists (JInt (Mcp.req_id rq)). split; [exact Hrun |]. split; [exact He |].
    intros z Hz. f_equal.
    apply (proj1 (mcp_validate_fields w request_data rq Hv)). exact Hz.
  - eexists. split; [exact Hrun |]. split; [auto with envelopes |].
    intros z Hz. apply dict_get_or_Some. exact Hz.
Qed.

(** [tools/list] of a valid request is answered with [Mcp.tools]. *)
Lemma mcp_tools_list (w : World) (request_data : dict) (rq : Mcp.MCPRequest) (s : State) :
  Mcp.validate w request_data = Some rq ->
  Mcp.req_method rq = "tools/list" ->
  Mcp.handle_mcp_request w request_data s =
    (Return (rpc_result (JInt (Mcp.req_id rq)) (JObj [("tools", Mcp.tools)])), s).
Proof.
  intros Hv Hm. rewrite (mcp_valid w request_data rq s Hv).
  unfold try_except, Mcp.dispatch. rewrite Hm. reflexivity.
Qed.

(** An unknown method of a valid request is answered with -32601. *)
Lemma mcp_unknown_method (w : World) (request_data : dict) (rq : Mcp.MCPRequest)
    (s : State) :
  Mcp.validate w request_data = Some rq ->
  known_method (JStr (Mcp.req_method rq)) = false ->
  Mcp.handle_mcp_request w request_data s =
    (Return (rpc_error (JInt (Mcp.req_id rq)) (-32601)
               ("Method not found: " +:+ Mcp.req_method rq)), s).
Proof.
  intros Hv Hm. unfold known_method, known_methods in Hm. cbn [existsb eq_str] in Hm.
  repeat (apply orb_false_elim in Hm; destruct Hm as [? Hm]).
  rewrite (mcp_valid w request_data rq s Hv).
  unfold try_except, Mcp.dispatch.
  repeat match goal with
         | H : String.eqb (Mcp.req_method rq) _ = false |- _ => rewrite H; clear H
         end.
  reflexivity.
Qed.

(** An unknown tool of a valid [tools/call] is answered with -32601. *)
Lemma mcp_unknown_tool (w : World) (request_data : dict) (rq : Mcp.MCPRequest)
    (s : State) :
  Mcp.validate w request_data = Some rq ->
  Mcp.req_method rq = "tools/call" ->
  let name := dict_get_or "name" JNull (Mcp.req_params rq) in
  known_tool name = false ->
  Mcp.handle_mcp_request w request_data s =
    (Return (rpc_error (JInt (Mcp.req_id rq)) (-32601)
               ("Unknown tool: " +:+ py_str w name)), s).
Proof.
  intros Hv Hm name Hn. unfold known_tool, known_tools in Hn. cbn [existsb] in Hn.
  repeat (apply orb_false_elim in Hn; destruct Hn as [? Hn]).
  rewrite (mcp_valid w request_data rq s Hv).
  unfold try_except, Mcp.dispatch. rewrite Hm. cbn [String.eqb Ascii.eqb Bool.eqb].
  fold name.
  repeat match goal with
         | H : eq_str name _ = false |- _ => rewrite H; clear H
         end.
  reflexivity.
Qed.

(** The WAV tool of [api/mcp.py] without a path (none, or an empty or
    otherwise false one) is answered with -32602. *)
Lemma mcp_wav_missing (w : World) (request_data arguments : dict) (rq : Mcp.MCPRequest)
    (s : State) :
  Mcp.validate w request_data = Some rq ->
  Mcp.req_method rq = "tools/call" ->
  dict_get "name" (Mcp.req_params rq) = Some (JStr "wav_to_music_score") ->
  dict_get_or "arguments" (JObj []) (Mcp.req_params rq) = JObj arguments ->
  truthy (dict_get_or "wav_file_path" JNull arguments) = false ->
  Mcp.handle_mcp_request w request_data s =
    (Return (rpc_error (JInt (Mcp.req_id rq)) (-32602)
               "Missing required parameter: wav_file_path"), s).
Proof.
  intros Hv Hm Hn Ha Ht. rewrite (mcp_valid w request_data rq s Hv).
  unfold try_except, Mcp.dispatch. rewrite Hm, Ha, (dict_get_or_Some _ _ _ _ Hn).
  cbn [String.eqb Ascii.eqb Bool.eqb eq_str].
  unfold Mcp.tools_call_wav_to_music_score.
  erewrite bind_step by reflexivity. erewrite bind_step by reflexivity.
  rewrite Ht. reflexivity.
Qed.

(** The humming tool of [api/mcp.py] without a path or without a style
    prompt (none, or an empty or otherwise false one) is answered with
    -32602. *)
Lemma mcp_humming_missing (w : World) (request_data arguments : dict)
    (rq : Mcp.MCPRequest) (s : State) :
  Mcp.validate w request_data = Some rq ->
  Mcp.req_method rq = "tools/call" ->
  dict_get "name" (Mcp.req_params rq) = Some (JStr "generate_music_from_humming") ->
  dict_get_or "arguments" (JObj []) (Mcp.req_params rq) = JObj arguments ->
  truthy (dict_get_or "humming_file_path" JNull arguments) = false \/
  truthy (dict_get_or "style_prompt" JNull arguments) = false ->
  Mcp.handle_mcp_request w request_data s =
    (Return (rpc_error (JInt (Mcp.req_id rq)) (-32602)
               "Missing required parameters: humming_file_path and style_prompt"), s).
Proof.
  intros Hv Hm Hn Ha Ht. rewrite (mcp_valid w request_data rq s Hv).
  unfold try_except, Mcp.dispatch. rewrite Hm, Ha, (dict_get_or_Some _ _ _ _ Hn).
  cbn [String.eqb Ascii.eqb Bool.eqb eq_str].
  unfold Mcp.tools_call_generate_music_from_humming.
  erewrite bind_step by reflexivity. erewrite bind_step by reflexivity.
  erewrite bind_step by reflexivity.
  replace (negb (truthy (dict_get_or "humming_file_path" JNull arguments)) ||
           negb (truthy (dict_get_or "style_prompt" JNull arguments))) with true
    by (destruct Ht as [-> | ->]; [reflexivity | symmetry; apply orb_true_r]).
  reflexivity.
Qed.

(** The WAV tool of [api/mcp.py] with a path that [os.path.exists] denies: a
    result whose text is the failure marker and the path. *)
Lemma mcp_wav_not_found (w : World) (request_data arguments : dict) (rq : Mcp.MCPRequest)
    (path : json) (s s1 : State) :
  Mcp.validate w request_data = Some rq ->
  Mcp.req_method rq = "tools/call" ->
  dict_get "name" (Mcp.req_params rq) = Some (JStr "wav_to_music_score") ->
  dict_get_or "arguments" (JObj []) (Mcp.req_params rq) = JObj arguments ->
  dict_get "wav_file_path" arguments = Some path ->
  truthy path = true ->
  Mcp.os_path_exists w path s = (Return false, s1) ->
  Mcp.handle_mcp_request w request_data s =
    (Return (rpc_result (JInt (Mcp.req_id rq))
               (text_content ("❌ WAV file not found: " +:+ py_str w path))), s1).
Proof.
  intros Hv Hm Hn Ha Hp Ht He. rewrite (mcp_valid w request_data rq s Hv).
  unfold try_except at 1. unfold Mcp.dispatch.
  rewrite Hm, Ha, (dict_get_or_Some _ _ _ _ Hn).
  cbn [String.eqb Ascii.eqb Bool.eqb eq_str].
  unfold Mcp.tools_call_wav_to_music_score.
  erewrite bind_step by reflexivity. erewrite bind_step by reflexivity.
  rewrite (dict_get_or_Some _ _ _ _ Hp), Ht. cbn [negb].
  unfold try_except. erewrite bind_step by exact He. cbn [negb].
  reflexivity.
Qed.

(** [os.path.exists] of a string that names no file and no directory. *)
Lemma mcp_os_path_exists_absent (w : World) (path : string) (s : State) :
  path ∉ dom (fs_files s) -> path ∉ fs_dirs s ->
  Mcp.os_path_exists w (JStr path) s = (Return false, bump s).
Proof.
  intros Hf Hd. unfold Mcp.os_path_exists.
  destruct (os_fault w (tick s)); [reflexivity |].
  rewrite !bool_decide_eq_false_2 by assumption. reflexivity.
Qed.

(* ===================================================================== *)
(** ** The properties of the specification *)
(* ===================================================================== *)

(** C8.  For every request and every behaviour of the outside, the response
    of each dispatcher ([api/index.py] and [api/mcp.py]) carries the version
    tag, an id, and exactly one of [result] and [error]. *)
Theorem C8_response_has_exactly_one_of_result_and_error
    (w : World) (request_data : dict) (s : State) :
  (exists r s', Index.handle_mcp_request w request_data s = (Return r, s') /\ response_ok r) /\
  (exists r s', Mcp.handle_mcp_request w request_data s = (Return r, s') /\ response_ok r).
Proof.
  split.
  - destruct (index_handle_envelope w request_data s) as (r & s' & Hrun & He & _).
    exists r, s'. split; [exact Hrun |]. eapply envelope_response_ok. exact He.
  - destruct (mcp_handle_envelope w request_data s) as (r & s' & i & Hrun & He & _).
    exists r, s'. split; [exact Hrun |]. eapply envelope_response_ok. exact He.
Qed.

(** C2.  For every request that carries an integer id, the response of each
    dispatcher carries that same id, whatever the method and whether the
    outcome is a result or an error. *)
Theorem C2_integer_id_is_echoed
    (w : World) (request_data : dict) (s : State) (z : Z) :
  dict_get "id" request_data = Some (JInt z) ->
  (exists r s', Index.handle_mcp_request w request_data s = (Return r, s') /\
                field "id" r = Some (JInt z)) /\
  (exists r s', Mcp.handle_mcp_request w request_data s = (Return r, s') /\
                field "id" r = Some (JInt z)).
Proof.
  intros Hid. split.
  - destruct (index_handle_envelope w request_data s) as (r & s' & Hrun & He & _).
    exists r, s'. split; [exact Hrun |].
    rewrite (dict_get_or_Some _ _ _ _ Hid) in He. apply envelope_id. exact He.
  - destruct (mcp_handle_envelope w request_data s) as (r & s' & i & Hrun & He & Hi).
    exists r, s'. split; [exact Hrun |].
    rewrite (Hi z Hid) in He. apply envelope_id. exact He.
Qed.

Lemma C2_integer_id_is_echoed_witness :
  dict_get "id" (tools_call (JInt 42) "nonexistent_tool" []) = Some (JInt 42) /\
  (exists r s',
     Index.handle_mcp_request online (tools_call (JInt 42) "nonexistent_tool" []) start =
       (Return r, s') /\ field "id" r = Some (JInt 42)) /\
  (exists r s',
     Mcp.handle_mcp_request online (tools_call (JInt 42) "nonexistent_tool" []) start =
       (Return r, s') /\ field "id" r = Some (JInt 42)).
Proof.
  split; [reflexivity |].
  apply (C2_integer_id_is_echoed online (tools_call (JInt 42) "nonexistent_tool" [])
           start 42).
  reflexivity.
Defined.

(** The document of [api/index.py] is dated by the clock, not by the
    [timestamp] argument: the same call a day later has another result. *)
Example index_wav_to_music_score_is_dated_by_the_clock :
  run (Index.wav_to_music_score offline (JStr "a.wav") (JBool false)
         (JStr "20250714_093005")) start <>
  run (Index.wav_to_music_score next_day (JStr "a.wav") (JBool false)
         (JStr "20250714_093005")) start.
Proof. vm_compute. discriminate. Qed.

(** C9.  In [api/index.py], the result of [wav_to_music_score] does not
    depend on [wav_path]: two calls with any two paths, the same
    [render_svg] and [timestamp], and the same outside (the clock, which
    dates the document, and the HTTP service) have the same outcome, whatever
    the file systems hold, each left as it was: the audio file is neither
    opened, read nor checked for existence. *)
Theorem C9_wav_to_music_score_ignores_wav_path
    (w : World) (wav_path1 wav_path2 render_svg timestamp : json) (n : nat)
    (files1 files2 : gmap string string) (dirs1 dirs2 : gset string) :
  exists (o : outcome dict) (n' : nat),
    Index.wav_to_music_score w wav_path1 render_svg timestamp (mkState n files1 dirs1) =
      (o, mkState n' files1 dirs1) /\
    Index.wav_to_music_score w wav_path2 render_svg timestamp (mkState n files2 dirs2) =
      (o, mkState n' files2 dirs2).
Proof.
  destruct (index_wav_to_music_score_blind w wav_path1 render_svg timestamp n)
    as (o & n' & H).
  exists o, n'. split.
  - apply H.
  - change (Index.wav_to_music_score w wav_path2 render_svg timestamp)
      with (Index.wav_to_music_score w wav_path1 render_svg timestamp).
    apply H.
Qed.

(** C10.  In [api/index.py], [generate_music_from_humming] returns a
    dictionary whose [success] is [True] on every input and for every
    behaviour of the outside; when the call of the generation service raises
    or answers another status than 200, the failure is caught and what is
    returned is the placeholder, marked successful, with no generated
    audio. *)
Theorem C10_generate_music_from_humming_always_successful
    (w : World) (humming_path generate_score timestamp : json) (s : State) :
  exists res s',
    Index.generate_music_from_humming w humming_path generate_score timestamp s =
      (Return res, s') /\
    dict_get "success" res = Some (JBool true) /\
    (match network w (tick s)
             (mkHttpCall (MUSICGEN_API_URL +:+ "/generate")
                (Some (JObj [("audio_path", humming_path); ("duration", JInt 30)]))
                [] [] (Some 60))
     with
     | Return response => status_code response <> 200
     | Raise _ => True
     end ->
     dict_get "generated_audio" res = Some (JStr "")).
Proof. apply index_generate_music_from_humming_success. Qed.

Lemma C10_generate_music_from_humming_always_successful_witness :
  exists res s',
    Index.generate_music_from_humming unavailable (JStr "hum.wav") (JBool false) JNull start =
      (Return res, s') /\
    dict_get "success" res = Some (JBool true) /\
    dict_get "generated_audio" res = Some (JStr "").
Proof.
  destruct (C10_generate_music_from_humming_always_successful unavailable
              (JStr "hum.wav") (JBool false) JNull start) as (res & s' & Hrun & Hs & Ha).
  exists res, s'. split; [exact Hrun |]. split; [exact Hs |].
  apply Ha. cbn. discriminate.
Defined.

(** C1 as the code has it.  For every parsed request and every behaviour of
    the outside, each dispatcher returns one response and never raises; an
    exception that leaves the dispatch body becomes the error -32603, and a
    method outside the five known ones the error -32601 (in [api/mcp.py] for a
    request that [MCPRequest] accepts; one it refuses is answered with
    -32603).  A missing required tool parameter is answered with -32602 by
    [api/mcp.py]; [api/index.py] never answers -32602: there the call of the
    tool function raises [TypeError], which becomes -32603. *)
Theorem C1_dispatchers_return_and_classify_errors
    (w : World) (request_data : dict) (s : State) :
  (* api/index.py *)
  (exists r s',
     Index.handle_mcp_request w request_data s = (Return r, s') /\
     envelope (dict_get_or "id" (JInt 0) request_data) r /\
     error_code r <> Some (-32602)) /\
  (forall e s1,
     Index.dispatch w (dict_get_or "method" JNull request_data)
       (dict_get_or "params" (JObj []) request_data)
       (dict_get_or "id" (JInt 0) request_data) s = (Raise e, s1) ->
     Index.handle_mcp_request w request_data s =
       (Return (rpc_error (dict_get_or "id" (JInt 0) request_data) (-32603)
                  ("Internal error: " +:+ exn_str e)), s1)) /\
  (known_method (dict_get_or "method" JNull request_data) = false ->
   Index.handle_mcp_request w request_data s =
     (Return (rpc_error (dict_get_or "id" (JInt 0) request_data) (-32601)
                ("Method not found: " +:+
                 py_str w (dict_get_or "method" JNull request_data))), s)) /\
  (forall params arguments,
     dict_get "method" request_data = Some (JStr "tools/call") ->
     dict_get "params" request_data = Some (JObj params) ->
     dict_get_or "arguments" (JObj []) params = JObj arguments ->
     (dict_get "name" params = Some (JStr "wav_to_music_score") /\
      first_unknown ["wav_path"; "render_svg"; "timestamp"] arguments = None /\
      dict_has "wav_path" arguments = false) \/
     (dict_get "name" params = Some (JStr "generate_music_from_humming") /\
      first_unknown ["humming_path"; "generate_score"; "timestamp"] arguments = None /\
      dict_has "humming_path" arguments = false) ->
     exists r,
       Index.handle_mcp_request w request_data s = (Return r, s) /\
       error_code r = Some (-32603)) /\
  (* api/mcp.py *)
  (exists r s' i,
     Mcp.handle_mcp_request w request_data s = (Return r, s') /\ envelope i r) /\
  (Mcp.validate w request_data = None ->
   Mcp.handle_mcp_request w request_data s =
     (Return (rpc_error (dict_get_or "id" (JInt 0) request_data) (-32603)
                ("Internal error: " +:+ validation_error w request_data)), s)) /\
  (forall rq,
     Mcp.validate w request_data = Some rq ->
     (forall e s1,
        Mcp.dispatch w rq s = (Raise e, s1) ->
        Mcp.handle_mcp_request w request_data s =
          (Return (rpc_error (dict_get_or "id" (JInt 0) request_data) (-32603)
                     ("Internal error: " +:+ exn_str e)), s1)) /\
     (known_method (JStr (Mcp.req_method rq)) = false ->
      Mcp.handle_mcp_request w request_data s =
        (Return (rpc_error (JInt (Mcp.req_id rq)) (-32601)
                   ("Method not found: " +:+ Mcp.req_method rq)), s)) /\
     (forall arguments,
        Mcp.req_method rq = "tools/call" ->
        dict_get_or "arguments" (JObj []) (Mcp.req_params rq) = JObj arguments ->
        (dict_get "name" (Mcp.req_params rq) = Some (JStr "wav_to_music_score") /\
         dict_get "wav_file_path" arguments = None) \/
        (dict_get "name" (Mcp.req_params rq) = Some (JStr "generate_music_from_humming") /\
         (dict_get "humming_file_path" arguments = None \/
          dict_get "style_prompt" arguments = None)) ->
        exists r,
          Mcp.handle_mcp_request w request_data s = (Return r, s) /\
          error_code r = Some (-32602))).
Proof.
  split; [apply index_handle_envelope |].
  split.
  { intros e s1 He. unfold Index.handle_mcp_request.
    erewrite try_except_caught by exact He. reflexivity. }
  split; [apply index_unknown_method |].
  split.
  { intros params arguments Hm Hp Ha [(Hn & Hu & Hw) | (Hn & Hu & Hw)].
    - eexists. split;
        [eapply index_call_wav_missing; eassumption | reflexivity].
    - eexists. split;
        [eapply index_call_humming_missing; eassumption | reflexivity]. }
  split.
  { destruct (mcp_handle_envelope w request_data s) as (r & s' & i & Hrun & He & _).
    exists r, s', i. split; assumption. }
  split; [apply mcp_invalid |].
  intros rq Hv. split.
  { intros e s1 He. rewrite (mcp_valid w request_data rq s Hv).
    erewrite try_except_caught by exact He. reflexivity. }
  split; [apply mcp_unknown_method; exact Hv |].
  intros arguments Hm Ha [(Hn & Hw) | (Hn & Hw)].
  - eexists. split;
      [eapply mcp_wav_missing; try eassumption;
       rewrite (dict_get_or_None _ _ _ Hw); reflexivity
      | reflexivity].
  - eexists. split;
      [eapply mcp_humming_missing; try eassumption;
       destruct Hw as [Hw | Hw]; rewrite (dict_get_or_None _ _ _ Hw); auto
      | reflexivity].
Qed.

Lemma C1_dispatchers_return_and_classify_errors_witness :
  known_method (dict_get_or "method" JNull (request (JInt 3) "ping" [])) = false /\
  Index.handle_mcp_request offline (request (JInt 3) "ping" []) start =
    (Return (rpc_error (JInt 3) (-32601) "Method not found: ping"), start).
Proof.
  split; [reflexivity |].
  exact (proj1 (proj2 (proj2
           (C1_dispatchers_return_and_classify_errors offline
              (request (JInt 3) "ping" []) start))) eq_refl).
Defined.

(** C1 as the specification has it fails.  In [api/index.py] a call of the
    WAV tool without its required [wav_path] is answered with -32603, not
    -32602.  In [api/mcp.py] an unknown method in a request without an id is
    answered with -32603, not -32601. *)
Lemma C1_index_missing_parameter_is_not_32602 :
  (exists r,
     run (Index.handle_mcp_request offline (tools_call (JInt 1) "wav_to_music_score" []))
       start = Return r /\
     error_code r = Some (-32603) /\
     error_code r <> Some (-32602)) /\
  (exists r,
     run (Mcp.handle_mcp_request offline [("jsonrpc", JStr "2.0"); ("method", JStr "ping")])
       start = Return r /\
     error_code r = Some (-32603) /\
     error_code r <> Some (-32601)).
Proof.
  split; eexists; (split; [vm_compute; reflexivity |]);
    (split; [reflexivity | discriminate]).
Qed.

(** C3 as the code has it.  A [tools/call] whose parameters name a tool
    outside the two registered ones is answered with an error and never
    raises: the error -32601 by [api/mcp.py] (for a request that [MCPRequest]
    accepts), the error -32603 by [api/index.py], whose branch raises an
    exception that the dispatcher catches. *)
Theorem C3_unknown_tool_is_an_error
    (w : World) (request_data : dict) (s : State) :
  (forall params,
     dict_get "method" request_data = Some (JStr "tools/call") ->
     dict_get "params" request_data = Some (JObj params) ->
     known_tool (dict_get_or "name" JNull params) = false ->
     Index.handle_mcp_request w request_data s =
       (Return (rpc_error (dict_get_or "id" (JInt 0) request_data) (-32603)
                  ("Internal error: Unknown tool: " +:+
                   py_str w (dict_get_or "name" JNull params))), s)) /\
  (forall rq,
     Mcp.validate w request_data = Some rq ->
     Mcp.req_method rq = "tools/call" ->
     known_tool (dict_get_or "name" JNull (Mcp.req_params rq)) = false ->
     Mcp.handle_mcp_request w request_data s =
       (Return (rpc_error (JInt (Mcp.req_id rq)) (-32601)
                  ("Unknown tool: " +:+
                   py_str w (dict_get_or "name" JNull (Mcp.req_params rq)))), s)).
Proof.
  split.
  - intros params Hm Hp Hn. apply (index_unknown_tool w request_data params s Hm Hp Hn).
  - intros rq Hv Hm Hn. apply (mcp_unknown_tool w request_data rq s Hv Hm Hn).
Qed.

Lemma C3_unknown_tool_is_an_error_witness :
  Mcp.validate offline (tools_call (JInt 5) "nonexistent_tool" []) =
    Some (Mcp.mkMCPRequest "2.0" 5 "tools/call"
            [("name", JStr "nonexistent_tool"); ("arguments", JObj [])]) /\
  Mcp.handle_mcp_request offline (tools_call (JInt 5) "nonexistent_tool" []) start =
    (Return (rpc_error (JInt 5) (-32601) "Unknown tool: nonexistent_tool"), start).
Proof.
  split; [reflexivity |].
  exact (proj2 (C3_unknown_tool_is_an_error offline
                  (tools_call (JInt 5) "nonexistent_tool" []) start)
           _ eq_refl eq_refl eq_refl).
Defined.

(** C3 as the specification has it fails.  In [api/index.py] the tool name
    [nonexistent_tool] is answered with -32603, not -32601; so it is in
    [api/mcp.py] when the request has no id. *)
Lemma C3_index_unknown_tool_is_not_32601 :
  (exists r,
     run (Index.handle_mcp_request offline (tools_call (JInt 1) "nonexistent_tool" []))
       start = Return r /\
     error_code r = Some (-32603) /\
     error_code r <> Some (-32601)) /\
  (exists r,
     run (Mcp.handle_mcp_request offline
            [("jsonrpc", JStr "2.0"); ("method", JStr "tools/call");
             ("params", JObj [("name", JStr "nonexistent_tool"); ("arguments", JObj [])])])
       start = Return r /\
     error_code r = Some (-32603) /\
     error_code r <> Some (-32601)).
Proof.
  split; eexists; (split; [vm_compute; reflexivity |]);
    (split; [reflexivity | discriminate]).
Qed.

(** C4 as the code has it.  In [api/mcp.py], a [tools/call] of the humming
    tool (in a request that [MCPRequest] accepts) whose arguments have no
    [style_prompt] is answered with the error -32602.  In [api/index.py] the
    humming tool has no [style_prompt] parameter and the dispatcher never
    answers -32602: a call whose arguments are among [humming_path],
    [generate_score] and [timestamp], with [humming_path] given, is answered
    with a result marked successful, and a call that passes any other
    argument, [style_prompt] included, with the error -32603. *)
Theorem C4_humming_without_style_prompt
    (w : World) (request_data : dict) (s : State) :
  (forall rq arguments,
     Mcp.validate w request_data = Some rq ->
     Mcp.req_method rq = "tools/call" ->
     dict_get "name" (Mcp.req_params rq) = Some (JStr "generate_music_from_humming") ->
     dict_get_or "arguments" (JObj []) (Mcp.req_params rq) = JObj arguments ->
     dict_get "style_prompt" arguments = None ->
     Mcp.handle_mcp_request w request_data s =
       (Return (rpc_error (JInt (Mcp.req_id rq)) (-32602)
                  "Missing required parameters: humming_file_path and style_prompt"), s)) /\
  (exists r s',
     Index.handle_mcp_request w request_data s = (Return r, s') /\
     error_code r <> Some (-32602)) /\
  (forall params arguments,
     dict_get "method" request_data = Some (JStr "tools/call") ->
     dict_get "params" request_data = Some (JObj params) ->
     dict_get "name" params = Some (JStr "generate_music_from_humming") ->
     dict_get_or "arguments" (JObj []) params = JObj arguments ->
     first_unknown ["humming_path"; "generate_score"; "timestamp"] arguments = None ->
     dict_has "humming_path" arguments = true ->
     exists res s',
       Index.handle_mcp_request w request_data s =
         (Return (rpc_result (dict_get_or "id" (JInt 0) request_data)
                    (text_content (json_dumps (JObj res) 2))), s') /\
       dict_get "success" res = Some (JBool true)) /\
  (forall params arguments k,
     dict_get "method" request_data = Some (JStr "tools/call") ->
     dict_get "params" request_data = Some (JObj params) ->
     dict_get "name" params = Some (JStr "generate_music_from_humming") ->
     dict_get_or "arguments" (JObj []) params = JObj arguments ->
     first_unknown ["humming_path"; "generate_score"; "timestamp"] arguments = Some k ->
     Index.handle_mcp_request w request_data s =
       (Return (rpc_error (dict_get_or "id" (JInt 0) request_data) (-32603)
                  ("Internal error: generate_music_from_humming() got an unexpected keyword argument '"
                   +:+ k +:+ "'")), s)).
Proof.
  split.
  { intros rq arguments Hv Hm Hn Ha Hs.
    eapply mcp_humming_missing; try eassumption.
    right. rewrite (dict_get_or_None _ _ _ Hs). reflexivity. }
  split.
  { destruct (index_handle_envelope w request_data s) as (r & s' & Hrun & _ & Hc).
    exists r, s'. split; assumption. }
  split.
  { intros params arguments Hm Hp Hn Ha Hu Hh.
    eapply index_call_humming_result; eassumption. }
  intros params arguments k Hm Hp Hn Ha Hu.
  eapply index_call_humming_style_prompt; eassumption.
Qed.

Lemma C4_humming_without_style_prompt_witness :
  dict_get "style_prompt" [("humming_file_path", JStr "hum.wav")] = None /\
  Mcp.handle_mcp_request offline
    (tools_call (JInt 9) "generate_music_from_humming"
       [("humming_file_path", JStr "hum.wav")]) start =
    (Return (rpc_error (JInt 9) (-32602)
               "Missing required parameters: humming_file_path and style_prompt"), start).
Proof.
  split; [reflexivity |].
  exact (proj1 (C4_humming_without_style_prompt offline
                  (tools_call (JInt 9) "generate_music_from_humming"
                     [("humming_file_path", JStr "hum.wav")]) start)
           (Mcp.mkMCPRequest "2.0" 9 "tools/call"
              [("name", JStr "generate_music_from_humming");
               ("arguments", JObj [("humming_file_path", JStr "hum.wav")])])
           [("humming_file_path", JStr "hum.wav")]
           eq_refl eq_refl eq_refl eq_refl eq_refl).
Defined.

(** C4 as the specification has it fails.  In [api/index.py] a call of the
    humming tool whose arguments have no [style_prompt] is answered with a
    result, not with the error -32602; in [api/mcp.py] such a call in a
    request without an id is answered with -32603. *)
Lemma C4_index_humming_without_style_prompt_is_a_result :
  dict_get "style_prompt" [("humming_path", JStr "hum.wav")] = None /\
  (exists r,
     run (Index.handle_mcp_request offline
            (tools_call (JInt 1) "generate_music_from_humming"
               [("humming_path", JStr "hum.wav")])) start = Return r /\
     has_field "result" r = true /\
     error_code r <> Some (-32602)) /\
  (exists r,
     run (Mcp.handle_mcp_request offline
            [("jsonrpc", JStr "2.0"); ("method", JStr "tools/call");
             ("params",
              JObj [("name", JStr "generate_music_from_humming");
                    ("arguments", JObj [("humming_file_path", JStr "hum.wav")])])])
       start = Return r /\
     error_code r = Some (-32603) /\
     error_code r <> Some (-32602)).
Proof.
  split; [reflexivity |]. split.
  - eexists. split; [vm_compute; reflexivity |]. split; [reflexivity | discriminate].
  - eexists. split; [vm_compute; reflexivity |]. split; [reflexivity | discriminate].
Qed.

(** C5 as the code has it.  In [api/mcp.py], a [tools/call] of the WAV tool
    (in a request that [MCPRequest] accepts) whose [wav_file_path] is a
    non-empty string naming no file and no directory is answered with a
    result whose text is the failure marker followed by
    [WAV file not found: ] and the path, not with an error.  In
    [api/index.py] the path is never looked up: a call whose arguments are
    among [wav_path], [render_svg] and [timestamp], with [wav_path] given, is
    answered with a result whose text is the dump of a dictionary marked
    successful, and opens with a brace, not with a failure marker. *)
Theorem C5_wav_file_not_found
    (w : World) (request_data : dict) (s : State) :
  (forall rq arguments path,
     Mcp.validate w request_data = Some rq ->
     Mcp.req_method rq = "tools/call" ->
     dict_get "name" (Mcp.req_params rq) = Some (JStr "wav_to_music_score") ->
     dict_get_or "arguments" (JObj []) (Mcp.req_params rq) = JObj arguments ->
     dict_get "wav_file_path" arguments = Some (JStr path) ->
     path <> "" ->
     path ∉ dom (fs_files s) ->
     path ∉ fs_dirs s ->
     Mcp.handle_mcp_request w request_data s =
       (Return (rpc_result (JInt (Mcp.req_id rq))
                  (text_content ("❌ WAV file not found: " +:+ path))), bump s)) /\
  (forall params arguments,
     dict_get "method" request_data = Some (JStr "tools/call") ->
     dict_get "params" request_data = Some (JObj params) ->
     dict_get "name" params = Some (JStr "wav_to_music_score") ->
     dict_get_or "arguments" (JObj []) params = JObj arguments ->
     first_unknown ["wav_path"; "render_svg"; "timestamp"] arguments = None ->
     dict_has "wav_path" arguments = true ->
     exists res s',
       Index.handle_mcp_request w request_data s =
         (Return (rpc_result (dict_get_or "id" (JInt 0) request_data)
                    (text_content (json_dumps (JObj res) 2))), s') /\
       dict_get "success" res = Some (JBool true) /\
       startswith (json_dumps (JObj res) 2) "{" = true /\
       startswith (json_dumps (JObj res) 2) "❌" = false).
Proof.
  split.
  - intros rq arguments path Hv Hm Hn Ha Hp Hne Hf Hd.
    eapply (mcp_wav_not_found w request_data arguments rq (JStr path)); try eassumption.
    + cbn. apply negb_true_iff. apply String.eqb_neq. exact Hne.
    + apply mcp_os_path_exists_absent; assumption.
  - intros params arguments Hm Hp Hn Ha Hu Hw.
    destruct (index_call_wav_result w request_data params arguments s Hm Hp Hn Ha Hu Hw)
      as (res & s' & Hrun & Hs).
    exists res, s'. split; [exact Hrun |]. split; [exact Hs |].
    split; [apply json_dumps_dict_prefix | apply json_dumps_dict_no_marker].
Qed.

Lemma C5_wav_file_not_found_witness :
  ("/no/such.wav" ∉ dom (fs_files start)) /\
  Mcp.handle_mcp_request offline
    (tools_call (JInt 4) "wav_to_music_score" [("wav_file_path", JStr "/no/such.wav")])
    start =
    (Return (rpc_result (JInt 4) (text_content "❌ WAV file not found: /no/such.wav")),
     bump start).
Proof.
  assert (Hf : "/no/such.wav" ∉ dom (fs_files start)) by (cbn; set_solver).
  split; [exact Hf |].
  refine (proj1 (C5_wav_file_not_found offline
                   (tools_call (JInt 4) "wav_to_music_score"
                      [("wav_file_path", JStr "/no/such.wav")]) start)
            (Mcp.mkMCPRequest "2.0" 4 "tools/call"
               [("name", JStr "wav_to_music_score");
                ("arguments", JObj [("wav_file_path", JStr "/no/such.wav")])])
            [("wav_file_path", JStr "/no/such.wav")] "/no/such.wav"
            eq_refl eq_refl eq_refl eq_refl eq_refl _ Hf _).
  - discriminate.
  - cbn. set_solver.
Defined.

(** C5 as the specification has it fails.  In [api/index.py], with a path
    that names nothing on the disk, the text of the result is the dump of a
    dictionary marked successful and carries no failure marker.  In
    [api/mcp.py] the empty path, which names nothing either, is answered with
    the error -32602, and a request without an id with the error -32603. *)
Lemma C5_index_reports_success_for_a_missing_file :
  ("/no/such.wav" ∉ dom (fs_files start)) /\
  ("/no/such.wav" ∉ fs_dirs start) /\
  (exists r t,
     run (Index.handle_mcp_request offline
            (tools_call (JInt 1) "wav_to_music_score"
               [("wav_path", JStr "/no/such.wav"); ("render_svg", JBool false)])) start =
       Return r /\
     result_text r = Some t /\
     startswith t "❌" = false /\
     startswith t ("{" +:+ newline +:+ "  " +:+ dquote +:+ "success" +:+ dquote +:+ ": true")
       = true) /\
  (exists r,
     run (Mcp.handle_mcp_request offline
            (tools_call (JInt 1) "wav_to_music_score" [("wav_file_path", JStr "")])) start =
       Return r /\
     error_code r = Some (-32602)) /\
  (exists r,
     run (Mcp.handle_mcp_request offline
            [("method", JStr "tools/call");
             ("params",
              JObj [("name", JStr "wav_to_music_score");
                    ("arguments", JObj [("wav_file_path", JStr "/no/such.wav")])])]) start =
       Return r /\
     error_code r = Some (-32603)).
Proof.
  split; [cbn; set_solver |]. split; [cbn; set_solver |].
  split; [| split].
  - eexists. eexists. split; [vm_compute; reflexivity |].
    split; [reflexivity |]. split; reflexivity.
  - eexists. split; [vm_compute; reflexivity | reflexivity].
  - eexists. split; [vm_compute; reflexivity | reflexivity].
Qed.

(** C6 as the code has it.  A request without a [method] key is answered
    with an error for the id of the request, or 0 when it has none: the error
    -32601 by [api/index.py], the error -32603 by [api/mcp.py], where
    [MCPRequest] refuses the request. *)
Theorem C6_request_without_method
    (w : World) (request_data : dict) (s : State) :
  dict_get "method" request_data = None ->
  Index.handle_mcp_request w request_data s =
    (Return (rpc_error (dict_get_or "id" (JInt 0) request_data) (-32601)
               "Method not found: None"), s) /\
  Mcp.handle_mcp_request w request_data s =
    (Return (rpc_error (dict_get_or "id" (JInt 0) request_data) (-32603)
               ("Internal error: " +:+ validation_error w request_data)), s).
Proof.
  intros Hm. split.
  - apply index_missing_method. exact Hm.
  - apply mcp_invalid. apply mcp_validate_needs_method. exact Hm.
Qed.

Lemma C6_request_without_method_witness :
  dict_get "method" [("jsonrpc", JStr "2.0"); ("id", JInt 7)] = None /\
  Index.handle_mcp_request offline [("jsonrpc", JStr "2.0"); ("id", JInt 7)] start =
    (Return (rpc_error (JInt 7) (-32601) "Method not found: None"), start) /\
  Mcp.handle_mcp_request offline [("jsonrpc", JStr "2.0"); ("id", JInt 7)] start =
    (Return (rpc_error (JInt 7) (-32603)
               "Internal error: 1 validation error for MCPRequest"), start).
Proof.
  split; [reflexivity |].
  exact (C6_request_without_method offline [("jsonrpc", JStr "2.0"); ("id", JInt 7)]
           start eq_refl).
Defined.

(** C6 as the specification has it fails in [api/mcp.py]: a request without
    a method is answered with -32603, not -32601, with an id or without. *)
Lemma C6_mcp_request_without_method_is_not_32601 :
  (exists r,
     run (Mcp.handle_mcp_request offline [("jsonrpc", JStr "2.0"); ("id", JInt 7)]) start =
       Return r /\
     field "id" r = Some (JInt 7) /\
     error_code r = Some (-32603) /\
     error_code r <> Some (-32601)) /\
  (exists r,
     run (Mcp.handle_mcp_request offline [("jsonrpc", JStr "2.0")]) start = Return r /\
     field "id" r = Some (JInt 0) /\
     error_code r = Some (-32603) /\
     error_code r <> Some (-32601)).
Proof.
  split; eexists; (split; [vm_compute; reflexivity |]);
    (split; [reflexivity |]); (split; [reflexivity | discriminate]).
Qed.

(** C7 as the code has it.  [tools/list] is answered with a result whose
    tools are exactly two descriptors, named [wav_to_music_score] and
    [generate_music_from_humming].  In [api/mcp.py] (for a request that
    [MCPRequest] accepts) the first requires [wav_file_path] and the second
    [humming_file_path] and [style_prompt]; in [api/index.py] the first
    requires [wav_path] and the second [humming_path] alone. *)
Theorem C7_tools_list
    (w : World) (request_data : dict) (s : State) :
  (forall rq,
     Mcp.validate w request_data = Some rq ->
     Mcp.req_method rq = "tools/list" ->
     exists r wav humming,
       Mcp.handle_mcp_request w request_data s = (Return r, s) /\
       result_tools r = Some [wav; humming] /\
       tool_name wav = Some (JStr "wav_to_music_score") /\
       tool_required wav = Some (JList [JStr "wav_file_path"]) /\
       tool_name humming = Some (JStr "generate_music_from_humming") /\
       tool_required humming =
         Some (JList [JStr "humming_file_path"; JStr "style_prompt"])) /\
  (dict_get "method" request_data = Some (JStr "tools/list") ->
   exists r wav humming,
     Index.handle_mcp_request w request_data s = (Return r, s) /\
     result_tools r = Some [wav; humming] /\
     tool_name wav = Some (JStr "wav_to_music_score") /\
     tool_required wav = Some (JList [JStr "wav_path"]) /\
     tool_name humming = Some (JStr "generate_music_from_humming") /\
     tool_required humming = Some (JList [JStr "humming_path"])).
Proof.
  split.
  - intros rq Hv Hm. eexists. eexists. eexists.
    split; [apply (mcp_tools_list w request_data rq s Hv Hm) |].
    repeat split.
  - intros Hm. eexists. eexists. eexists.
    split; [apply (index_tools_list w request_data s Hm) |].
    repeat split.
Qed.

Lemma C7_tools_list_witness :
  Mcp.validate offline (request (JInt 2) "tools/list" []) =
    Some (Mcp.mkMCPRequest "2.0" 2 "tools/list" []) /\
  exists r wav humming,
    Mcp.handle_mcp_request offline (request (JInt 2) "tools/list" []) start =
      (Return r, start) /\
    result_tools r = Some [wav; humming] /\
    tool_name wav = Some (JStr "wav_to_music_score") /\
    tool_required wav = Some (JList [JStr "wav_file_path"]) /\
    tool_name humming = Some (JStr "generate_music_from_humming") /\
    tool_required humming = Some (JList [JStr "humming_file_path"; JStr "style_prompt"]).
Proof.
  split; [reflexivity |].
  exact (proj1 (C7_tools_list offline (request (JInt 2) "tools/list" []) start)
           (Mcp.mkMCPRequest "2.0" 2 "tools/list" []) eq_refl eq_refl).
Defined.

(** C7 as the specification has it fails in [api/index.py]: the humming
    descriptor of its [tools/list] requires [humming_path] alone, not
    [style_prompt]; and in [api/mcp.py] a [tools/list] without an id is
    answered with an error, not with the descriptors. *)
Lemma C7_index_humming_tool_does_not_require_style_prompt :
  (exists r wav humming,
     run (Index.handle_mcp_request offline (request (JInt 2) "tools/list" [])) start =
       Return r /\
     result_tools r = Some [wav; humming] /\
     tool_name humming = Some (JStr "generate_music_from_humming") /\
     tool_required humming = Some (JList [JStr "humming_path"]) /\
     tool_required humming <> Some (JList [JStr "humming_file_path"; JStr "style_prompt"])) /\
  (exists r,
     run (Mcp.handle_mcp_request offline [("method", JStr "tools/list")]) start = Return r /\
     result_tools r = None /\
     error_code r = Some (-32603)).
Proof.
  split.
  - eexists. eexists. eexists. split; [vm_compute; reflexivity |].
    split; [reflexivity |]. split; [reflexivity |]. split; [reflexivity | discriminate].
  - eexists. split; [vm_compute; reflexivity |]. split; reflexivity.
Qed.

(* ===================================================================== *)
(** ** More of the code: what runs keep *)
(* ===================================================================== *)

Section Keeps.

Variable R : State -> State -> Prop.
Hypothesis HR : frame R.

Lemma keeps_ret {A : Type} (a : A) : keeps R (ret a).
Proof. intros s o s' H. injection H as _ Hs; subst s'. apply HR. Qed.

Lemma keeps_raise {A : Type} (e : exn) : keeps R (@raise A e).
Proof. intros s o s' H. injection H as _ Hs; subst s'. apply HR. Qed.

Lemma keeps_lift {A : Type} (o : outcome A) : keeps R (lift o).
Proof. intros s o' s' H. injection H as _ Hs; subst s'. apply HR. Qed.

Lemma keeps_bind {A B : Type} (c : M A) (k : A -> M B) :
  keeps R c -> (forall a, keeps R (k a)) -> keeps R (bind c k).
Proof.
  destruct HR as (_ & R_trans & _).
  intros Hc Hk s o s'. unfold bind. destruct (c s) as [[a | e] s1] eqn:E; intros H.
  - eapply R_trans; [eapply Hc; exact E | eapply Hk; exact H].
  - injection H as _ Hs; subst s'. eapply Hc. exact E.
Qed.

Lemma keeps_try_except {A : Type} (c : M A) (h : exn -> M A) :
  keeps R c -> (forall e, keeps R (h e)) -> keeps R (try_except c h).
Proof.
  destruct HR as (_ & R_trans & _).
  intros Hc Hh s o s'. unfold try_except. destruct (c s) as [[a | e] s1] eqn:E; intros H.
  - injection H as _ Hs; subst s'. eapply Hc. exact E.
  - eapply R_trans; [eapply Hc; exact E | eapply Hh; exact H].
Qed.

Lemma keeps_now (w : World) : keeps R (now w).
Proof. intros s o s' H. injection H as _ Hs; subst s'. apply HR. Qed.

Lemma keeps_requests_post (w : World) (c : HttpCall) : keeps R (requests_post w c).
Proof. intros s o s' H. injection H as _ Hs; subst s'. apply HR. Qed.

Lemma keeps_py_get (v : json) (k : string) (default : json) :
  keeps R (py_get v k default).
Proof. destruct v; cbn [py_get]; try apply keeps_raise; apply keeps_ret. Qed.

Lemma keeps_os_call {A : Type} (w : World) (k : M A) :
  keeps R k -> keeps R (os_call w k).
Proof.
  destruct HR as (_ & R_trans & R_bump).
  intros Hk s o s'. unfold os_call. destruct (os_fault w (tick s)); intros H.
  - injection H as _ Hs; subst s'. apply R_bump.
  - eapply R_trans; [apply R_bump | eapply Hk; exact H].
Qed.

Lemma keeps_open_rb (w : World) (p : json) : keeps R (Mcp.open_rb w p).
Proof.
  destruct p as [| b | n | r | path | l | d]; cbn [Mcp.open_rb]; try apply keeps_raise.
  - intros s o s' H. injection H as _ Hs; subst s'. apply HR.
  - intros s o s' H. injection H as _ Hs; subst s'. apply HR.
  - apply keeps_os_call. intros s o s' H.
    destruct (fs_files s !! path); [| destruct (bool_decide _)];
      injection H as _ Hs; subst s'; apply HR.
Qed.

Lemma keeps_os_path_exists (w : World) (p : json) : keeps R (Mcp.os_path_exists w p).
Proof.
  destruct p as [| b | n | r | path | l | d]; cbn [Mcp.os_path_exists];
    try apply keeps_raise;
    intros s o s' H; try (injection H as _ Hs; subst s'; apply HR).
  destruct (os_fault w (tick s)); injection H as _ Hs; subst s'; apply HR.
Qed.

End Keeps.

#[local] Set Warnings "-clear-no-such-hyp".

Lemma same_disk_frame : frame same_disk.
Proof.
  split; [| split].
  - intros s. split; reflexivity.
  - intros s1 s2 s3 [H1 H2] [H3 H4]. split; congruence.
  - intros s. split; reflexivity.
Qed.

Lemma same_disk_only_scratch_written (s s' : State) :
  same_disk s s' -> only_scratch_written s s'.
Proof.
  intros [Hf Hd]. repeat split.
  - intros p _. rewrite Hf. reflexivity.
  - rewrite Hf. reflexivity.
  - rewrite Hd. reflexivity.
  - rewrite Hd. set_solver.
Qed.

Lemma only_scratch_written_frame : frame only_scratch_written.
Proof.
  split; [| split].
  - intros s. apply same_disk_only_scratch_written. split; reflexivity.
  - intros s1 s2 s3 (F1 & D1 & E1 & G1) (F2 & D2 & E2 & G2). repeat split.
    + intros p Hp. rewrite (F2 p Hp). apply F1. exact Hp.
    + set_solver.
    + set_solver.
    + set_solver.
  - intros s. apply same_disk_only_scratch_written. split; reflexivity.
Qed.

(** Breaks a goal [keeps R c] along the structure of [c], [HR] being the
    proof that [R] is a frame. *)
Ltac keep HR :=
  repeat first
    [ assumption
    | match goal with H : context [keeps] |- keeps _ _ => apply H end
    | apply (keeps_bind _ HR); [| intros ?]
    | apply (keeps_try_except _ HR); [| intros ?]
    | match goal with |- keeps _ (if ?b then _ else _) => destruct b end
    | match goal with |- keeps _ (match ?x with _ => _ end) => destruct x end
    | apply (keeps_ret _ HR)
    | apply (keeps_raise _ HR)
    | apply (keeps_lift _ HR)
    | apply (keeps_now _ HR)
    | apply (keeps_requests_post _ HR)
    | apply (keeps_py_get _ HR)
    | apply (keeps_open_rb _ HR)
    | apply (keeps_os_path_exists _ HR) ].

(** *** [render_musicxml_via_verovio_api] *)

Lemma mcp_render_keeps_disk (w : World) (musicxml_path : string) :
  keeps same_disk (Mcp.render_musicxml_via_verovio_api w musicxml_path).
Proof.
  unfold Mcp.render_musicxml_via_verovio_api, response_json, Mcp.subscript_svg,
    Mcp.encode_b64.
  keep same_disk_frame.
Qed.


(** *** [wav_to_musicxml] and [generate_music_from_hum] of [api/mcp.py] *)

Lemma os_call_Return {A : Type} (w : World) (k : M A) (s s' : State) (a : A) :
  os_call w k s = (Return a, s') ->
  os_fault w (tick s) = None /\ k (bump s) = (Return a, s').
Proof.
  unfold os_call. destruct (os_fault w (tick s)); intros H; [discriminate H |].
  split; [reflexivity | exact H].
Qed.

Lemma mcp_mkdir_Return (w : World) (p : string) (s s' : State) (u : unit) :
  Mcp.mkdir_exist_ok w p s = (Return u, s') ->
  s' = mkState (S (tick s)) (fs_files s) ({[p]} ∪ fs_dirs s).
Proof.
  unfold Mcp.mkdir_exist_ok. intros H. apply os_call_Return in H. destruct H as [_ H].
  cbn in H. destruct (bool_decide (p ∈ dom (fs_files s))); [discriminate H |].
  injection H as _ <-. reflexivity.
Qed.

Lemma mcp_write_file_Return (w : World) (p body : string) (s s' : State) (u : unit) :
  Mcp.write_file w p body s = (Return u, s') ->
  s' = mkState (S (tick s)) (<[p := body]> (fs_files s)) (fs_dirs s).
Proof.
  unfold Mcp.write_file. intros H. apply os_call_Return in H. destruct H as [_ H].
  cbn in H. destruct (bool_decide (p ∈ fs_dirs s)); [discriminate H |].
  injection H as _ <-. reflexivity.
Qed.

Lemma mcp_scratch_path (ts ext : string) :
  Mcp.path_join "/tmp/output" ("generated_" +:+ ts +:+ ext) =
    "/tmp/output/generated_" +:+ ts +:+ ext /\
  scratch (Mcp.path_join "/tmp/output" ("generated_" +:+ ts +:+ ext)) = true.
Proof.
  split; [reflexivity |].
  unfold scratch, Mcp.path_join, startswith. cbn.
  destruct (ts +:+ ext); reflexivity.
Qed.

(** What [wav_to_musicxml] of [api/mcp.py] has done when it returns. *)
Lemma mcp_wav_to_musicxml_Return
    (w : World) (wav_path : json) (timestamp : option string) (s s' : State) (p : string) :
  Mcp.wav_to_musicxml w wav_path timestamp s = (Return p, s') ->
  exists ts,
    p = "/tmp/output/generated_" +:+ ts +:+ ".musicxml" /\
    (forall t, timestamp = Some t -> t <> "" -> ts = t) /\
    fs_files s' !! p = Some Mcp.placeholder_musicxml /\
    "/tmp/output" ∈ fs_dirs s' /\
    (forall q, q <> p -> fs_files s' !! q = fs_files s !! q) /\
    (forall other, Mcp.wav_to_musicxml w other timestamp s = (Return p, s')).
Proof.
  intros H. assert (Hrun := H). unfold Mcp.wav_to_musicxml in H.
  bind_inv H. rename a into ts. rename s0 into s1.
  assert (Hts : same_disk s s1 /\ (forall t, timestamp = Some t -> t <> "" -> ts = t)).
  { destruct timestamp as [t |].
    - destruct (String.eqb t "") eqn:Et.
      + injection Hc as _ <-. split; [split; reflexivity |].
        intros t' [= <-] Hne. apply String.eqb_eq in Et. contradiction.
      + ret_inv Hc. split; [split; reflexivity |]. intros t' [= <-] _. reflexivity.
    - injection Hc as _ <-. split; [split; reflexivity |]. intros t' Ht. discriminate Ht. }
  destruct Hts as [[Hf Hd] Hgiven].
  bind_inv H. apply mcp_mkdir_Return in Hc0. subst s0.
  bind_inv H. apply mcp_write_file_Return in Hc0. subst s0.
  ret_inv H. cbn [tick fs_files fs_dirs].
  exists ts. split; [apply mcp_scratch_path |]. split; [exact Hgiven |].
  split; [apply lookup_insert_eq |].
  split; [set_solver |].
  split; [| intros other; exact Hrun].
  intros q Hq. rewrite lookup_insert_ne by congruence. rewrite Hf. reflexivity.
Qed.







(** *** What [api/mcp.py] writes *)

Lemma keeps_weaken {A : Type} (R R' : State -> State -> Prop) (c : M A) :
  (forall s s', R s s' -> R' s s') -> keeps R c -> keeps R' c.
Proof. intros HRR Hc s o s' H. apply HRR. eapply Hc. exact H. Qed.

Lemma mcp_mkdir_keeps (w : World) :
  keeps only_scratch_written (Mcp.mkdir_exist_ok w "/tmp/output").
Proof.
  apply (keeps_os_call _ only_scratch_written_frame). intros s o s' H.
  destruct (bool_decide _); injection H as _ <-.
  - apply only_scratch_written_frame.
  - repeat split; cbn; [reflexivity | set_solver | set_solver].
Qed.

Lemma mcp_write_file_keeps (w : World) (p body : string) :
  scratch p = true -> keeps only_scratch_written (Mcp.write_file w p body).
Proof.
  intros Hp. apply (keeps_os_call _ only_scratch_written_frame). intros s o s' H.
  destruct (bool_decide _); injection H as _ <-.
  - apply only_scratch_written_frame.
  - repeat split; cbn.
    + intros q Hq. apply lookup_insert_ne. intros ->. congruence.
    + rewrite dom_insert_L. set_solver.
    + reflexivity.
    + set_solver.
Qed.

Lemma mcp_render_keeps (w : World) (musicxml_path : string) :
  keeps only_scratch_written (Mcp.render_musicxml_via_verovio_api w musicxml_path).
Proof.
  eapply keeps_weaken; [apply same_disk_only_scratch_written | apply mcp_render_keeps_disk].
Qed.

Lemma mcp_wav_to_musicxml_keeps (w : World) (wav_path : json) (timestamp : option string) :
  keeps only_scratch_written (Mcp.wav_to_musicxml w wav_path timestamp).
Proof.
  unfold Mcp.wav_to_musicxml.
  pose proof (mcp_mkdir_keeps w) as Hm.
  keep only_scratch_written_frame;
    apply mcp_write_file_keeps; apply mcp_scratch_path.
Qed.

Lemma mcp_generate_music_from_hum_keeps (w : World) (melody_file prompt : json) :
  keeps only_scratch_written (Mcp.generate_music_from_hum w melody_file prompt).
Proof.
  unfold Mcp.generate_music_from_hum.
  pose proof (mcp_mkdir_keeps w) as Hm.
  keep only_scratch_written_frame;
    apply mcp_write_file_keeps; apply mcp_scratch_path.
Qed.

(** X4.  Whatever the request and whatever the outside does, the dispatcher
    of [api/mcp.py] removes no file and no directory, leaves every file
    whose path does not start with [/tmp/output/generated_] as it was, and
    makes no directory but [/tmp/output]. *)
Theorem mcp_handle_mcp_request_writes_only_generated_files
    (w : World) (request_data : dict) (s : State) :
  only_scratch_written s (snd (Mcp.handle_mcp_request w request_data s)).
Proof.
  destruct (Mcp.handle_mcp_request w request_data s) as [o s'] eqn:H. cbn [snd].
  revert s o s' H. change (keeps only_scratch_written (Mcp.handle_mcp_request w request_data)).
  unfold Mcp.handle_mcp_request, Mcp.MCPRequest_init, Mcp.dispatch,
    Mcp.tools_call_wav_to_music_score, Mcp.tools_call_generate_music_from_humming.
  pose proof (mcp_wav_to_musicxml_keeps w) as Hx.
  pose proof (mcp_generate_music_from_hum_keeps w) as Hg.
  pose proof (mcp_render_keeps w) as Hr.
  keep only_scratch_written_frame.
Qed.

(** *** What [api/index.py] never touches *)

Lemma fs_blind_call_kwargs (fname : string) (sig : list (string * option json))
    (arguments : json) :
  fs_blind (call_kwargs fname sig arguments).
Proof.
  unfold call_kwargs.
  repeat match goal with
         | |- fs_blind (match ?x with _ => _ end) => destruct x
         end; auto with blind.
Qed.

(** X5.  The dispatcher of [api/index.py] neither reads nor changes the
    disk: for every request, its response and the number of questions it asks
    of the clock and the network are the same whatever files and directories
    there are, and these are handed back as they were. *)
Theorem index_handle_mcp_request_never_touches_the_disk
    (w : World) (request_data : dict) :
  fs_blind (Index.handle_mcp_request w request_data).
Proof.
  unfold Index.handle_mcp_request, Index.dispatch, Index.call_wav_to_music_score,
    Index.call_generate_music_from_humming.
  pose proof (index_wav_to_music_score_blind w) as Hw.
  pose proof (index_generate_music_from_humming_blind w) as Hh.
  pose proof fs_blind_call_kwargs as Hk.
  repeat first
    [ solve [auto with blind]
    | apply fs_blind_bind; [| intros ?]
    | apply fs_blind_try_except; [| intros ?]
    | match goal with |- fs_blind (match ?x with _ => _ end) => destruct x end ].
Qed.

(** *** The texts of the tools of [api/mcp.py] *)

Lemma append_assoc (a b c : string) : (a +:+ b) +:+ c = a +:+ b +:+ c.
Proof.
  induction a as [| x a IH]; [reflexivity |].
  change (String x ((a +:+ b) +:+ c) = String x (a +:+ b +:+ c)). f_equal. exact IH.
Qed.

Lemma append_empty_r (a : string) : a +:+ "" = a.
Proof.
  induction a as [| x a IH]; [reflexivity |].
  change (String x (a +:+ "") = String x a). f_equal. exact IH.
Qed.

(** X6.  Every text the WAV tool of [api/mcp.py] answers with starts with
    the mark of success or with the mark of failure; when it starts with the
    mark of success, it goes on with the path of the MusicXML file, and that
    file then holds the placeholder document. *)
Theorem mcp_wav_tool_text_is_marked_and_success_is_truthful
    (w : World) (i arguments : json) (s s' : State) (r : json) (t : string) :
  Mcp.tools_call_wav_to_music_score w i arguments s = (Return r, s') ->
  result_text r = Some t ->
  marked t = true /\
  (startswith t "✅" = true ->
   exists p rest,
     t = "✅ Successfully generated MusicXML score from WAV file" +:+ newline +:+
         "📁 MusicXML file: " +:+ p +:+ rest /\
     fs_files s' !! p = Some Mcp.placeholder_musicxml).
Proof.
  unfold Mcp.tools_call_wav_to_music_score. intros H Ht.
  bind_inv H. bind_inv H.
  destruct (negb (truthy a)); [ret_inv H; discriminate Ht |].
  apply try_except_Return in H. destruct H as [H | (e & s2 & _ & H)].
  - bind_inv H. bind_inv H. ret_inv H. cbn in Ht. injection Ht as <-.
    destruct (negb a1).
    + ret_inv Hc2. split; [reflexivity | intros Hbad; discriminate Hbad].
    + bind_inv Hc2. bind_inv Hc2.
      apply mcp_wav_to_musicxml_Return in Hc4.
      destruct Hc4 as (ts & _ & _ & Hfile & _).
      destruct (truthy a0).
      * bind_inv Hc2.
        match goal with
        | Hr : Mcp.render_musicxml_via_verovio_api _ _ _ = _ |- _ =>
            apply mcp_render_keeps_disk in Hr; destruct Hr as [Hf _]
        end.
        match type of Hc2 with
        | context [if ?b then _ else _] => destruct b
        end; ret_inv Hc2;
          (split; [reflexivity |]); intros _;
          match type of Hfile with _ !! ?p = _ => exists p end;
          [ exists (newline +:+ "⚠️ SVG rendering failed: " +:+ a5)
          | exists (newline +:+ "🎼 Score rendered successfully as SVG" +:+ newline +:+ a5) ];
          (split; [rewrite !append_assoc; reflexivity | rewrite Hf; exact Hfile]).
      * ret_inv Hc2. split; [reflexivity |]. intros _.
        match type of Hfile with _ !! ?p = _ => exists p end. exists "".
        split; [rewrite append_empty_r; reflexivity | exact Hfile].
  - ret_inv H. cbn in Ht. injection Ht as <-. split; [reflexivity | intros Hbad; discriminate Hbad].
Qed.

Lemma mcp_wav_tool_text_is_marked_and_success_is_truthful_witness :
  exists r s' t p rest,
    Mcp.tools_call_wav_to_music_score online (JInt 1)
      (JObj [("wav_file_path", JStr "a.wav")]) with_audio = (Return r, s') /\
    result_text r = Some t /\
    marked t = true /\
    t = "✅ Successfully generated MusicXML score from WAV file" +:+ newline +:+
        "📁 MusicXML file: " +:+ p +:+ rest /\
    fs_files s' !! p = Some Mcp.placeholder_musicxml.
Proof.
  destruct (Mcp.tools_call_wav_to_music_score online (JInt 1)
              (JObj [("wav_file_path", JStr "a.wav")]) with_audio)
    as [[r | e] s'] eqn:Hrun; [| vm_compute in Hrun; discriminate Hrun].
  assert (Ht : exists t, result_text r = Some t /\ startswith t "✅" = true).
  { assert (Hcopy := Hrun). vm_compute in Hcopy. injection Hcopy as <- _.
    eexists. split; reflexivity. }
  destruct Ht as (t & Ht & Hok).
  destruct (mcp_wav_tool_text_is_marked_and_success_is_truthful online (JInt 1)
              (JObj [("wav_file_path", JStr "a.wav")]) with_audio s' r t Hrun Ht)
    as (Hmarked & Htruth).
  destruct (Htruth Hok) as (p & rest & Heq & Hfile).
  exists r, s', t, p, rest. repeat split; assumption.
Defined.

(** X7.  Every text the humming tool of [api/mcp.py] answers with starts
    with the mark of success or with the mark of failure. *)
Theorem mcp_humming_tool_text_is_marked
    (w : World) (i arguments : json) (s s' : State) (r : json) (t : string) :
  Mcp.tools_call_generate_music_from_humming w i arguments s = (Return r, s') ->
  result_text r = Some t ->
  marked t = true.
Proof.
  unfold Mcp.tools_call_generate_music_from_humming. intros H Ht.
  bind_inv H. bind_inv H. bind_inv H.
  destruct (negb (truthy a) || negb (truthy a0)); [ret_inv H; discriminate Ht |].
  apply try_except_Return in H. destruct H as [H | (e & s4 & _ & H)].
  - bind_inv H. bind_inv H. ret_inv H. cbn in Ht. injection Ht as <-.
    destruct (negb a2); [ret_inv Hc3; reflexivity |].
    bind_inv Hc3.
    destruct (startswith a4 "❌") eqn:Hfail.
    { ret_inv Hc3. unfold marked. rewrite Hfail. apply orb_true_r. }
    destruct (truthy a1); [| ret_inv Hc3; reflexivity].
    apply try_except_Return in Hc3. destruct Hc3 as [Hc3 | (e & s7 & _ & Hc3)].
    + bind_inv Hc3. bind_inv Hc3.
      apply try_except_Return in Hc3. destruct Hc3 as [Hc3 | (e & s10 & _ & Hc3)].
      * bind_inv Hc3.
        match type of Hc3 with
        | context [if ?b then _ else _] => destruct b
        end; ret_inv Hc3; reflexivity.
      * ret_inv Hc3. reflexivity.
    + ret_inv Hc3. reflexivity.
  - ret_inv H. cbn in Ht. injection Ht as <-. reflexivity.
Qed.

Lemma mcp_humming_tool_text_is_marked_witness :
  exists r s' t,
    Mcp.tools_call_generate_music_from_humming unavailable (JInt 1)
      (JObj [("humming_file_path", JStr "a.wav"); ("style_prompt", JStr "jazz")])
      with_audio = (Return r, s') /\
    result_text r = Some t /\
    marked t = true.
Proof.
  destruct (Mcp.tools_call_generate_music_from_humming unavailable (JInt 1)
              (JObj [("humming_file_path", JStr "a.wav"); ("style_prompt", JStr "jazz")])
              with_audio)
    as [[r | e] s'] eqn:Hrun; [| vm_compute in Hrun; discriminate Hrun].
  assert (Ht : exists t, result_text r = Some t).
  { assert (Hcopy := Hrun). vm_compute in Hcopy. injection Hcopy as <- _.
    eexists. reflexivity. }
  destruct Ht as (t & Ht).
  exists r, s', t. split; [reflexivity |]. split; [exact Ht |].
  exact (mcp_humming_tool_text_is_marked unavailable (JInt 1) _ with_audio s' r t Hrun Ht).
Defined.

(** *** The results of the tools of [api/index.py] *)

(** X8.  The result of [wav_to_music_score] of [api/index.py] always has
    the keys [musicxml] and [message]; it has the key [svg] exactly when
    [render_svg] is true in Python's sense, and then [svg] is the empty
    string whenever the rendering service raised or answered another status
    than 200. *)
Theorem index_wav_to_music_score_result_keys
    (w : World) (wav_path render_svg timestamp : json) (s : State) :
  exists res s',
    Index.wav_to_music_score w wav_path render_svg timestamp s = (Return res, s') /\
    dict_has "musicxml" res = true /\
    dict_has "message" res = true /\
    dict_has "svg" res = truthy render_svg /\
    (truthy render_svg = true ->
     forall xml s1,
       Index.create_placeholder_musicxml w "Audio Conversion" timestamp s = (Return xml, s1) ->
       match network w (tick s1)
               (mkHttpCall (VEROVIO_API_URL +:+ "/render_musicxml")
                  (Some (JObj [("musicxml", JStr xml)])) [] [] (Some 30))
       with
       | Return response => status_code response <> 200
       | Raise _ => True
       end ->
       dict_get "svg" res = Some (JStr "")).
Proof.
  unfold Index.wav_to_music_score.
  destruct (index_placeholder_total w "Audio Conversion" timestamp s) as (xml & s1 & Hxml).
  unfold try_except at 1. erewrite bind_step by exact Hxml.
  destruct (truthy render_svg).
  - match goal with
    | |- context [try_except ?c (fun e => ret (@?g e)) s1] =>
        destruct (try_except_total c g s1) as (res & s2 & Hrun & Hcase)
    end.
    rewrite Hrun. exists res, s2. split; [reflexivity |].
    destruct Hcase as [Hret | (e & _ & ->)].
    + bind_inv Hret. unfold requests_post in Hc. injection Hc as Hnet <-.
      destruct (status_code a =? 200) eqn:Hst.
      * bind_inv Hret. bind_inv Hret. ret_inv Hret.
        repeat split. intros _ xml' s1' Hxml' Hfail.
        rewrite Hxml in Hxml'. injection Hxml' as <- <-.
        rewrite Hnet in Hfail. apply Z.eqb_eq in Hst. contradiction.
      * ret_inv Hret. repeat split.
    + repeat split.
  - eexists. eexists. split; [reflexivity |]. repeat split.
    intros Hbad. discriminate Hbad.
Qed.

(** X9.  The result of [generate_music_from_humming] of [api/index.py]
    always has the keys [generated_audio] and [message], and has the key
    [musicxml] exactly when [generate_score] is true in Python's sense. *)
Theorem index_generate_music_from_humming_result_keys
    (w : World) (humming_path generate_score timestamp : json) (s : State) :
  exists res s',
    Index.generate_music_from_humming w humming_path generate_score timestamp s =
      (Return res, s') /\
    dict_has "generated_audio" res = true /\
    dict_has "message" res = true /\
    dict_has "musicxml" res = truthy generate_score.
Proof.
  unfold Index.generate_music_from_humming.
  match goal with
  | |- context [bind (try_except ?c (fun e => ret (@?g e))) ?k] =>
      destruct (try_except_total c g s) as (first & s1 & Hrun & Hcase);
      assert (Hfirst : exists a m,
                first = [("success", JBool true); ("generated_audio", a);
                         ("message", JStr m)])
  end.
  { destruct Hcase as [Hret | (e & _ & ->)].
    - bind_inv Hret. destruct (status_code a =? 200).
      + bind_inv Hret. bind_inv Hret. ret_inv Hret. eexists. eexists. reflexivity.
      + discriminate Hret.
    - eexists. eexists. reflexivity. }
  destruct Hfirst as (a & m & ->).
  unfold try_except at 1. erewrite bind_step by exact Hrun.
  destruct (truthy generate_score).
  - destruct (index_placeholder_total w "Generated from Humming" timestamp s1)
      as (xml & s2 & Hxml).
    erewrite bind_step by exact Hxml.
    eexists. eexists. split; [reflexivity |]. repeat split.
  - eexists. eexists. split; [reflexivity |]. repeat split.
Qed.

(* ===================================================================== *)
(** ** More of the code: the HTTP entry points *)
(* ===================================================================== *)

(** X10.  [do_POST] of [api/index.py] always sends one reply, with the JSON
    content type and the open CORS header.  Its status is 200 exactly when
    the body parsed to an object, and then the reply is the dump of the
    dispatcher's response, be it a JSON-RPC error; when the body did not
    parse, or parsed to something else than an object, the status is 500 and
    the reply is an error -32603 with the id 0, and nothing was asked of the
    outside. *)
Theorem index_do_POST_replies_200_or_500
    (w : World) (received : outcome json) (s : State) :
  exists reply s',
    IndexHttp.do_POST w received s = (Return reply, s') /\
    reply_headers reply =
      [("Content-Type", "application/json"); ("Access-Control-Allow-Origin", "*")] /\
    match received with
    | Return (JObj d) =>
        reply_status reply = 200 /\
        exists r,
          Index.handle_mcp_request w d s = (Return r, s') /\
          reply_body reply = json_dumps_line r
    | Return v =>
        reply_status reply = 500 /\ s' = s /\
        reply_body reply =
          json_dumps_line
            (internal_server_error
               (AttributeError ("'" +:+ type_name v +:+ "' object has no attribute 'get'")))
    | Raise e =>
        reply_status reply = 500 /\ s' = s /\
        reply_body reply = json_dumps_line (internal_server_error e)
    end.
Proof.
  unfold IndexHttp.do_POST.
  destruct received as [v | e].
  - destruct v as [| b | n | r | str | l | d];
      try (eexists; eexists; split; [reflexivity |]; split; [reflexivity |];
           repeat split).
    destruct (index_handle_envelope w d s) as (r & s' & Hrun & _).
    eexists. exists s'. split.
    + unfold try_except. erewrite bind_step by reflexivity.
      cbn [IndexHttp.handle_mcp_request]. erewrite bind_step by exact Hrun. reflexivity.
    + split; [reflexivity |]. split; [reflexivity |]. exists r. split; [exact Hrun | reflexivity].
  - eexists. eexists. split; [reflexivity |]. split; [reflexivity |]. repeat split.
Qed.

(** X11.  [handler] of [api/mcp.py] imports [json] inside its POST branch,
    so the name is local to the whole function: every request that is not an
    OPTIONS, and is not a POST on a request object without [get_json], ends
    in [UnboundLocalError] instead of a reply (a GET, a POST on an object
    that has [get_json], any other method), after whatever the dispatcher
    did. *)
Theorem mcp_handler_raises_UnboundLocalError
    (w : World) (request : McpHttp.Request) (s : State) :
  McpHttp.http_method request <> "OPTIONS" ->
  (McpHttp.http_method request = "POST" -> McpHttp.get_json request <> None) ->
  exists s',
    McpHttp.handler w request s =
      (Raise (Exn "UnboundLocalError"
                "cannot access local variable 'json' where it is not associated with a value"),
       s').
Proof.
  intros Hopt Hpost. unfold McpHttp.handler.
  destruct (String.eqb (McpHttp.http_method request) "OPTIONS") eqn:E1;
    [apply String.eqb_eq in E1; contradiction |].
  destruct (String.eqb (McpHttp.http_method request) "GET"); [eexists; reflexivity |].
  destruct (String.eqb (McpHttp.http_method request) "POST") eqn:E3;
    [| eexists; reflexivity].
  apply String.eqb_eq in E3. specialize (Hpost E3).
  destruct (McpHttp.get_json request) as [answer |]; [| contradiction].
  unfold try_except.
  match goal with
  | |- context [let (_, _) := ?c s in _] => destruct (c s) as [[a | e] s1] eqn:Hbody
  end.
  - bind_inv Hbody. bind_inv Hbody. bind_inv Hbody. discriminate Hc1.
  - eexists. reflexivity.
Qed.

Lemma mcp_handler_raises_UnboundLocalError_witness :
  exists s',
    McpHttp.handler offline
      (McpHttp.mkRequest "GET" None (Raise (Exn "JSONDecodeError" "Expecting value"))) start =
      (Raise (Exn "UnboundLocalError"
                "cannot access local variable 'json' where it is not associated with a value"),
       s').
Proof.
  apply (mcp_handler_raises_UnboundLocalError offline
           (McpHttp.mkRequest "GET" None (Raise (Exn "JSONDecodeError" "Expecting value")))
           start).
  - discriminate.
  - intros Hbad. discriminate Hbad.
Defined.

(** X12.  On a POST whose request object has no [get_json], [handler] of
    [api/mcp.py] always returns a reply: with status 200 and the dump of the
    dispatcher's response when the body parsed to an object, with status 500
    and an error -32603 with the id 0 when it did not parse or parsed to
    something else. *)
Theorem mcp_handler_post_from_body
    (w : World) (request : McpHttp.Request) (s : State) :
  McpHttp.http_method request = "POST" ->
  McpHttp.get_json request = None ->
  let headers :=
    [("Content-Type", JStr "application/json"); ("Access-Control-Allow-Origin", JStr "*")] in
  match McpHttp.body_loads request with
  | Return (JObj d) =>
      exists r s',
        Mcp.handle_mcp_request w d s = (Return r, s') /\
        McpHttp.handler w request s =
          (Return (McpHttp.reply 200 headers (json_dumps_line r)), s')
  | Return v =>
      McpHttp.handler w request s =
        (Return (McpHttp.reply 500 headers
                   (json_dumps_line
                      (internal_server_error
                         (AttributeError
                            ("'" +:+ type_name v +:+ "' object has no attribute 'get'"))))), s)
  | Raise e =>
      McpHttp.handler w request s =
        (Return (McpHttp.reply 500 headers (json_dumps_line (internal_server_error e))), s)
  end.
Proof.
  intros Hm Hg headers. unfold McpHttp.handler. rewrite Hm, Hg.
  cbn [String.eqb Ascii.eqb Bool.eqb].
  destruct (McpHttp.body_loads request) as [v | e]; [| reflexivity].
  destruct v as [| b | n | r | str | l | d]; try reflexivity.
  destruct (mcp_handle_envelope w d s) as (r & s' & i & Hrun & _).
  exists r, s'. split; [exact Hrun |].
  unfold try_except. erewrite bind_step by reflexivity.
  cbn [McpHttp.handle_mcp_request]. erewrite bind_step by exact Hrun. reflexivity.
Qed.

Lemma mcp_handler_post_from_body_witness :
  exists r s',
    Mcp.handle_mcp_request offline (request (JInt 2) "tools/list" []) start = (Return r, s') /\
    McpHttp.handler offline
      (McpHttp.mkRequest "POST" None (Return (JObj (request (JInt 2) "tools/list" []))))
      start =
      (Return (McpHttp.reply 200
                 [("Content-Type", JStr "application/json");
                  ("Access-Control-Allow-Origin", JStr "*")]
                 (json_dumps_line r)), s').
Proof.
  exact (mcp_handler_post_from_body offline
           (McpHttp.mkRequest "POST" None (Return (JObj (request (JInt 2) "tools/list" []))))
           start eq_refl eq_refl).
Defined.

(* ===================================================================== *)
(** ** More of the code: the tools of [music_toolkit_server.py] *)
(* ===================================================================== *)

(** X13.  The tool [wav_to_music_score] of [music_toolkit_server.py] never
    raises, whatever the libraries do, and every text it returns starts with
    the mark of success or with the mark of failure. *)
Theorem server_wav_to_music_score_returns_marked_text
    (w : World) (music21 : bool) (transcribe : string -> string -> M string)
    (wav_file_path : string) (render_svg : bool) (s : State) :
  exists t s',
    Server.wav_to_music_score w music21 transcribe wav_file_path render_svg s =
      (Return t, s') /\
    marked t = true.
Proof.
  unfold Server.wav_to_music_score, try_except.
  match goal with
  | |- context [let (_, _) := ?c s in _] => destruct (c s) as [[t | e] s1] eqn:Hbody
  end.
  - exists t, s1. split; [reflexivity |].
    bind_inv Hbody. destruct (negb a); [ret_inv Hbody; reflexivity |].
    bind_inv Hbody. bind_inv Hbody.
    destruct render_svg; [| ret_inv Hbody; reflexivity].
    bind_inv Hbody.
    match type of Hbody with
    | context [if ?b then _ else _] => destruct b
    end; ret_inv Hbody; reflexivity.
  - destruct (Server.is_ImportError e); eexists; eexists; split; reflexivity.
Qed.

(** X14.  For a path that names no file and no directory (the empty path
    included), the tool [wav_to_music_score] of [music_toolkit_server.py]
    returns the text of the failure mark, [WAV file not found: ] and the
    path, and has done nothing else than look the path up. *)
Theorem server_wav_to_music_score_file_not_found
    (w : World) (music21 : bool) (transcribe : string -> string -> M string)
    (wav_file_path : string) (render_svg : bool) (s : State) :
  wav_file_path ∉ dom (fs_files s) ->
  wav_file_path ∉ fs_dirs s ->
  Server.wav_to_music_score w music21 transcribe wav_file_path render_svg s =
    (Return ("❌ WAV file not found: " +:+ wav_file_path), bump s).
Proof.
  intros Hf Hd. unfold Server.wav_to_music_score, try_except.
  erewrite bind_step by (apply mcp_os_path_exists_absent; assumption).
  reflexivity.
Qed.

Lemma server_wav_to_music_score_file_not_found_witness :
  Server.wav_to_music_score offline true (fun _ _ => ret "output/x.musicxml") "" true start =
    (Return "❌ WAV file not found: ", bump start).
Proof.
  apply (server_wav_to_music_score_file_not_found offline true
           (fun _ _ => ret "output/x.musicxml") "" true start);
    cbn; set_solver.
Defined.

(** X15.  Where [music21] could not be imported, the tool
    [wav_to_music_score] of [music_toolkit_server.py], given a path that
    exists, returns the text that names the missing libraries and how to
    install them; it has written nothing, and the transcription was not
    started. *)
Theorem server_wav_to_music_score_without_music21
    (w : World) (transcribe : string -> string -> M string)
    (wav_file_path : string) (render_svg : bool) (s s1 : State) :
  Mcp.os_path_exists w (JStr wav_file_path) s = (Return true, s1) ->
  Server.wav_to_music_score w false transcribe wav_file_path render_svg s =
    (Return ("❌ Missing required libraries: music21 library is required for MusicXML generation"
             +:+ newline +:+ "Please install: pip install basic-pitch music21"),
     bump s1).
Proof.
  intros Hfound. unfold Server.wav_to_music_score, try_except.
  erewrite bind_step by exact Hfound. cbn [negb].
  erewrite bind_step by reflexivity.
  unfold Server.wav_to_musicxml. cbn [negb]. reflexivity.
Qed.

Lemma server_wav_to_music_score_without_music21_witness :
  Mcp.os_path_exists offline (JStr "a.wav") with_audio = (Return true, bump with_audio) /\
  Server.wav_to_music_score offline false (fun _ _ => ret "output/x.musicxml") "a.wav" true
    with_audio =
    (Return ("❌ Missing required libraries: music21 library is required for MusicXML generation"
             +:+ newline +:+ "Please install: pip install basic-pitch music21"),
     bump (bump with_audio)).
Proof.
  assert (H : Mcp.os_path_exists offline (JStr "a.wav") with_audio =
              (Return true, bump with_audio)) by (vm_compute; reflexivity).
  split; [exact H |].
  exact (server_wav_to_music_score_without_music21 offline
           (fun _ _ => ret "output/x.musicxml") "a.wav" true with_audio _ H).
Defined.

(** X16.  The tool [generate_music_from_humming] of
    [music_toolkit_server.py] never raises, whatever the libraries do, and
    every text it returns starts with the mark of success or with the mark of
    failure. *)
Theorem server_generate_music_from_humming_returns_marked_text
    (w : World) (music21 : bool) (transcribe : string -> string -> M string)
    (humming_file_path style_prompt : string) (generate_score : bool) (s : State) :
  exists t s',
    Server.generate_music_from_humming w music21 transcribe humming_file_path style_prompt
      generate_score s = (Return t, s') /\
    marked t = true.
Proof.
  unfold Server.generate_music_from_humming.
  match goal with
  | |- context [try_except ?c (fun e => ret (@?g e)) s] =>
      destruct (try_except_total c g s) as (t & s' & Hrun & Hcase)
  end.
  exists t, s'. split; [exact Hrun |].
  destruct Hcase as [H | (e & _ & ->)]; [| reflexivity].
  bind_inv H. destruct (negb a); [ret_inv H; reflexivity |].
  bind_inv H.
  destruct (startswith a0 "❌") eqn:Hfail.
  { ret_inv H. unfold marked. rewrite Hfail. apply orb_true_r. }
  destruct generate_score; [| ret_inv H; reflexivity].
  apply try_except_Return in H. destruct H as [H | (e & s3 & _ & H)].
  - bind_inv H. destruct (startswith a1 "❌"); [ret_inv H; reflexivity |].
    apply try_except_Return in H. destruct H as [H | (e & s4 & _ & H)].
    + bind_inv H.
      match type of H with
      | context [if ?b then _ else _] => destruct b
      end; ret_inv H; reflexivity.
    + ret_inv H. reflexivity.
  - ret_inv H. reflexivity.
Qed.

(** X17.  Where [music21] could not be imported, a failed score does not
    fail the humming tool of [music_toolkit_server.py]: when the music was
    generated and a score was asked for, the tool returns the text of
    success, with the path of the generated music and the style, followed by
    the warning that the score generation failed for want of [music21]. *)
Theorem server_generate_music_from_humming_without_music21
    (w : World) (transcribe : string -> string -> M string)
    (humming_file_path style_prompt generated : string) (s s1 s2 : State) :
  Mcp.os_path_exists w (JStr humming_file_path) s = (Return true, s1) ->
  Server.generate_music_from_hum w humming_file_path style_prompt s1 =
    (Return generated, s2) ->
  startswith generated "❌" = false ->
  Server.generate_music_from_humming w false transcribe humming_file_path style_prompt
    true s =
    (Return ("✅ Successfully generated music from humming" +:+ newline +:+
             "📁 Generated music file: " +:+ generated +:+ newline +:+
             "🎵 Style: " +:+ style_prompt +:+ newline +:+
             "⚠️ Score generation failed: ❌ Score generation failed: music21 library is required for MusicXML generation"),
     bump s2).
Proof.
  intros Hfound Hgen Hok. unfold Server.generate_music_from_humming.
  unfold try_except at 1.
  erewrite bind_step by exact Hfound. cbn [negb].
  erewrite bind_step by exact Hgen. rewrite Hok.
  unfold try_except at 1.
  erewrite bind_step.
  2:{ unfold Server.generate_score_from_audio, try_except.
      erewrite bind_step by reflexivity.
      unfold Server.wav_to_musicxml. cbn [negb]. reflexivity. }
  cbn. rewrite !append_assoc. reflexivity.
Qed.

Lemma server_generate_music_from_humming_without_music21_witness :
  exists generated s',
    startswith generated "❌" = false /\
    Server.generate_music_from_humming online false (fun _ _ => ret "output/x.musicxml")
      "a.wav" "jazz" true with_audio =
      (Return ("✅ Successfully generated music from humming" +:+ newline +:+
               "📁 Generated music file: " +:+ generated +:+ newline +:+
               "🎵 Style: " +:+ "jazz" +:+ newline +:+
               "⚠️ Score generation failed: ❌ Score generation failed: music21 library is required for MusicXML generation"),
       s').
Proof.
  assert (Hfound : Mcp.os_path_exists online (JStr "a.wav") with_audio =
                   (Return true, bump with_audio)) by (vm_compute; reflexivity).
  destruct (Server.generate_music_from_hum online "a.wav" "jazz" (bump with_audio))
    as [[generated | e] s2] eqn:Hgen; [| vm_compute in Hgen; discriminate Hgen].
  assert (Hok : startswith generated "❌" = false).
  { assert (Hcopy := Hgen). vm_compute in Hcopy. injection Hcopy as <- _. reflexivity. }
  exists generated, (bump s2). split; [exact Hok |].
  exact (server_generate_music_from_humming_without_music21 online
           (fun _ _ => ret "output/x.musicxml") "a.wav" "jazz" generated
           with_audio _ s2 Hfound Hgen Hok).
Defined.

(* ===================================================================== *)
(** ** More of the code: the client of [example_usage.py] *)
(* ===================================================================== *)

Section ClientFacts.

Variable transport : dict -> option dict.

Lemma client_send_request_ids (self : Client.MusicToolkitMCPClient) (method : string)
    (params : json) :
  Client.request_id self = Z.of_nat (length (Client.sent self)) ->
  Client.sent_ids self =
    map (fun k => JInt (Z.of_nat k)) (seq 1 (length (Client.sent self))) ->
  let self' := snd (Client._send_request transport self method params) in
  Client.request_id self' = Z.of_nat (length (Client.sent self')) /\
  Client.sent_ids self' =
    map (fun k => JInt (Z.of_nat k)) (seq 1 (length (Client.sent self'))) /\
  Client.initialized self' = Client.initialized self /\
  exists r, Client.sent self' = r :: Client.sent self /\
            dict_get "method" r = Some (JStr method).
Proof.
  intros Hid Hids. cbn [snd Client._send_request Client.request_id Client.sent
                        Client.initialized length].
  split; [rewrite Hid; lia |]. split.
  - unfold Client.sent_ids in *. cbn [Client.sent rev].
    rewrite map_app, Hids, seq_S, map_app. cbn [map dict_get_or dict_get String.eqb
      Ascii.eqb Bool.eqb].
    rewrite Hid. do 3 f_equal. lia.
  - split; [reflexivity |]. eexists. split; reflexivity.
Qed.

Lemma client_step_invariant (self : Client.MusicToolkitMCPClient) (c : Client.call) :
  client_invariant self -> client_invariant (Client.step transport self c).
Proof.
  intros (Hid & Hids & Hgate).
  destruct c as [| | tool_name arguments]; cbn [Client.step].
  - unfold Client.initialize.
    destruct (Client._send_request transport self "initialize" _) as [response self'] eqn:E.
    pose proof (client_send_request_ids self "initialize"
                  (JObj [("protocolVersion", JStr "2024-11-05");
                         ("capabilities", JObj []);
                         ("clientInfo",
                          JObj [("name", JStr "MusicToolkit Example Client");
                                ("version", JStr "1.0")])]) Hid Hids) as H.
    cbv zeta in H. rewrite E in H. cbn [snd] in H.
    destruct H as (Hid' & Hids' & Hinit & r & Hsent & Hmethod).
    assert (Hself' : client_invariant self').
    { split; [exact Hid' |]. split; [exact Hids' |].
      intros Hfalse. rewrite Hsent. constructor; [exact Hmethod |].
      apply Hgate. rewrite <- Hinit. exact Hfalse. }
    destruct response as [resp |]; [| exact Hself'].
    destruct resp as [| kv resp]; [exact Hself' |].
    destruct (dict_get "result" (kv :: resp)); [| exact Hself'].
    cbn [snd]. split; [exact Hid' |]. split; [exact Hids' |].
    intros Hbad. discriminate Hbad.
  - unfold Client.list_tools. destruct (Client.initialized self) eqn:Hi; cbn [negb].
    + pose proof (client_send_request_ids self "tools/list" JNull Hid Hids) as H.
      cbv zeta in H. destruct H as (Hid' & Hids' & Hinit & _).
      split; [exact Hid' |]. split; [exact Hids' |].
      intros Hbad. rewrite Hinit, Hi in Hbad. discriminate Hbad.
    + cbn [snd]. split; [exact Hid |]. split; [exact Hids |].
      intros _. apply Hgate. reflexivity.
  - unfold Client.call_tool. destruct (Client.initialized self) eqn:Hi; cbn [negb].
    + pose proof (client_send_request_ids self "tools/call"
                    (JObj [("name", JStr tool_name); ("arguments", arguments)]) Hid Hids)
        as H.
      cbv zeta in H. destruct H as (Hid' & Hids' & Hinit & _).
      split; [exact Hid' |]. split; [exact Hids' |].
      intros Hbad. rewrite Hinit, Hi in Hbad. discriminate Hbad.
    + cbn [snd]. split; [exact Hid |]. split; [exact Hids |].
      intros _. apply Hgate. reflexivity.
Qed.

Lemma client_after_invariant (calls : list Client.call)
    (self : Client.MusicToolkitMCPClient) :
  client_invariant self -> client_invariant (Client.after transport calls self).
Proof.
  revert self. induction calls as [| c calls IH]; intros self H; [exact H |].
  cbn [Client.after fold_left]. apply IH. apply client_step_invariant. exact H.
Qed.


(** X19.  Whatever calls are made on a new client, as long as no
    [initialize] has been answered with a result the client has written
    nothing but [initialize] requests: [list_tools] and [call_tool] write
    nothing before. *)
Theorem client_writes_only_initialize_until_initialized (calls : list Client.call) :
  let self := Client.after transport calls Client.new in
  Client.initialized self = true \/
  Forall (fun r => dict_get "method" r = Some (JStr "initialize")) (Client.sent self).
Proof.
  destruct (client_after_invariant calls Client.new) as (_ & _ & Hgate).
  - repeat split. intros _. constructor.
  - cbv zeta. destruct (Client.initialized _); [left; reflexivity | right; apply Hgate; reflexivity].
Qed.

End ClientFacts.

(* ===================================================================== *)
(** ** More of the code: from the written score to its rendering *)
(* ===================================================================== *)



(* ===================================================================== *)
(** ** More of the code: the dispatchers again *)
(* ===================================================================== *)

(** X21.  In [api/mcp.py], a call of the humming tool (in a request that
    [MCPRequest] accepts) with a style prompt and a non-empty path that names
    no file and no directory is answered with a result, not an error: its
    text is the failure mark, [Humming file not found: ] and the path, and
    the generation service has not been called. *)
Theorem mcp_humming_file_not_found
    (w : World) (request_data arguments : dict) (rq : Mcp.MCPRequest) (path : string)
    (s : State) :
  Mcp.validate w request_data = Some rq ->
  Mcp.req_method rq = "tools/call" ->
  dict_get "name" (Mcp.req_params rq) = Some (JStr "generate_music_from_humming") ->
  dict_get_or "arguments" (JObj []) (Mcp.req_params rq) = JObj arguments ->
  dict_get "humming_file_path" arguments = Some (JStr path) ->
  path <> "" ->
  truthy (dict_get_or "style_prompt" JNull arguments) = true ->
  path ∉ dom (fs_files s) ->
  path ∉ fs_dirs s ->
  Mcp.handle_mcp_request w request_data s =
    (Return (rpc_result (JInt (Mcp.req_id rq))
               (text_content ("❌ Humming file not found: " +:+ path))), bump s).
Proof.
  intros Hv Hm Hn Ha Hp Hne Hsp Hf Hd. rewrite (mcp_valid w request_data rq s Hv).
  unfold try_except at 1. unfold Mcp.dispatch.
  rewrite Hm, Ha, (dict_get_or_Some _ _ _ _ Hn).
  cbn [String.eqb Ascii.eqb Bool.eqb eq_str].
  unfold Mcp.tools_call_generate_music_from_humming.
  erewrite bind_step by reflexivity. erewrite bind_step by reflexivity.
  erewrite bind_step by reflexivity.
  rewrite (dict_get_or_Some _ _ _ _ Hp), Hsp. cbn [truthy].
  replace (String.eqb path "") with false by (symmetry; apply String.eqb_neq; exact Hne).
  cbn [negb orb].
  unfold try_except.
  erewrite bind_step by (apply mcp_os_path_exists_absent; assumption).
  reflexivity.
Qed.

Lemma mcp_humming_file_not_found_witness :
  Mcp.handle_mcp_request online
    (tools_call (JInt 6) "generate_music_from_humming"
       [("humming_file_path", JStr "/no/hum.wav"); ("style_prompt", JStr "jazz")]) start =
    (Return (rpc_result (JInt 6) (text_content "❌ Humming file not found: /no/hum.wav")),
     bump start).
Proof.
  refine (mcp_humming_file_not_found online
            (tools_call (JInt 6) "generate_music_from_humming"
               [("humming_file_path", JStr "/no/hum.wav"); ("style_prompt", JStr "jazz")])
            [("humming_file_path", JStr "/no/hum.wav"); ("style_prompt", JStr "jazz")]
            (Mcp.mkMCPRequest "2.0" 6 "tools/call"
               [("name", JStr "generate_music_from_humming");
                ("arguments",
                 JObj [("humming_file_path", JStr "/no/hum.wav");
                       ("style_prompt", JStr "jazz")])])
            "/no/hum.wav" start eq_refl eq_refl eq_refl eq_refl eq_refl _ eq_refl _ _).
  - discriminate.
  - cbn. set_solver.
  - cbn. set_solver.
Defined.

(** X22.  Only [tools/call] reaches the outside: for every request whose
    method is another one (known or not, present or not), both dispatchers
    answer without a question to the clock, the network or the disk, and
    leave the state as it was. *)
Theorem only_tools_call_reaches_the_outside
    (w : World) (request_data : dict) (s : State) :
  (eq_str (dict_get_or "method" JNull request_data) "tools/call" = false ->
   snd (Index.handle_mcp_request w request_data s) = s) /\
  ((forall rq, Mcp.validate w request_data = Some rq -> Mcp.req_method rq <> "tools/call") ->
   snd (Mcp.handle_mcp_request w request_data s) = s).
Proof.
  split.
  - intros Hm. unfold Index.handle_mcp_request, try_except, Index.dispatch.
    rewrite Hm.
    repeat match goal with
           | |- context [if ?b then _ else _] => destruct b
           end; reflexivity.
  - intros Hm. destruct (Mcp.validate w request_data) as [rq |] eqn:Hv.
    + rewrite (mcp_valid w request_data rq s Hv).
      unfold try_except, Mcp.dispatch.
      replace (String.eqb (Mcp.req_method rq) "tools/call") with false
        by (symmetry; apply String.eqb_neq; apply Hm; reflexivity).
      repeat match goal with
             | |- context [if ?b then _ else _] => destruct b
             end; reflexivity.
    + rewrite (mcp_invalid w request_data s Hv). reflexivity.
Qed.

Lemma only_tools_call_reaches_the_outside_witness :
  snd (Index.handle_mcp_request online (request (JInt 1) "initialize" []) with_audio) =
    with_audio /\
  snd (Mcp.handle_mcp_request online (request (JInt 1) "initialize" []) with_audio) =
    with_audio.
Proof.
  destruct (only_tools_call_reaches_the_outside online (request (JInt 1) "initialize" [])
              with_audio) as [Hi Hm].
  split; [apply Hi; reflexivity |].
  apply Hm. intros rq Hv. vm_compute in Hv. injection Hv as <-. discriminate.
Defined.
